(** * Titan-AI trading core: signal fusion, risk gate, sizing, lifecycle

    A shallow embedding of the decision core of the repository:

    - [apps/desktop/run_api.py]: [VerifierAgent] (the risk gate) and
      [HARDetector] (the edge-decay monitor);
    - [apps/desktop/tms/risk/aggressive_risk.py]: [AggressiveRiskManager];
    - [apps/desktop/tms/strategies/hyper_growth_engine.py]:
      [CompoundGrowthTracker] and [HyperGrowthEngine];
    - [apps/desktop/tms/memecoin/memecoin_engine.py]: [MemecoinPosition]
      and the selling and position-management part of [MemecoinEngine].

    Conventions of the embedding.

    - Python [float] values are exact rationals ([Q]); every comparison of
      the source is the same comparison on [Q].  Rounding of binary floating
      point is not modelled.
    - Python [int] values are [Z].
    - A [dict] read with [.get(key, default)] is a record whose field is an
      [option]; a key read with [d[key]] is a plain field.  Dictionaries
      keyed by symbol are [gmap string _]; the one dictionary whose
      iteration order is observed is an association list.
    - Objects are records; a method is a function from the record (and its
      arguments) to the new record and the returned value.
    - The wall clock, environment variables, the broker and the swap venue
      are explicit arguments.  A raised exception is [None], or [Raised]
      where the object was already updated.
    - Logging and the [_on_trade] notification callbacks are not modelled. *)

From Stdlib Require Import QArith Qabs Qround Lqa ZArith Lia String Ascii List Bool DecimalString.
From stdpp Require Import base option gmap strings.
Import ListNotations.
Local Open Scope string_scope.
Local Open Scope Q_scope.

(** ** Primitives of the host language *)

Module Py.

(** Comparisons [x < y], [x <= y], [x > y], [x >= y], [x == y] on floats. *)
Definition ltb (x y : Q) : bool := negb (Qle_bool y x).
Definition leb (x y : Q) : bool := Qle_bool x y.
Definition gtb (x y : Q) : bool := ltb y x.
Definition geb (x y : Q) : bool := leb y x.
Definition eqb (x y : Q) : bool := Qeq_bool x y.

(** Builtin [max(a, b)] and [min(a, b)]: the first argument wins ties. *)
Definition max (a b : Q) : Q := if ltb a b then b else a.
Definition min (a b : Q) : Q := if ltb b a then b else a.

(** [int(x)]: truncation toward zero. *)
Definition int (q : Q) : Z := Z.quot (Qnum q) (Zpos (Qden q)).

(** Truth value of a number: zero is false. *)
Definition truthy (q : Q) : bool := negb (eqb q 0).

(** [x or d] on an optional number: [None] and zero fall through to [d]. *)
Definition or_else (x : option Q) (d : Q) : Q :=
  match x with
  | Some v => if truthy v then v else d
  | None => d
  end.

(** [x in l] for a list of floats. *)
Definition mem (x : Q) (l : list Q) : bool := existsb (eqb x) l.

(** [len(l)] as an integer. *)
Definition len {A} (l : list A) : Z := Z.of_nat (length l).

(** The slice [l[i:]]: a negative [i] counts from the end and is clipped
    at the start of the list; [l[-0:]] is [l[0:]], the whole list. *)
Definition slice_from {A} (i : Z) (l : list A) : list A :=
  let n := len l in
  let start := if (i <? 0)%Z then Z.max 0 (n + i) else Z.min i n in
  drop (Z.to_nat start) l.

(** Rounding to the nearest integer, ties to even, as the format
    specifications [.Nf] and [.N%] round. *)
Definition round_half_even (q : Q) : Z :=
  let f := Qfloor q in
  match Qcompare (q - inject_Z f) (1 # 2) with
  | Lt => f
  | Gt => (f + 1)%Z
  | Eq => if Z.even f then f else (f + 1)%Z
  end.

Definition digits (n : Z) : string :=
  NilZero.string_of_uint (N.to_uint (Z.to_N n)).

Fixpoint zeros (k : nat) : string :=
  match k with
  | O => ""
  | S k' => String "0" (zeros k')
  end.

Definition pad_zeros (w : nat) (s : string) : string :=
  zeros (w - String.length s) +:+ s.

(** [f"{q:.<prec>f}"]. *)
Definition fmt_f (prec : nat) (q : Q) : string :=
  let scale := (10 ^ Z.of_nat prec)%Z in
  let n := round_half_even (Qabs q * inject_Z scale) in
  (if ltb q 0 then "-" else "") +:+ digits (n / scale) +:+
  match prec with
  | O => ""
  | S _ => "." +:+ pad_zeros prec (digits (n mod scale))
  end.

(** [f"{q:.<prec>%}"]. *)
Definition fmt_pct (prec : nat) (q : Q) : string :=
  fmt_f prec (q * 100) +:+ "%".

(** [f"{n}"] for an integer. *)
Definition fmt_int (z : Z) : string :=
  NilZero.string_of_int (Z.to_int z).

(** [str.lower()] on ASCII text. *)
Definition lower_ascii (c : ascii) : ascii :=
  let n := nat_of_ascii c in
  if (65 <=? n)%nat && (n <=? 90)%nat then ascii_of_nat (n + 32) else c.

Fixpoint lower (s : string) : string :=
  match s with
  | EmptyString => EmptyString
  | String c s' => String (lower_ascii c) (lower s')
  end.

(** [pat in s] for strings: [pat] occurs as a contiguous substring. *)
Fixpoint contains (pat s : string) {struct s} : bool :=
  String.prefix pat s ||
  match s with
  | EmptyString => false
  | String _ s' => contains pat s'
  end.

End Py.

(** ** run_api.py: the risk gate *)

Module VerifierAgent.

(** A signal dictionary: ["symbol"] and ["strength"] are read with
    [.get], ["side"] with [signal["side"]]. *)
Record Signal := {
  symbol : option string;
  strength : option Q;
  side : string
}.

(** The keys of the shared [state] dictionary that the gate reads. *)
Record State := {
  noise_level : option Q;
  current_drawdown : option Q;
  daily_pnl_pct : option Q;
  regime_confidence : option Q
}.

(** What the gate reads from outside: two environment variables (unset is
    [None]), [STRATEGY_CONFIG["max_positions"]], and the US/Eastern wall
    clock as (hour, minute); [None] when reading the clock raises. *)
Record Env := {
  TMS_MAX_DRAWDOWN : option Q;
  TMS_MAX_DAILY_LOSS : option Q;
  max_positions : Z;
  now_et : option (Z * Z)
}.

Record t := {
  signals_verified : Z;
  signals_rejected : Z;
  rejection_reasons : list string
}.

Definition __init__ : t :=
  {| signals_verified := 0; signals_rejected := 0; rejection_reasons := [] |}.

Definition _check_variance_inequality (signal : Signal) (state : State) : bool :=
  let signal_strength := default 0 (strength signal) in
  let noise := default (1 # 100) (noise_level state) in
  Py.gtb (Qabs signal_strength) (noise * 2).

Definition _is_past_hard_stop (env : Env) : bool :=
  match now_et env with
  | Some (hour, minute) => (15 <=? hour)%Z && (50 <=? minute)%Z
  | None => false
  end.

(** The four statements shared by every rejecting branch. *)
Definition reject (v : t) (reason : string) : t * (bool * string) :=
  ({| signals_verified := signals_verified v;
      signals_rejected := (signals_rejected v + 1)%Z;
      rejection_reasons := rejection_reasons v ++ [reason] |},
   (false, reason)).

Definition accept (v : t) : t * (bool * string) :=
  ({| signals_verified := (signals_verified v + 1)%Z;
      signals_rejected := signals_rejected v;
      rejection_reasons := rejection_reasons v |},
   (true, "Signal verified")).

Definition verify_signal {P : Type} (env : Env) (v : t)
    (signal : Signal) (state : State) (positions : list P) : t * (bool * string) :=
  (* Check 1: variance inequality *)
  if negb (_check_variance_inequality signal state) then
    reject v "Variance inequality not satisfied"
  else
  (* Check 2: max drawdown *)
  let max_dd := default (1 # 10) (TMS_MAX_DRAWDOWN env) in
  let current_dd := default 0 (current_drawdown state) in
  if Py.geb current_dd max_dd then
    reject v ("Max drawdown exceeded: " +:+ Py.fmt_pct 1 current_dd +:+
              " >= " +:+ Py.fmt_pct 1 max_dd)
  else
  (* Check 3: daily loss limit *)
  let max_daily_loss := default (3 # 100) (TMS_MAX_DAILY_LOSS env) in
  let daily_pnl := default 0 (daily_pnl_pct state) in
  if Py.leb daily_pnl (- max_daily_loss) then
    reject v ("Daily loss limit hit: " +:+ Py.fmt_pct 1 daily_pnl)
  else
  (* Check 4: regime confidence *)
  let regime_conf := default (1 # 2) (regime_confidence state) in
  if Py.ltb regime_conf (6 # 10) && String.eqb (side signal) "buy" then
    reject v ("Low regime confidence: " +:+ Py.fmt_pct 1 regime_conf +:+ " < 60%")
  else
  (* Check 5: max positions *)
  if (max_positions env <=? Py.len positions)%Z && String.eqb (side signal) "buy" then
    reject v ("Max positions reached: " +:+ Py.fmt_int (Py.len positions))
  else
  (* Check 6: hard stop time *)
  if _is_past_hard_stop env then
    reject v "Past hard stop time (3:50 PM ET)"
  else
    accept v.

End VerifierAgent.

(** ** run_api.py: the edge-decay monitor *)

Module HARDetector.

(** An entry of the trade log; the monitor reads only [t.get("pnl", 0)]. *)
Record Trade := { pnl : option Q }.

Record Alert := {
  time : string;
  type : string;
  har : Q;
  message : string
}.

(** One reading of [datetime.now()]: seconds on the time line and the
    ISO rendering of the same instant. *)
Record Clock := { now : Q; isoformat : string }.

Record t := {
  lookback : Z;
  threshold : Q;
  alerts : list Alert;
  strategic_inactivity : bool;
  inactivity_start : option Q
}.

Definition __init__ (lookback : Z) (threshold : Q) : t :=
  {| lookback := lookback; threshold := threshold; alerts := [];
     strategic_inactivity := false; inactivity_start := None |}.

(** [trade_log[-self.lookback:]]. *)
Definition recent_trades (d : t) (trade_log : list Trade) : list Trade :=
  Py.slice_from (- lookback d) trade_log.

Definition is_win (tr : Trade) : bool := Py.gtb (default 0 (pnl tr)) 0.

(** [wins / len(recent)], with [wins] the number of trades of [recent]
    whose pnl is positive. *)
Definition win_rate (recent : list Trade) : Q :=
  let wins := Py.len (List.filter is_win recent) in
  inject_Z wins / inject_Z (Py.len recent).

Definition calculate_har (d : t) (trade_log : list Trade) : Q :=
  match trade_log with
  | [] => 1 # 2
  | _ =>
    let recent := recent_trades d trade_log in
    if (Py.len recent <? 5)%Z then 1 # 2
    else win_rate recent
  end.

Definition detect_edge_decay (clk : Clock) (d : t) (trade_log : list Trade)
    : t * (bool * Q) :=
  let current_har := calculate_har d trade_log in
  let is_decaying := Py.ltb current_har (threshold d) in
  if is_decaying && negb (strategic_inactivity d) then
    let alert :=
      {| time := isoformat clk; type := "edge_decay"; har := current_har;
         message := "Edge decay detected! HAR=" +:+ Py.fmt_pct 1 current_har +:+
                    " < " +:+ Py.fmt_pct 1 (threshold d) |} in
    ({| lookback := lookback d; threshold := threshold d;
        alerts := alerts d ++ [alert];
        strategic_inactivity := true;
        inactivity_start := Some (now clk) |},
     (is_decaying, current_har))
  else if negb is_decaying && strategic_inactivity d then
    let duration :=
      match inactivity_start d with
      | Some t0 => now clk - t0
      | None => 0
      end in
    let alert :=
      {| time := isoformat clk; type := "edge_restored"; har := current_har;
         message := "Edge restored! HAR=" +:+ Py.fmt_pct 1 current_har +:+
                    ". Inactive for " +:+ Py.fmt_f 1 (duration / 60) +:+ " mins" |} in
    ({| lookback := lookback d; threshold := threshold d;
        alerts := alerts d ++ [alert];
        strategic_inactivity := false;
        inactivity_start := None |},
     (is_decaying, current_har))
  else (d, (is_decaying, current_har)).

Definition should_trade (d : t) (regime_confidence : Q) : bool * string :=
  if strategic_inactivity d then
    (false, "Strategic inactivity - edge decay detected")
  else if Py.ltb regime_confidence (6 # 10) then
    (false, "Low regime confidence: " +:+ Py.fmt_pct 1 regime_confidence +:+ " < 60%")
  else (true, "Clear to trade").

(** The module-level instance [har_detector]. *)
Definition har_detector : t := __init__ 20 (4 # 10).

End HARDetector.

(** ** tms/risk/aggressive_risk.py *)

Module AggressiveRisk.

Inductive GrowthPhase := SEED | SPROUT | GROW | MATURE.

Definition value (p : GrowthPhase) : string :=
  match p with
  | SEED => "seed"
  | SPROUT => "sprout"
  | GROW => "grow"
  | MATURE => "mature"
  end.

Record AggressiveRiskConfig := {
  seed_max : Q;
  sprout_max : Q;
  grow_max : Q;
  seed_max_position : Q;
  sprout_max_position : Q;
  grow_max_position : Q;
  mature_max_position : Q;
  seed_daily_loss_halt : Q;
  sprout_daily_loss_halt : Q;
  grow_daily_loss_halt : Q;
  mature_daily_loss_halt : Q;
  seed_drawdown_halt : Q;
  sprout_drawdown_halt : Q;
  grow_drawdown_halt : Q;
  mature_drawdown_halt : Q;
  max_consecutive_losses : Z;
  min_trade_value_usd : Q
}.

(** The field defaults of the dataclass. *)
Definition default_config : AggressiveRiskConfig :=
  {| seed_max := 500; sprout_max := 2500; grow_max := 30000;
     seed_max_position := 40 # 100; sprout_max_position := 30 # 100;
     grow_max_position := 20 # 100; mature_max_position := 15 # 100;
     seed_daily_loss_halt := 40 # 100; sprout_daily_loss_halt := 30 # 100;
     grow_daily_loss_halt := 20 # 100; mature_daily_loss_halt := 10 # 100;
     seed_drawdown_halt := 50 # 100; sprout_drawdown_halt := 40 # 100;
     grow_drawdown_halt := 30 # 100; mature_drawdown_halt := 20 # 100;
     max_consecutive_losses := 6;
     min_trade_value_usd := 5 |}.

(** The value returned by [update_equity] (its [timestamp] field, a clock
    reading that nothing reads back, is left out). *)
Record AggressiveRiskState := {
  phase : GrowthPhase;
  equity : Q;
  peak_equity : Q;
  day_start_equity : Q;
  current_drawdown : Q;
  daily_pnl_pct : Q;
  consecutive_losses : Z;
  is_halted : bool;
  halt_reason : option string;
  max_position_pct : Q;
  daily_loss_halt_pct : Q;
  drawdown_halt_pct : Q
}.

Record TradeRecord := {
  tr_timestamp : string;
  tr_symbol : string;
  tr_pnl : Q;
  tr_pnl_pct : Q
}.

(** The manager object. *)
Record t := {
  config : AggressiveRiskConfig;
  _equity : Q;
  _peak_equity : Q;
  _day_start_equity : Q;
  _current_date : string;
  _consecutive_losses : Z;
  _is_halted : bool;
  _halt_reason : option string;
  _trade_history : list TradeRecord;
  _milestones_hit : list Q;
  _milestone_targets : list Q
}.

Definition __init__ (cfg : option AggressiveRiskConfig) (today : string) : t :=
  {| config := default default_config cfg;
     _equity := 100; _peak_equity := 100; _day_start_equity := 100;
     _current_date := today;
     _consecutive_losses := 0; _is_halted := false; _halt_reason := None;
     _trade_history := [];
     _milestones_hit := [];
     _milestone_targets := [500; 1000; 2500; 5000; 10000; 25000; 50000; 100000] |}.

Definition get_phase (m : t) (equity : option Q) : GrowthPhase :=
  let eq := Py.or_else equity (_equity m) in
  if Py.ltb eq (seed_max (config m)) then SEED
  else if Py.ltb eq (sprout_max (config m)) then SPROUT
  else if Py.ltb eq (grow_max (config m)) then GROW
  else MATURE.

Definition get_max_position_pct (m : t) (equity : option Q) : Q :=
  match get_phase m equity with
  | SEED => seed_max_position (config m)
  | SPROUT => sprout_max_position (config m)
  | GROW => grow_max_position (config m)
  | MATURE => mature_max_position (config m)
  end.

Definition get_daily_loss_halt (m : t) (equity : option Q) : Q :=
  match get_phase m equity with
  | SEED => seed_daily_loss_halt (config m)
  | SPROUT => sprout_daily_loss_halt (config m)
  | GROW => grow_daily_loss_halt (config m)
  | MATURE => mature_daily_loss_halt (config m)
  end.

Definition get_drawdown_halt (m : t) (equity : option Q) : Q :=
  match get_phase m equity with
  | SEED => seed_drawdown_halt (config m)
  | SPROUT => sprout_drawdown_halt (config m)
  | GROW => grow_drawdown_halt (config m)
  | MATURE => mature_drawdown_halt (config m)
  end.

(** Field updates of the manager object. *)
Definition set_day (m : t) (day_start : Q) (today : string) : t :=
  {| config := config m; _equity := _equity m; _peak_equity := _peak_equity m;
     _day_start_equity := day_start; _current_date := today;
     _consecutive_losses := _consecutive_losses m;
     _is_halted := _is_halted m; _halt_reason := _halt_reason m;
     _trade_history := _trade_history m;
     _milestones_hit := _milestones_hit m;
     _milestone_targets := _milestone_targets m |}.

Definition set_halt (m : t) (halted : bool) (reason : option string) : t :=
  {| config := config m; _equity := _equity m; _peak_equity := _peak_equity m;
     _day_start_equity := _day_start_equity m; _current_date := _current_date m;
     _consecutive_losses := _consecutive_losses m;
     _is_halted := halted; _halt_reason := reason;
     _trade_history := _trade_history m;
     _milestones_hit := _milestones_hit m;
     _milestone_targets := _milestone_targets m |}.

Definition set_equity (m : t) (e : Q) : t :=
  {| config := config m; _equity := e; _peak_equity := _peak_equity m;
     _day_start_equity := _day_start_equity m; _current_date := _current_date m;
     _consecutive_losses := _consecutive_losses m;
     _is_halted := _is_halted m; _halt_reason := _halt_reason m;
     _trade_history := _trade_history m;
     _milestones_hit := _milestones_hit m;
     _milestone_targets := _milestone_targets m |}.

Definition set_peak (m : t) (p : Q) (hit : list Q) : t :=
  {| config := config m; _equity := _equity m; _peak_equity := p;
     _day_start_equity := _day_start_equity m; _current_date := _current_date m;
     _consecutive_losses := _consecutive_losses m;
     _is_halted := _is_halted m; _halt_reason := _halt_reason m;
     _trade_history := _trade_history m;
     _milestones_hit := hit;
     _milestone_targets := _milestone_targets m |}.

Definition set_trades (m : t) (h : list TradeRecord) (losses : Z) : t :=
  {| config := config m; _equity := _equity m; _peak_equity := _peak_equity m;
     _day_start_equity := _day_start_equity m; _current_date := _current_date m;
     _consecutive_losses := losses;
     _is_halted := _is_halted m; _halt_reason := _halt_reason m;
     _trade_history := h;
     _milestones_hit := _milestones_hit m;
     _milestone_targets := _milestone_targets m |}.

(** [_check_milestones]: the list of milestones hit after the loop. *)
Definition _check_milestones (m : t) (equity : Q) : list Q :=
  fold_left
    (fun hit target =>
       if Py.geb equity target && negb (Py.mem target hit)
       then (hit ++ [target])%list else hit)
    (_milestone_targets m) (_milestones_hit m).

(** [self._halt_reason and "daily" in self._halt_reason.lower()]. *)
Definition is_daily_reason (reason : option string) : bool :=
  match reason with
  | Some r =>
    negb (String.eqb r "") && Py.contains "daily" (Py.lower r)
  | None => false
  end.

Definition daily_reason (daily_pnl_pct daily_halt : Q) : string :=
  "Daily loss limit hit: " +:+ Py.fmt_pct 1 daily_pnl_pct +:+
  " (limit: -" +:+ Py.fmt_pct 1 daily_halt +:+ ")".

Definition drawdown_reason (current_drawdown dd_halt : Q) : string :=
  "Drawdown limit hit: " +:+ Py.fmt_pct 1 current_drawdown +:+
  " (limit: " +:+ Py.fmt_pct 1 dd_halt +:+ ")".

Definition consecutive_reason (losses : Z) : string :=
  "Consecutive loss limit: " +:+ Py.fmt_int losses +:+ " losses in a row".

(** [update_equity]; [today] is [datetime.utcnow().strftime("%Y-%m-%d")]. *)
Definition update_equity (today : string) (m : t) (new_equity : Q)
    : t * AggressiveRiskState :=
  (* New day reset *)
  let m1 :=
    if negb (String.eqb today (_current_date m)) then
      let m' := set_day m new_equity today in
      if _is_halted m' && is_daily_reason (_halt_reason m')
      then set_halt m' false None
      else m'
    else m in
  let m2 := set_equity m1 new_equity in
  (* Update peak *)
  let m3 :=
    if Py.gtb new_equity (_peak_equity m2)
    then set_peak m2 new_equity (_check_milestones m2 new_equity)
    else m2 in
  (* Calculate metrics *)
  let current_drawdown :=
    if Py.gtb (_peak_equity m3) 0
    then (_peak_equity m3 - new_equity) / _peak_equity m3 else 0 in
  let daily_pnl_pct :=
    if Py.gtb (_day_start_equity m3) 0
    then (new_equity - _day_start_equity m3) / _day_start_equity m3 else 0 in
  let phase := get_phase m3 (Some new_equity) in
  let max_pos := get_max_position_pct m3 (Some new_equity) in
  let daily_halt := get_daily_loss_halt m3 (Some new_equity) in
  let dd_halt := get_drawdown_halt m3 (Some new_equity) in
  (* Check halt conditions *)
  let m4 :=
    if negb (_is_halted m3) then
      if Py.leb daily_pnl_pct (- daily_halt) then
        set_halt m3 true (Some (daily_reason daily_pnl_pct daily_halt))
      else if Py.geb current_drawdown dd_halt then
        set_halt m3 true (Some (drawdown_reason current_drawdown dd_halt))
      else if (max_consecutive_losses (config m3) <=? _consecutive_losses m3)%Z then
        set_halt m3 true (Some (consecutive_reason (_consecutive_losses m3)))
      else m3
    else m3 in
  (m4,
   {| phase := phase; equity := new_equity;
      peak_equity := _peak_equity m4;
      day_start_equity := _day_start_equity m4;
      current_drawdown := current_drawdown;
      daily_pnl_pct := daily_pnl_pct;
      consecutive_losses := _consecutive_losses m4;
      is_halted := _is_halted m4;
      halt_reason := _halt_reason m4;
      max_position_pct := max_pos;
      daily_loss_halt_pct := daily_halt;
      drawdown_halt_pct := dd_halt |}).

(** [record_trade]; [now] is [datetime.utcnow().isoformat()]. *)
Definition record_trade (now : string) (m : t) (pnl pnl_pct : Q) (symbol : string) : t :=
  let h := (_trade_history m ++
            [{| tr_timestamp := now; tr_symbol := symbol;
                tr_pnl := pnl; tr_pnl_pct := pnl_pct |}])%list in
  (* Keep last 200 trades *)
  let h := if (200 <? Py.len h)%Z then drop 1 h else h in
  (* Update consecutive loss counter *)
  let losses :=
    if Py.ltb pnl_pct 0 then (_consecutive_losses m + 1)%Z else 0%Z in
  set_trades m h losses.

Record PositionSize := {
  position_pct : Q;
  position_usd : Q;
  max_loss_usd : Q;
  max_loss_pct_of_equity : Q;
  ps_phase : string
}.

(** [calculate_position_size]; [None] is the [ZeroDivisionError] of
    [position_usd / equity]. *)
Definition calculate_position_size (m : t)
    (equity signal_strength stop_distance_pct : Q) : option PositionSize :=
  let max_pct := get_max_position_pct m (Some equity) in
  let size_pct := max_pct * Py.max (1 # 2) signal_strength in
  let size_pct := Py.min max_pct size_pct in
  let position_usd := equity * size_pct in
  (* Ensure minimum trade value *)
  if Py.ltb position_usd (min_trade_value_usd (config m)) then
    let position_usd := min_trade_value_usd (config m) in
    if Py.eqb equity 0 then None
    else
      let size_pct := position_usd / equity in
      Some {| position_pct := size_pct; position_usd := position_usd;
              max_loss_usd := position_usd * stop_distance_pct;
              max_loss_pct_of_equity := size_pct * stop_distance_pct;
              ps_phase := value (get_phase m (Some equity)) |}
  else
    Some {| position_pct := size_pct; position_usd := position_usd;
            max_loss_usd := position_usd * stop_distance_pct;
            max_loss_pct_of_equity := size_pct * stop_distance_pct;
            ps_phase := value (get_phase m (Some equity)) |}.

Definition reset_halt (m : t) (reason : string) : t :=
  set_trades (set_halt m false None) (_trade_history m) 0%Z.

End AggressiveRisk.

(** ** tms/strategies/hyper_growth_engine.py *)

(** The outcome of a method that may raise: the object as the call left it,
    with the returned value when the call returned. *)
Inductive result (S A : Type) : Type :=
| Returned (s : S) (a : A)
| Raised (s : S).
Arguments Returned {S A} s a.
Arguments Raised {S A} s.

Module CompoundGrowthTracker.

Record t := {
  starting_equity : Q;
  target_equity : Q;
  current_equity : Q;
  trade_returns : list Q;
  win_count : Z;
  loss_count : Z
}.

Definition __init__ (starting target : Q) : t :=
  {| starting_equity := starting; target_equity := target;
     current_equity := starting;
     trade_returns := []; win_count := 0; loss_count := 0 |}.

Definition update (g : t) (trade_return_pct : Q) : t :=
  {| starting_equity := starting_equity g;
     target_equity := target_equity g;
     current_equity := current_equity g * (1 + trade_return_pct);
     trade_returns := (trade_returns g ++ [trade_return_pct])%list;
     win_count := if Py.gtb trade_return_pct 0 then (win_count g + 1)%Z else win_count g;
     loss_count := if Py.gtb trade_return_pct 0 then loss_count g else (loss_count g + 1)%Z |}.

(** The property [progress_pct]; [None] is the [ZeroDivisionError] of
    [achieved / needed]. *)
Definition progress_pct (g : t) : option Q :=
  let needed := target_equity g - starting_equity g in
  let achieved := current_equity g - starting_equity g in
  if Py.eqb needed 0 then None
  else Some (Py.max 0 (Py.min 1 (achieved / needed))).

Definition multiplier_needed (g : t) : Q :=
  target_equity g / Py.max (current_equity g) (1 # 100).

Definition win_rate (g : t) : Q :=
  let total := (win_count g + loss_count g)%Z in
  if (0 <? total)%Z then inject_Z (win_count g) / inject_Z total else 1 # 2.

Definition get_aggression_multiplier (g : t) : option Q :=
  p ← progress_pct g;
  Some (if Py.ltb p (1 # 2) then 1
        else if Py.ltb p (8 # 10) then 9 # 10
        else 8 # 10).

End CompoundGrowthTracker.

Module HyperGrowth.

Record HyperGrowthConfig := {
  (* position sizing *)
  base_position_pct : Q;
  strong_signal_pct : Q;
  max_single_position_pct : Q;
  max_total_exposure_pct : Q;
  min_position_pct : Q;
  (* pyramiding *)
  pyramid_enabled : bool;
  pyramid_add1_trigger_pct : Q;
  pyramid_add2_trigger_pct : Q;
  pyramid_add3_trigger_pct : Q;
  pyramid_add1_size_pct : Q;
  pyramid_add2_size_pct : Q;
  pyramid_add3_size_pct : Q;
  max_pyramid_adds : Z;
  (* stop loss *)
  initial_stop_atr_mult : Q;
  breakeven_trigger_pct : Q;
  trail_start_pct : Q;
  trail_atr_mult_phase1 : Q;
  trail_atr_mult_phase2 : Q;
  hard_stop_pct : Q;
  (* take profit *)
  partial_exit_r : Q;
  partial_exit_size : Q;
  full_exit_r : Q;
  momentum_exit_bars : Z;
  (* signal thresholds *)
  min_signal_strength : Q;
  strong_signal_threshold : Q;
  min_sources_agreeing : Z;
  (* volume requirements *)
  min_volume_spike : Q;
  strong_volume_spike : Q;
  (* regime settings *)
  trade_in_bull : bool;
  trade_in_bear : bool;
  trade_in_neutral : bool;
  trade_in_high_vol : bool;
  (* timing *)
  max_trades_per_day : Z;
  max_concurrent_positions : Z;
  signal_cooldown_seconds : Z;
  (* risk limits *)
  daily_loss_halt_pct : Q;
  max_drawdown_halt_pct : Q;
  max_consecutive_losses : Z;
  (* ATR settings *)
  atr_period : Z;
  volume_lookback : Z
}.

(** The field defaults of the dataclass. *)
Definition default_config : HyperGrowthConfig :=
  {| base_position_pct := 30 # 100; strong_signal_pct := 40 # 100;
     max_single_position_pct := 45 # 100; max_total_exposure_pct := 85 # 100;
     min_position_pct := 15 # 100;
     pyramid_enabled := true;
     pyramid_add1_trigger_pct := 3 # 100; pyramid_add2_trigger_pct := 6 # 100;
     pyramid_add3_trigger_pct := 10 # 100;
     pyramid_add1_size_pct := 15 # 100; pyramid_add2_size_pct := 10 # 100;
     pyramid_add3_size_pct := 8 # 100;
     max_pyramid_adds := 3;
     initial_stop_atr_mult := 2; breakeven_trigger_pct := 3 # 100;
     trail_start_pct := 6 # 100; trail_atr_mult_phase1 := 15 # 10;
     trail_atr_mult_phase2 := 1; hard_stop_pct := 4 # 100;
     partial_exit_r := 4; partial_exit_size := 40 # 100; full_exit_r := 8;
     momentum_exit_bars := 3;
     min_signal_strength := 35 # 100; strong_signal_threshold := 70 # 100;
     min_sources_agreeing := 2;
     min_volume_spike := 2; strong_volume_spike := 5;
     trade_in_bull := true; trade_in_bear := true;
     trade_in_neutral := true; trade_in_high_vol := true;
     max_trades_per_day := 30; max_concurrent_positions := 4;
     signal_cooldown_seconds := 60;
     daily_loss_halt_pct := 35 # 100; max_drawdown_halt_pct := 45 # 100;
     max_consecutive_losses := 5;
     atr_period := 7; volume_lookback := 20 |}.

(** The constant [1e-9] of the interpolation. *)
Definition eps : Q := 1 # 1000000000.

(** The eight scorers and the ATR calculator are functions of the OHLCV
    window (pandas computations); the engine only consumes their results,
    so the window type and these functions are an interface. *)
Class SignalSources (Ohlcv : Type) := {
  n_bars : Ohlcv -> Z;
  _signal_volume_explosion : HyperGrowthConfig -> Ohlcv -> string -> Q * string;
  _signal_ema_ribbon : Ohlcv -> Q * string;
  _signal_rsi_surge : Ohlcv -> Q * string;
  _signal_vwap_reclaim : Ohlcv -> Q * string;
  _signal_bb_squeeze : Ohlcv -> Q * string;
  _signal_hh_hl_structure : Ohlcv -> Q * string;
  _signal_candle_pattern : Ohlcv -> Q * string;
  _signal_order_flow : Ohlcv -> Q * string;
  _calculate_atr : HyperGrowthConfig -> Ohlcv -> Q
}.

(** Declarations of [tms.strategies.base_strategy], as this module uses
    them. *)
Inductive SignalType := LONG | SHORT.
Inductive OrderType := MARKET.

Inductive Metadata :=
| EntryMeta (position_pct atr : Q) (direction : string) (combined_score : Q)
    (active_sources : list string) (partial_target : Q) (regime : string)
    (equity growth_progress : Q) (pyramid_enabled : bool) (risk_per_share : Q)
| PyramidMeta (position_pct : Q) (is_pyramid : bool) (pyramid_level : Z)
    (gain_at_add : Q) (direction : string).

Record Signal := {
  symbol : string;
  signal_type : SignalType;
  strength : Q;
  strategy_name : string;
  target_price : option Q;
  stop_loss : Q;
  take_profit : Q;
  order_type : OrderType;
  metadata : Metadata
}.

Record MarketState (Ohlcv : Type) := {
  ms_ohlcv : option Ohlcv;
  ms_symbol : string;
  ms_current_price : Q;
  ms_equity : option Q;
  ms_regime : option string
}.
Arguments ms_ohlcv {Ohlcv} _.
Arguments ms_symbol {Ohlcv} _.
Arguments ms_current_price {Ohlcv} _.
Arguments ms_equity {Ohlcv} _.
Arguments ms_regime {Ohlcv} _.

(** An entry of [_active_positions]. *)
Record Position := {
  entry_price : Q;
  direction : string;
  pos_stop_loss : Q;
  pos_take_profit : Q;
  partial_target : Q;
  atr : Q;
  position_pct : Q;
  entry_time : Q;
  peak_price : Q;
  pyramid_count : Z
}.

Record Closed := {
  cl_symbol : string;
  cl_entry_price : Q;
  cl_exit_price : Q;
  cl_side : string;
  cl_pnl_pct : Q;
  cl_timestamp : string;
  cl_growth_progress : Q
}.

(** One reading of [datetime.utcnow()]. *)
Record Clock := { utcnow : Q; today : string; isoformat : string }.

(** The engine object. *)
Record t := {
  name : string;
  config : HyperGrowthConfig;
  _growth_tracker : CompoundGrowthTracker.t;
  _source_accuracy : gmap string (Q * Q);
  _active_positions : gmap string Position;
  _pyramid_counts : gmap string Z;
  _last_signal_time : gmap string Q;
  _daily_trades : Z;
  _last_trade_date : option string;
  _consecutive_losses : Z;
  _is_halted : bool;
  _trade_history : list Closed
}.

Definition initial_accuracy : gmap string (Q * Q) :=
  list_to_map
    [("volume_explosion", (1, 2)); ("ema_ribbon", (1, 2));
     ("rsi_surge", (1, 2)); ("vwap_reclaim", (1, 2));
     ("bb_squeeze", (1, 2)); ("hh_hl_structure", (1, 2));
     ("candle_pattern", (1, 2)); ("order_flow", (1, 2))].

Definition __init__ (cfg : option HyperGrowthConfig) (name : string)
    (starting_equity target_equity : Q) : t :=
  {| name := name;
     config := default default_config cfg;
     _growth_tracker := CompoundGrowthTracker.__init__ starting_equity target_equity;
     _source_accuracy := initial_accuracy;
     _active_positions := ∅;
     _pyramid_counts := ∅;
     _last_signal_time := ∅;
     _daily_trades := 0;
     _last_trade_date := None;
     _consecutive_losses := 0;
     _is_halted := false;
     _trade_history := [] |}.

(** Field updates of the engine object. *)
Definition set_daily (e : t) (trades : Z) (date : option string) : t :=
  {| name := name e; config := config e;
     _growth_tracker := _growth_tracker e;
     _source_accuracy := _source_accuracy e;
     _active_positions := _active_positions e;
     _pyramid_counts := _pyramid_counts e;
     _last_signal_time := _last_signal_time e;
     _daily_trades := trades;
     _last_trade_date := date;
     _consecutive_losses := _consecutive_losses e;
     _is_halted := _is_halted e;
     _trade_history := _trade_history e |}.

Definition set_positions (e : t) (ps : gmap string Position) : t :=
  {| name := name e; config := config e;
     _growth_tracker := _growth_tracker e;
     _source_accuracy := _source_accuracy e;
     _active_positions := ps;
     _pyramid_counts := _pyramid_counts e;
     _last_signal_time := _last_signal_time e;
     _daily_trades := _daily_trades e;
     _last_trade_date := _last_trade_date e;
     _consecutive_losses := _consecutive_losses e;
     _is_halted := _is_halted e;
     _trade_history := _trade_history e |}.

Definition set_last_signal (e : t) (ts : gmap string Q) : t :=
  {| name := name e; config := config e;
     _growth_tracker := _growth_tracker e;
     _source_accuracy := _source_accuracy e;
     _active_positions := _active_positions e;
     _pyramid_counts := _pyramid_counts e;
     _last_signal_time := ts;
     _daily_trades := _daily_trades e;
     _last_trade_date := _last_trade_date e;
     _consecutive_losses := _consecutive_losses e;
     _is_halted := _is_halted e;
     _trade_history := _trade_history e |}.

Definition set_closed (e : t) (g : CompoundGrowthTracker.t) (losses : Z)
    (ps : gmap string Position) (pc : gmap string Z) : t :=
  {| name := name e; config := config e;
     _growth_tracker := g;
     _source_accuracy := _source_accuracy e;
     _active_positions := ps;
     _pyramid_counts := pc;
     _last_signal_time := _last_signal_time e;
     _daily_trades := _daily_trades e;
     _last_trade_date := _last_trade_date e;
     _consecutive_losses := losses;
     _is_halted := _is_halted e;
     _trade_history := _trade_history e |}.

Definition set_history (e : t) (h : list Closed) : t :=
  {| name := name e; config := config e;
     _growth_tracker := _growth_tracker e;
     _source_accuracy := _source_accuracy e;
     _active_positions := _active_positions e;
     _pyramid_counts := _pyramid_counts e;
     _last_signal_time := _last_signal_time e;
     _daily_trades := _daily_trades e;
     _last_trade_date := _last_trade_date e;
     _consecutive_losses := _consecutive_losses e;
     _is_halted := _is_halted e;
     _trade_history := h |}.

Definition set_pyramid (pos : Position) (count : Z) (peak : Q) : Position :=
  {| entry_price := entry_price pos; direction := direction pos;
     pos_stop_loss := pos_stop_loss pos; pos_take_profit := pos_take_profit pos;
     partial_target := partial_target pos; atr := atr pos;
     position_pct := position_pct pos; entry_time := entry_time pos;
     peak_price := peak; pyramid_count := count |}.

(** [l[i]] on a list: negative indices count from the end, [None] is
    the [IndexError]. *)
Definition index {A} (l : list A) (i : Z) : option A :=
  let n := Py.len l in
  if (0 <=? i)%Z then l !! Z.to_nat i
  else if (- n <=? i)%Z then l !! Z.to_nat (n + i)
  else None.

Definition _get_source_weight (e : t) (source_name : string) : Q :=
  let acc := default (1, 2) (_source_accuracy e !! source_name) in
  let accuracy := fst acc / Py.max (snd acc) 1 in
  Py.max (3 # 10) accuracy.

(** The accumulators of the fusion loop. *)
Record Fusion := {
  bull_score : Q;
  bear_score : Q;
  total_weight : Q;
  active_bull_sources : list string;
  active_bear_sources : list string
}.

Definition fusion_start : Fusion :=
  {| bull_score := 0; bear_score := 0; total_weight := 0;
     active_bull_sources := []; active_bear_sources := [] |}.

(** One iteration of [for source_name, (score, direction) in sources.items()]. *)
Definition fuse_step (e : t) (regime_bull_bias regime_bear_bias : bool)
    (acc : Fusion) (src : string * (Q * string)) : Fusion :=
  let '(source_name, (score, dir)) := src in
  if Py.leb score 0 then acc
  else
    let weight := _get_source_weight e source_name in
    if String.eqb dir "bull" then
      let weight := if regime_bull_bias then weight * (12 # 10) else weight in
      {| bull_score := bull_score acc + score * weight;
         bear_score := bear_score acc;
         total_weight := total_weight acc + weight;
         active_bull_sources :=
           (active_bull_sources acc ++
            [source_name +:+ "(" +:+ Py.fmt_f 2 score +:+ ")"])%list;
         active_bear_sources := active_bear_sources acc |}
    else if String.eqb dir "bear" then
      let weight := if regime_bear_bias then weight * (12 # 10) else weight in
      {| bull_score := bull_score acc;
         bear_score := bear_score acc + score * weight;
         total_weight := total_weight acc + weight;
         active_bull_sources := active_bull_sources acc;
         active_bear_sources :=
           (active_bear_sources acc ++
            [source_name +:+ "(" +:+ Py.fmt_f 2 score +:+ ")"])%list |}
    else acc.

(** The verdict computed from the accumulators after the loop. *)
Definition fuse_verdict (cfg : HyperGrowthConfig) (f : Fusion)
    : Q * string * list string :=
  if Py.leb (total_weight f) 0 then (0, "neutral", [])
  else
    let bull_norm := bull_score f / total_weight f in
    let bear_norm := bear_score f / total_weight f in
    let bull_count := Py.len (active_bull_sources f) in
    let bear_count := Py.len (active_bear_sources f) in
    if Py.gtb bull_norm bear_norm && (min_sources_agreeing cfg <=? bull_count)%Z then
      (bull_norm, "bull", active_bull_sources f)
    else if Py.gtb bear_norm bull_norm && (min_sources_agreeing cfg <=? bear_count)%Z then
      (bear_norm, "bear", active_bear_sources f)
    else (0, "neutral", []).

Section Engine.

Context {Ohlcv : Type} `{SignalSources Ohlcv}.

(** The [sources] dictionary, in insertion order. *)
Definition run_sources (e : t) (ohlcv : Ohlcv) (symbol : string)
    : list (string * (Q * string)) :=
  [("volume_explosion", _signal_volume_explosion (config e) ohlcv symbol);
   ("ema_ribbon", _signal_ema_ribbon ohlcv);
   ("rsi_surge", _signal_rsi_surge ohlcv);
   ("vwap_reclaim", _signal_vwap_reclaim ohlcv);
   ("bb_squeeze", _signal_bb_squeeze ohlcv);
   ("hh_hl_structure", _signal_hh_hl_structure ohlcv);
   ("candle_pattern", _signal_candle_pattern ohlcv);
   ("order_flow", _signal_order_flow ohlcv)].

Definition fuse (e : t) (ohlcv : Ohlcv) (symbol regime : string) : Fusion :=
  let regime_bull_bias := String.eqb regime "bull" || String.eqb regime "high_vol" in
  let regime_bear_bias := String.eqb regime "bear" in
  fold_left (fuse_step e regime_bull_bias regime_bear_bias)
            (run_sources e ohlcv symbol) fusion_start.

Definition _fuse_signals (e : t) (ohlcv : Ohlcv) (symbol regime : string)
    : Q * string * list string :=
  fuse_verdict (config e) (fuse e ohlcv symbol regime).

End Engine.

(** [_calculate_position_size]; [None] is a [ZeroDivisionError] (of the
    tracker's progress or of the interpolation).  The [equity] argument
    is not read. *)
Definition _calculate_position_size (e : t) (signal_strength equity : Q) : option Q :=
  aggression ← CompoundGrowthTracker.get_aggression_multiplier (_growth_tracker e);
  size_pct ←
    (if Py.geb signal_strength (strong_signal_threshold (config e)) then
       Some (strong_signal_pct (config e))
     else
       let denom := strong_signal_threshold (config e)
                    - min_signal_strength (config e) + eps in
       if Py.eqb denom 0 then None
       else
         let t := (signal_strength - min_signal_strength (config e)) / denom in
         Some (base_position_pct (config e)
               + t * (strong_signal_pct (config e) - base_position_pct (config e))));
  let size_pct := size_pct * aggression in
  let size_pct := Py.min size_pct (max_single_position_pct (config e)) in
  let size_pct := Py.max size_pct (min_position_pct (config e)) in
  Some size_pct.

(** [market_state.regime or "neutral"]. *)
Definition regime_of {Ohlcv : Type} (market_state : MarketState Ohlcv) : string :=
  match ms_regime market_state with
  | Some r => if String.eqb r "" then "neutral" else r
  | None => "neutral"
  end.

Section Signals.

Context {Ohlcv : Type} `{SignalSources Ohlcv}.

(** [_check_pyramid]; [Raised] is the [ZeroDivisionError] of the gain
    or the [IndexError] of [triggers[pyramid_count]]. *)
Definition _check_pyramid (e : t) (market_state : MarketState Ohlcv)
    : result t (option Signal) :=
  let symbol := ms_symbol market_state in
  match _active_positions e !! symbol with
  | None => Returned e None
  | Some pos =>
    if negb (pyramid_enabled (config e)) then Returned e None
    else
      let current_price := ms_current_price market_state in
      let entry := entry_price pos in
      let dir := direction pos in
      let count := pyramid_count pos in
      if (max_pyramid_adds (config e) <=? count)%Z then Returned e None
      else if Py.eqb entry 0 then Raised e
      else
        (* Calculate current gain *)
        let gain_pct :=
          if String.eqb dir "bull" then (current_price - entry) / entry
          else (entry - current_price) / entry in
        let triggers :=
          [pyramid_add1_trigger_pct (config e);
           pyramid_add2_trigger_pct (config e);
           pyramid_add3_trigger_pct (config e)] in
        let sizes :=
          [pyramid_add1_size_pct (config e);
           pyramid_add2_size_pct (config e);
           pyramid_add3_size_pct (config e)] in
        match index triggers count, index sizes count with
        | Some trigger, Some add_size =>
          if Py.ltb gain_pct trigger then Returned e None
          else
            (* Build pyramid signal *)
            let signal_type := if String.eqb dir "bull" then LONG else SHORT in
            let new_stop :=
              if String.eqb dir "bull" then current_price - atr pos
              else current_price + atr pos in
            let signal :=
              {| symbol := symbol; signal_type := signal_type;
                 strength := 8 # 10; strategy_name := name e;
                 target_price := None;
                 stop_loss := new_stop;
                 take_profit := pos_take_profit pos;
                 order_type := MARKET;
                 metadata := PyramidMeta add_size true (count + 1) gain_pct dir |} in
            (* Update pyramid count *)
            let pos' := set_pyramid pos (count + 1) current_price in
            Returned (set_positions e (<[symbol := pos']> (_active_positions e)))
                     (Some signal)
        | _, _ => Raised e
        end
  end.

(** [generate_signals]. *)
Definition generate_signals (clk : Clock) (e : t) (market_state : MarketState Ohlcv)
    : result t (list Signal) :=
  (* Safety checks *)
  if _is_halted e then Returned e []
  else
  let symbol := ms_symbol market_state in
  let current_price := ms_current_price market_state in
  let equity := Py.or_else (ms_equity market_state) 100 in
  let regime := regime_of market_state in
  match ms_ohlcv market_state with
  | None => Returned e []
  | Some ohlcv =>
  if (n_bars ohlcv <? 20)%Z then Returned e []
  else
  (* Daily trade limit *)
  let e :=
    if bool_decide (_last_trade_date e = Some (today clk)) then e
    else set_daily e 0 (Some (today clk)) in
  if (max_trades_per_day (config e) <=? _daily_trades e)%Z then Returned e []
  else
  (* Consecutive loss halt *)
  if (max_consecutive_losses (config e) <=? _consecutive_losses e)%Z then Returned e []
  else
  (* Signal cooldown per symbol *)
  if match _last_signal_time e !! symbol with
     | Some last_signal =>
       Py.ltb (utcnow clk - last_signal) (inject_Z (signal_cooldown_seconds (config e)))
     | None => false
     end
  then Returned e []
  else
  (* Max concurrent positions *)
  if (max_concurrent_positions (config e) <=? Z.of_nat (size (_active_positions e)))%Z then
    match _active_positions e !! symbol with
    | Some _ =>
      match _check_pyramid e market_state with
      | Returned e' (Some pyramid_signal) => Returned e' [pyramid_signal]
      | Returned e' None => Returned e' []
      | Raised e' => Raised e'
      end
    | None => Returned e []
    end
  else
  (* Run signal fusion *)
  let '(combined_score, dir, active_sources) := _fuse_signals e ohlcv symbol regime in
  if Py.ltb combined_score (min_signal_strength (config e)) || String.eqb dir "neutral"
  then Returned e []
  else
  (* Calculate ATR for stop placement *)
  let atr := _calculate_atr (config e) ohlcv in
  (* Calculate position size *)
  match _calculate_position_size e combined_score equity,
        CompoundGrowthTracker.progress_pct (_growth_tracker e) with
  | Some position_pct, Some growth_progress =>
    (* Determine signal type *)
    let levels :=
      if String.eqb dir "bull" then
        let stop_loss := current_price - atr * initial_stop_atr_mult (config e) in
        (* Hard stop override *)
        let hard_stop := current_price * (1 - hard_stop_pct (config e)) in
        let stop_loss := Py.max stop_loss hard_stop in
        (* Calculate R *)
        let risk_per_share := current_price - stop_loss in
        Some (LONG, stop_loss, risk_per_share,
              current_price + risk_per_share * full_exit_r (config e),
              current_price + risk_per_share * partial_exit_r (config e))
      else if String.eqb dir "bear" then
        let stop_loss := current_price + atr * initial_stop_atr_mult (config e) in
        let hard_stop := current_price * (1 + hard_stop_pct (config e)) in
        let stop_loss := Py.min stop_loss hard_stop in
        let risk_per_share := stop_loss - current_price in
        Some (SHORT, stop_loss, risk_per_share,
              current_price - risk_per_share * full_exit_r (config e),
              current_price - risk_per_share * partial_exit_r (config e))
      else None in
    match levels with
    | None => Returned e []
    | Some (signal_type, stop_loss, risk_per_share, take_profit, partial_target) =>
      (* Build signal *)
      let signal :=
        {| symbol := symbol; signal_type := signal_type;
           strength := combined_score; strategy_name := name e;
           target_price := Some take_profit;
           stop_loss := stop_loss; take_profit := take_profit;
           order_type := MARKET;
           metadata :=
             EntryMeta position_pct atr dir combined_score active_sources
                       partial_target regime equity growth_progress
                       (pyramid_enabled (config e)) risk_per_share |} in
      (* Track signal *)
      let e := set_last_signal e (<[symbol := utcnow clk]> (_last_signal_time e)) in
      let e := set_daily e (_daily_trades e + 1) (_last_trade_date e) in
      (* Register as active position for pyramiding *)
      let pos :=
        {| entry_price := current_price; direction := dir;
           pos_stop_loss := stop_loss; pos_take_profit := take_profit;
           partial_target := partial_target; atr := atr;
           position_pct := position_pct; entry_time := utcnow clk;
           peak_price := current_price; pyramid_count := 0 |} in
      Returned (set_positions e (<[symbol := pos]> (_active_positions e))) [signal]
    end
  | _, _ => Raised e
  end
  end.

End Signals.

(** [on_position_close]; [Raised] is the [ZeroDivisionError] of the
    tracker's progress, read when the trade is logged. *)
Definition on_position_close (clk : Clock) (e : t) (symbol : string)
    (entry_price exit_price : Q) (side : string) (pnl_pct : Q) : result t unit :=
  (* Update growth tracker *)
  let g := CompoundGrowthTracker.update (_growth_tracker e) pnl_pct in
  (* Update consecutive loss counter *)
  let losses :=
    if Py.gtb pnl_pct 0 then 0%Z else (_consecutive_losses e + 1)%Z in
  (* Remove from active positions *)
  let e := set_closed e g losses (delete symbol (_active_positions e))
                      (delete symbol (_pyramid_counts e)) in
  (* Log trade *)
  match CompoundGrowthTracker.progress_pct (_growth_tracker e) with
  | Some progress =>
    Returned
      (set_history e
         (_trade_history e ++
          [{| cl_symbol := symbol; cl_entry_price := entry_price;
              cl_exit_price := exit_price; cl_side := side;
              cl_pnl_pct := pnl_pct; cl_timestamp := isoformat clk;
              cl_growth_progress := progress |}])%list) tt
  | None => Raised e
  end.

End HyperGrowth.

(** ** tms/memecoin/memecoin_engine.py *)

(** A [dict] whose iteration order is observed: an association list in
    insertion order, with one entry per key. *)
Module Dict.

Fixpoint get {V} (k : string) (d : list (string * V)) : option V :=
  match d with
  | [] => None
  | (k', v) :: d' => if String.eqb k k' then Some v else get k d'
  end.

(** [d[k] = v]: an existing key keeps its place, a new key goes last. *)
Fixpoint set {V} (k : string) (v : V) (d : list (string * V)) : list (string * V) :=
  match d with
  | [] => [(k, v)]
  | (k', v') :: d' =>
    if String.eqb k k' then (k', v) :: d' else (k', v') :: set k v d'
  end.

(** [del d[k]]. *)
Definition del {V} (k : string) (d : list (string * V)) : list (string * V) :=
  List.filter (fun kv => negb (String.eqb k (fst kv))) d.

End Dict.

Module Memecoin.

Record MemecoinPosition := {
  token_mint : string;
  token_symbol : string;
  token_name : string;
  (* entry *)
  entry_price : Q;
  entry_amount_sol : Q;
  entry_amount_tokens : Q;
  entry_time : string;
  entry_reason : string;
  (* current state *)
  current_price : Q;
  current_value_sol : Q;
  unrealized_pnl_pct : Q;
  (* peak tracking for trailing stop *)
  peak_price : Q;
  peak_pnl_pct : Q;
  (* exit management *)
  stop_loss_pct : Q;
  trailing_stop_pct : Q;
  take_profit_levels : list Q;
  partial_exits_done : list Q;
  (* safety *)
  safety_score : Q;
  (* status *)
  is_active : bool;
  exit_price : Q;
  exit_time : string;
  exit_reason : string;
  realized_pnl_pct : Q
}.

(** The position object as [execute_buy] creates it: the arguments it
    passes, every other field at its dataclass default. *)
Definition open_position (mint symbol name : string)
    (entry_price amount_sol amount_tokens : Q) (now reason : string)
    (safety_score : Q) : MemecoinPosition :=
  {| token_mint := mint; token_symbol := symbol; token_name := name;
     entry_price := entry_price; entry_amount_sol := amount_sol;
     entry_amount_tokens := amount_tokens;
     entry_time := now; entry_reason := reason;
     current_price := entry_price; current_value_sol := 0;
     unrealized_pnl_pct := 0;
     peak_price := entry_price; peak_pnl_pct := 0;
     stop_loss_pct := - (25 # 100); trailing_stop_pct := 30 # 100;
     take_profit_levels := [2; 5; 10; 20; 50; 100];
     partial_exits_done := [];
     safety_score := safety_score;
     is_active := true; exit_price := 0; exit_time := ""; exit_reason := "";
     realized_pnl_pct := 0 |}.

Definition update_price (p : MemecoinPosition) (new_price : Q) : MemecoinPosition :=
  let pnl :=
    if Py.gtb (entry_price p) 0
    then (new_price - entry_price p) / entry_price p
    else unrealized_pnl_pct p in
  (* Update peak *)
  let is_peak := Py.gtb new_price (peak_price p) in
  {| token_mint := token_mint p; token_symbol := token_symbol p;
     token_name := token_name p;
     entry_price := entry_price p; entry_amount_sol := entry_amount_sol p;
     entry_amount_tokens := entry_amount_tokens p;
     entry_time := entry_time p; entry_reason := entry_reason p;
     current_price := new_price;
     (* Update current value *)
     current_value_sol :=
       if Py.gtb (entry_price p) 0
       then entry_amount_sol p * (1 + pnl) else current_value_sol p;
     unrealized_pnl_pct := pnl;
     peak_price := if is_peak then new_price else peak_price p;
     peak_pnl_pct := if is_peak then pnl else peak_pnl_pct p;
     stop_loss_pct := stop_loss_pct p; trailing_stop_pct := trailing_stop_pct p;
     take_profit_levels := take_profit_levels p;
     partial_exits_done := partial_exits_done p;
     safety_score := safety_score p;
     is_active := is_active p; exit_price := exit_price p;
     exit_time := exit_time p; exit_reason := exit_reason p;
     realized_pnl_pct := realized_pnl_pct p |}.

(** The local [trail] of [should_exit]: the trailing distance chosen
    from the peak gain [peak_pnl_pct] and the position's configured
    [trailing_stop_pct]. *)
Definition select_trail (trailing_stop_pct peak_pnl_pct : Q) : Q :=
  if Py.geb peak_pnl_pct 10 then 15 # 100
  else if Py.geb peak_pnl_pct 5 then 20 # 100
  else if Py.geb peak_pnl_pct 2 then 25 # 100
  else if Py.geb peak_pnl_pct 1 then 30 # 100
  else if Py.geb peak_pnl_pct (5 # 10) then 35 # 100
  else trailing_stop_pct.

Definition should_exit (p : MemecoinPosition) : bool * string :=
  if negb (is_active p) then (false, "")
  (* 1. Hard stop loss *)
  else if Py.leb (unrealized_pnl_pct p) (stop_loss_pct p) then
    (true, "Stop loss: " +:+ Py.fmt_pct 1 (unrealized_pnl_pct p))
  (* 2. Adaptive trailing stop based on gain level *)
  else if Py.gtb (peak_pnl_pct p) 0 then
    let trail := select_trail (trailing_stop_pct p) (peak_pnl_pct p) in
    let drawdown_from_peak :=
      if Py.gtb (peak_price p) 0
      then (peak_price p - current_price p) / peak_price p else 0 in
    if Py.geb drawdown_from_peak trail then
      (true, "Trailing stop: " +:+ Py.fmt_pct 1 drawdown_from_peak +:+
             " from peak (trail=" +:+ Py.fmt_pct 0 trail +:+ ")")
    else (false, "")
  else (false, "").

Definition get_partial_exit_level (p : MemecoinPosition) : option Q :=
  List.find
    (fun level =>
       Py.geb (unrealized_pnl_pct p) level
       && negb (Py.mem level (partial_exits_done p)))
    (take_profit_levels p).

(** The two in-place updates of [execute_sell]. *)
Definition close_position (p : MemecoinPosition) (now reason : string) : MemecoinPosition :=
  {| token_mint := token_mint p; token_symbol := token_symbol p;
     token_name := token_name p;
     entry_price := entry_price p; entry_amount_sol := entry_amount_sol p;
     entry_amount_tokens := entry_amount_tokens p;
     entry_time := entry_time p; entry_reason := entry_reason p;
     current_price := current_price p;
     current_value_sol := current_value_sol p;
     unrealized_pnl_pct := unrealized_pnl_pct p;
     peak_price := peak_price p; peak_pnl_pct := peak_pnl_pct p;
     stop_loss_pct := stop_loss_pct p; trailing_stop_pct := trailing_stop_pct p;
     take_profit_levels := take_profit_levels p;
     partial_exits_done := partial_exits_done p;
     safety_score := safety_score p;
     is_active := false;
     exit_price := current_price p;
     exit_time := now;
     exit_reason := reason;
     realized_pnl_pct := unrealized_pnl_pct p |}.

Definition partial_exit (p : MemecoinPosition) (sell_pct : Q) : MemecoinPosition :=
  {| token_mint := token_mint p; token_symbol := token_symbol p;
     token_name := token_name p;
     entry_price := entry_price p;
     entry_amount_sol := entry_amount_sol p * (1 - sell_pct);
     entry_amount_tokens :=
       inject_Z (Py.int (entry_amount_tokens p * (1 - sell_pct)));
     entry_time := entry_time p; entry_reason := entry_reason p;
     current_price := current_price p;
     current_value_sol := current_value_sol p;
     unrealized_pnl_pct := unrealized_pnl_pct p;
     peak_price := peak_price p; peak_pnl_pct := peak_pnl_pct p;
     stop_loss_pct := stop_loss_pct p; trailing_stop_pct := trailing_stop_pct p;
     take_profit_levels := take_profit_levels p;
     partial_exits_done :=
       (partial_exits_done p ++ [unrealized_pnl_pct p])%list;
     safety_score := safety_score p;
     is_active := is_active p; exit_price := exit_price p;
     exit_time := exit_time p; exit_reason := exit_reason p;
     realized_pnl_pct := realized_pnl_pct p |}.

(** The Jupiter aggregator as the engine sees it during one call: the
    quoted price of a mint ([None] when no price comes back) and whether
    a swap of an amount of a mint into SOL succeeds. *)
Record Venue := {
  get_token_price : string -> option Q;
  execute_swap : string -> Z -> bool
}.

(** The fields of the engine object that selling and position management
    touch. *)
Record t := {
  positions : list (string * MemecoinPosition);
  closed_positions : list MemecoinPosition;
  total_trades : Z;
  winning_trades : Z;
  total_pnl_sol : Q;
  best_trade_pnl_pct : Q;
  worst_trade_pnl_pct : Q;
  daily_pnl_sol : Q
}.

Inductive SellResult :=
| Sold (sell_pct pnl_pct : Q) (reason : string)
| Failed (error : string)
| SwapFailed.

(** [execute_sell]; [now] is the ISO rendering of the clock. *)
Definition execute_sell (venue : Venue) (now : string) (e : t)
    (mint : string) (sell_pct : Q) (reason : string) : t * SellResult :=
  match Dict.get mint (positions e) with
  | None => (e, Failed "No position found")
  | Some position =>
    (* Calculate amount to sell *)
    let sell_amount := Py.int (entry_amount_tokens position * sell_pct) in
    if (sell_amount <=? 0)%Z then (e, Failed "Nothing to sell")
    else if negb (execute_swap venue mint sell_amount) then (e, SwapFailed)
    else if Py.geb sell_pct (99 # 100) then
      (* Full exit *)
      let position := close_position position now reason in
      let pnl_sol := entry_amount_sol position * realized_pnl_pct position in
      ({| positions := Dict.del mint (positions e);
          closed_positions := (closed_positions e ++ [position])%list;
          total_trades := total_trades e;
          winning_trades :=
            if Py.gtb (realized_pnl_pct position) 0
            then (winning_trades e + 1)%Z else winning_trades e;
          total_pnl_sol := total_pnl_sol e + pnl_sol;
          best_trade_pnl_pct :=
            if Py.gtb (realized_pnl_pct position) (best_trade_pnl_pct e)
            then realized_pnl_pct position else best_trade_pnl_pct e;
          worst_trade_pnl_pct :=
            if Py.ltb (realized_pnl_pct position) (worst_trade_pnl_pct e)
            then realized_pnl_pct position else worst_trade_pnl_pct e;
          daily_pnl_sol := daily_pnl_sol e + pnl_sol |},
       Sold sell_pct (realized_pnl_pct position) reason)
    else
      (* Partial exit *)
      let position := partial_exit position sell_pct in
      ({| positions := Dict.set mint position (positions e);
          closed_positions := closed_positions e;
          total_trades := total_trades e;
          winning_trades := winning_trades e;
          total_pnl_sol := total_pnl_sol e;
          best_trade_pnl_pct := best_trade_pnl_pct e;
          worst_trade_pnl_pct := worst_trade_pnl_pct e;
          daily_pnl_sol := daily_pnl_sol e |},
       Sold sell_pct
            (if is_active position then unrealized_pnl_pct position
             else realized_pnl_pct position)
            reason)
  end.

Definition set_position (e : t) (mint : string) (p : MemecoinPosition) : t :=
  {| positions := Dict.set mint p (positions e);
     closed_positions := closed_positions e;
     total_trades := total_trades e;
     winning_trades := winning_trades e;
     total_pnl_sol := total_pnl_sol e;
     best_trade_pnl_pct := best_trade_pnl_pct e;
     worst_trade_pnl_pct := worst_trade_pnl_pct e;
     daily_pnl_sol := daily_pnl_sol e |}.

(** The sells that one pass of position management issued. *)
Inductive Action :=
| FullExit (mint reason : string)
| PartialExit (mint : string) (level : Q).

(** The body of the loop of [manage_positions] for one entry of the
    snapshot [list(self.positions.items())].  The entry is the object
    stored under [mint]: earlier iterations touch other mints only. *)
Definition manage_position (venue : Venue) (now : string)
    (st : t * list Action) (item : string * MemecoinPosition) : t * list Action :=
  let '(e, log) := st in
  let '(mint, position) := item in
  if negb (is_active position) then st
  else
    (* Update price *)
    let position :=
      match get_token_price venue mint with
      | Some price =>
        if Py.truthy price then update_price position price else position
      | None => position
      end in
    let e := set_position e mint position in
    (* Check full exit *)
    let '(exit, exit_reason) := should_exit position in
    if exit then
      (fst (execute_sell venue now e mint 1 exit_reason),
       (log ++ [FullExit mint exit_reason])%list)
    else
      (* Check partial profit taking *)
      match get_partial_exit_level position with
      | Some partial_level =>
        (fst (execute_sell venue now e mint (20 # 100)
                ("Partial profit at " +:+ Py.fmt_pct 0 partial_level +:+ " gain")),
         (log ++ [PartialExit mint partial_level])%list)
      | None => (e, log)
      end.

Definition manage_positions (venue : Venue) (now : string) (e : t) : t * list Action :=
  fold_left (manage_position venue now) (positions e) (e, []).

End Memecoin.

(** ** Inputs of the worked examples *)

(** The signal, state and environment of the examples: a strong signal on a
    quiet account, no open position. *)
Definition quiet_state : VerifierAgent.State :=
  {| VerifierAgent.noise_level := Some (1 # 100);
     VerifierAgent.current_drawdown := Some 0;
     VerifierAgent.daily_pnl_pct := Some 0;
     VerifierAgent.regime_confidence := Some (8 # 10) |}.

Definition signal_of (side : string) (strength : Q) : VerifierAgent.Signal :=
  {| VerifierAgent.symbol := Some "BTC/USD";
     VerifierAgent.strength := Some strength;
     VerifierAgent.side := side |}.

Definition env_at (hour minute : Z) : VerifierAgent.Env :=
  {| VerifierAgent.TMS_MAX_DRAWDOWN := None;
     VerifierAgent.TMS_MAX_DAILY_LOSS := None;
     VerifierAgent.max_positions := 5;
     VerifierAgent.now_et := Some (hour, minute) |}.

(** The environment with the clock unreadable: the hard-stop check then
    never fires, and the gate answers from its first five checks. *)
Definition without_clock (env : VerifierAgent.Env) : VerifierAgent.Env :=
  {| VerifierAgent.TMS_MAX_DRAWDOWN := VerifierAgent.TMS_MAX_DRAWDOWN env;
     VerifierAgent.TMS_MAX_DAILY_LOSS := VerifierAgent.TMS_MAX_DAILY_LOSS env;
     VerifierAgent.max_positions := VerifierAgent.max_positions env;
     VerifierAgent.now_et := None |}.

(** Trade logs: a winning and a losing trade. *)
Definition win_trade : HARDetector.Trade := {| HARDetector.pnl := Some 2 |}.
Definition loss_trade : HARDetector.Trade := {| HARDetector.pnl := Some (- (1 # 2)) |}.

Definition noon : HARDetector.Clock :=
  {| HARDetector.now := 43200; HARDetector.isoformat := "2025-01-02T12:00:00" |}.

(** ** The monitor's reading in the words of the specification *)

(** The last [k] trades of a log; the whole log when it holds fewer. *)
Definition spec_window (k : nat) (trade_log : list HARDetector.Trade)
    : list HARDetector.Trade :=
  skipn (length trade_log - k) trade_log.

(** A winning trade: one with a recorded profit above zero. *)
Definition spec_is_win (tr : HARDetector.Trade) : bool :=
  match HARDetector.pnl tr with
  | Some profit => if Qlt_le_dec 0 profit then true else false
  | None => false
  end.

Fixpoint spec_wins (trades : list HARDetector.Trade) : nat :=
  match trades with
  | [] => 0
  | tr :: rest => (if spec_is_win tr then 1 else 0) + spec_wins rest
  end.

(** The reading that the specification describes: the share of winning
    trades among the last at-most-[lookback] trades of the log, and one
    half when these are fewer than five. *)
Definition spec_har (lookback : Z) (trade_log : list HARDetector.Trade) : Q :=
  let window := spec_window (Z.to_nat lookback) trade_log in
  if (length window <? 5)%nat then 1 # 2
  else inject_Z (Z.of_nat (spec_wins window)) / inject_Z (Z.of_nat (length window)).

(** Five old wins, then fourteen losses and six wins: the last twenty
    trades hold six wins, the whole log eleven. *)
Definition mixed_log : list HARDetector.Trade :=
  (repeat win_trade 5 ++ repeat loss_trade 14 ++ repeat win_trade 6)%list.


(** ** Notions used to reason about the rendered reasons *)

(** The characters that the number formats produce: digits, the decimal
    point, the minus sign and the percent sign. *)
Definition is_numeric (c : ascii) : bool :=
  let n := nat_of_ascii c in
  ((48 <=? n)%nat && (n <=? 57)%nat) || (n =? 46)%nat || (n =? 45)%nat || (n =? 37)%nat.

Fixpoint all_numeric (s : string) : bool :=
  match s with
  | EmptyString => true
  | String c s' => is_numeric c && all_numeric s'
  end.

(** A scan for the two letters "da" in a row; [prev_d] tells whether the
    character before the string is a "d". *)
Fixpoint scan_da (prev_d : bool) (s : string) : bool :=
  match s with
  | EmptyString => false
  | String c s' => (prev_d && Ascii.eqb c "a") || scan_da (Ascii.eqb c "d") s'
  end.

Fixpoint ends_in_d (prev_d : bool) (s : string) : bool :=
  match s with
  | EmptyString => prev_d
  | String c s' => ends_in_d (Ascii.eqb c "d") s'
  end.

(** ** Reachable states of the risk manager *)

(** The manager objects that the program can hold: a fresh object, and
    every object that a method call leaves behind. *)
Inductive reachable : AggressiveRisk.t -> Prop :=
| reach_init (cfg : option AggressiveRisk.AggressiveRiskConfig) (today : string) :
    reachable (AggressiveRisk.__init__ cfg today)
| reach_update (today : string) (m : AggressiveRisk.t) (new_equity : Q) :
    reachable m ->
    reachable (fst (AggressiveRisk.update_equity today m new_equity))
| reach_trade (now : string) (m : AggressiveRisk.t) (pnl pnl_pct : Q) (symbol : string) :
    reachable m ->
    reachable (AggressiveRisk.record_trade now m pnl pnl_pct symbol)
| reach_reset (m : AggressiveRisk.t) (reason : string) :
    reachable m ->
    reachable (AggressiveRisk.reset_halt m reason).

(** The three kinds of halt, told apart by the reason that the manager
    stores. *)
Inductive halt_kind : option string -> Prop :=
| kind_daily (pnl halt : Q) :
    halt_kind (Some (AggressiveRisk.daily_reason pnl halt))
| kind_drawdown (dd halt : Q) :
    halt_kind (Some (AggressiveRisk.drawdown_reason dd halt))
| kind_consecutive (losses : Z) :
    halt_kind (Some (AggressiveRisk.consecutive_reason losses)).

(** A manager halted for a daily loss the day before. *)
Definition halted_daily : AggressiveRisk.t :=
  AggressiveRisk.set_halt (AggressiveRisk.__init__ None "2025-01-01") true
    (Some (AggressiveRisk.daily_reason (- (41 # 100)) (40 # 100))).

(** A manager halted for drawdown the day before. *)
Definition halted_drawdown : AggressiveRisk.t :=
  AggressiveRisk.set_halt (AggressiveRisk.__init__ None "2025-01-01") true
    (Some (AggressiveRisk.drawdown_reason (55 # 100) (50 # 100))).

(** ** More inputs of the worked examples *)

(** A fresh risk manager and a fresh engine, with the default
    configurations and the default 100 -> 500 growth target. *)
Definition fresh_manager : AggressiveRisk.t :=
  AggressiveRisk.__init__ None "2025-01-01".

Definition fresh_engine : HyperGrowth.t :=
  HyperGrowth.__init__ None "HyperGrowthEngine" 100 500.

(** The size that [calculate_position_size] computes before it looks at
    the minimum trade value. *)
Definition scaled_size (m : AggressiveRisk.t) (equity signal_strength : Q) : Q :=
  let max_pct := AggressiveRisk.get_max_position_pct m (Some equity) in
  Py.min max_pct (max_pct * Py.max (1 # 2) signal_strength).

(** The object that a call leaves behind, returned or raised. *)
Definition state_of {S A : Type} (r : result S A) : S :=
  match r with
  | Returned s _ => s
  | Raised s => s
  end.

Definition midnight : HyperGrowth.Clock :=
  {| HyperGrowth.utcnow := 0; HyperGrowth.today := "2025-01-01";
     HyperGrowth.isoformat := "2025-01-01T00:00:00" |}.

(** ** Tabulated OHLCV windows *)

(** A window given by what the scorers and the ATR calculator return on
    it. *)
Record Readings := {
  bars : Z;
  volume_explosion : Q * string;
  ema_ribbon : Q * string;
  rsi_surge : Q * string;
  vwap_reclaim : Q * string;
  bb_squeeze : Q * string;
  hh_hl_structure : Q * string;
  candle_pattern : Q * string;
  order_flow : Q * string;
  atr_value : Q
}.

#[export] Instance tabulated : HyperGrowth.SignalSources Readings :=
  {| HyperGrowth.n_bars := bars;
     HyperGrowth._signal_volume_explosion := fun _ w _ => volume_explosion w;
     HyperGrowth._signal_ema_ribbon := ema_ribbon;
     HyperGrowth._signal_rsi_surge := rsi_surge;
     HyperGrowth._signal_vwap_reclaim := vwap_reclaim;
     HyperGrowth._signal_bb_squeeze := bb_squeeze;
     HyperGrowth._signal_hh_hl_structure := hh_hl_structure;
     HyperGrowth._signal_candle_pattern := candle_pattern;
     HyperGrowth._signal_order_flow := order_flow;
     HyperGrowth._calculate_atr := fun _ w => atr_value w |}.

Definition silent : Q * string := (0, "neutral").

(** Sixty bars on which the volume and order-flow scorers both read
    [score] in direction [dir], every other scorer is silent, and the ATR
    is 2. *)
Definition two_sources (score : Q) (dir : string) : Readings :=
  {| bars := 60;
     volume_explosion := (score, dir);
     ema_ribbon := silent; rsi_surge := silent; vwap_reclaim := silent;
     bb_squeeze := silent; hh_hl_structure := silent; candle_pattern := silent;
     order_flow := (score, dir);
     atr_value := 2 |}.

Definition snapshot (w : Readings) (price : Q) : HyperGrowth.MarketState Readings :=
  {| HyperGrowth.ms_ohlcv := Some w;
     HyperGrowth.ms_symbol := "PEPE/USD";
     HyperGrowth.ms_current_price := price;
     HyperGrowth.ms_equity := Some 100;
     HyperGrowth.ms_regime := None |}.

(** Whether a signal is an entry (as opposed to a pyramid add). *)
Definition is_entry (sig : HyperGrowth.Signal) : bool :=
  match HyperGrowth.metadata sig with
  | HyperGrowth.EntryMeta _ _ _ _ _ _ _ _ _ _ _ => true
  | HyperGrowth.PyramidMeta _ _ _ _ _ => false
  end.

(** Whether an entry of the [sources] dictionary contributes to a
    direction: a positive score in that direction. *)
Definition contributes (dir : string) (src : string * (Q * string)) : bool :=
  Py.gtb (fst (snd src)) 0 && String.eqb (snd (snd src)) dir.

(** ** Memecoin positions of the worked examples *)

(** A position as [execute_buy] opens it: 1000 tokens bought for 1 SOL. *)
Definition meme_position (entry_price : Q) : Memecoin.MemecoinPosition :=
  Memecoin.open_position "MINT" "MEME" "Meme coin" entry_price 1 1000
    "2025-01-01T00:00:00" "alpha" 80.

(** The position after a sequence of price updates. *)
Definition price_path (p : Memecoin.MemecoinPosition) (prices : list Q)
    : Memecoin.MemecoinPosition :=
  fold_left Memecoin.update_price prices p.

(** The drawdown from the peak that [should_exit] compares with the
    trail. *)
Definition drawdown_from_peak (p : Memecoin.MemecoinPosition) : Q :=
  if Py.gtb (Memecoin.peak_price p) 0
  then (Memecoin.peak_price p - Memecoin.current_price p) / Memecoin.peak_price p
  else 0.

(** A venue that quotes one price for every mint and fills every swap. *)
Definition venue_at (price : Q) : Memecoin.Venue :=
  {| Memecoin.get_token_price := fun _ => Some price;
     Memecoin.execute_swap := fun _ _ => true |}.

(** An engine that holds one position under the mint "MINT". *)
Definition holding (p : Memecoin.MemecoinPosition) : Memecoin.t :=
  {| Memecoin.positions := [("MINT", p)];
     Memecoin.closed_positions := [];
     Memecoin.total_trades := 1;
     Memecoin.winning_trades := 0;
     Memecoin.total_pnl_sol := 0;
     Memecoin.best_trade_pnl_pct := 0;
     Memecoin.worst_trade_pnl_pct := 0;
     Memecoin.daily_pnl_sol := 0 |}.

(** The pyramid level that a signal announces, if it is a pyramid add. *)
Definition pyramid_level (sig : HyperGrowth.Signal) : option Z :=
  match HyperGrowth.metadata sig with
  | HyperGrowth.PyramidMeta _ _ level _ _ => Some level
  | HyperGrowth.EntryMeta _ _ _ _ _ _ _ _ _ _ _ => None
  end.

(** ** Notions used to state further properties *)

(** The tracker after a sequence of closed trades. *)
Definition record_all (g : CompoundGrowthTracker.t) (returns : list Q)
    : CompoundGrowthTracker.t :=
  fold_left CompoundGrowthTracker.update returns g.

(** The product of the growth factors [1 + r] of a list of returns. *)
Fixpoint growth_product (returns : list Q) : Q :=
  match returns with
  | [] => 1
  | r :: rest => (1 + r) * growth_product rest
  end.

(** The rank of a growth phase, from the smallest accounts upwards. *)
Definition phase_rank (p : AggressiveRisk.GrowthPhase) : Z :=
  match p with
  | AggressiveRisk.SEED => 0
  | AggressiveRisk.SPROUT => 1
  | AggressiveRisk.GROW => 2
  | AggressiveRisk.MATURE => 3
  end.

(** The manager after a sequence of calls of [record_trade], one for each
    given record, in order. *)
Definition record_trades (m : AggressiveRisk.t) (trades : list AggressiveRisk.TradeRecord)
    : AggressiveRisk.t :=
  fold_left (fun acc r =>
               AggressiveRisk.record_trade (AggressiveRisk.tr_timestamp r) acc
                 (AggressiveRisk.tr_pnl r) (AggressiveRisk.tr_pnl_pct r)
                 (AggressiveRisk.tr_symbol r))
            trades m.

Definition is_loss (r : AggressiveRisk.TradeRecord) : bool :=
  Py.ltb (AggressiveRisk.tr_pnl_pct r) 0.

(** The number of losing trades at the head of a list, and at its end. *)
Fixpoint leading_losses (trades : list AggressiveRisk.TradeRecord) : Z :=
  match trades with
  | [] => 0
  | r :: rest => if is_loss r then (1 + leading_losses rest)%Z else 0%Z
  end.

Definition trailing_losses (trades : list AggressiveRisk.TradeRecord) : Z :=
  leading_losses (rev trades).

(** A tracker on the default 100 -> 500 target with a given equity. *)
Definition tracker_at (current : Q) : CompoundGrowthTracker.t :=
  {| CompoundGrowthTracker.starting_equity := 100;
     CompoundGrowthTracker.target_equity := 500;
     CompoundGrowthTracker.current_equity := current;
     CompoundGrowthTracker.trade_returns := [];
     CompoundGrowthTracker.win_count := 0;
     CompoundGrowthTracker.loss_count := 0 |}.

(** A configuration whose phase boundaries ascend and whose limits tighten
    from phase to phase. *)
Definition tightening (cfg : AggressiveRisk.AggressiveRiskConfig) : Prop :=
  AggressiveRisk.seed_max cfg <= AggressiveRisk.sprout_max cfg /\
  AggressiveRisk.sprout_max cfg <= AggressiveRisk.grow_max cfg /\
  AggressiveRisk.mature_max_position cfg <= AggressiveRisk.grow_max_position cfg /\
  AggressiveRisk.grow_max_position cfg <= AggressiveRisk.sprout_max_position cfg /\
  AggressiveRisk.sprout_max_position cfg <= AggressiveRisk.seed_max_position cfg /\
  AggressiveRisk.mature_daily_loss_halt cfg <= AggressiveRisk.grow_daily_loss_halt cfg /\
  AggressiveRisk.grow_daily_loss_halt cfg <= AggressiveRisk.sprout_daily_loss_halt cfg /\
  AggressiveRisk.sprout_daily_loss_halt cfg <= AggressiveRisk.seed_daily_loss_halt cfg /\
  AggressiveRisk.mature_drawdown_halt cfg <= AggressiveRisk.grow_drawdown_halt cfg /\
  AggressiveRisk.grow_drawdown_halt cfg <= AggressiveRisk.sprout_drawdown_halt cfg /\
  AggressiveRisk.sprout_drawdown_halt cfg <= AggressiveRisk.seed_drawdown_halt cfg.

(** One iteration of the loop of [_check_milestones]. *)
Definition milestone_step (equity : Q) (hit : list Q) (target : Q) : list Q :=
  if Py.geb equity target && negb (Py.mem target hit)
  then (hit ++ [target])%list else hit.

(** ** run_api.py: the generator's regime reading *)

Module GeneratorAgent.

(** [market_momentum] maps a symbol to the strength of its last signal. *)
Record t := {
  signals_generated : Z;
  last_scan_time : option string;
  market_momentum : gmap string Q
}.

Definition __init__ : t :=
  {| signals_generated := 0; last_scan_time := None; market_momentum := ∅ |}.

(** The returned dictionary. *)
Record Regime := { regime : string; confidence : Q }.

Definition get_market_regime (g : t) : Regime :=
  if bool_decide (market_momentum g = ∅) then
    {| regime := "unknown"; confidence := 0 |}
  else
    let momentums := (map_to_list (market_momentum g)).*2 in
    let positive := Py.len (List.filter (fun m => Py.gtb m 0) momentums) in
    let negative := Py.len (List.filter (fun m => Py.ltb m 0) momentums) in
    let total := Py.len momentums in
    if (total =? 0)%Z then {| regime := "unknown"; confidence := 0 |}
    else
      let positive_pct := inject_Z positive / inject_Z total in
      let negative_pct := inject_Z negative / inject_Z total in
      if Py.geb positive_pct (7 # 10) then
        {| regime := "bullish"; confidence := positive_pct |}
      else if Py.geb negative_pct (7 # 10) then
        {| regime := "bearish"; confidence := negative_pct |}
      else
        {| regime := "neutral"; confidence := Py.max positive_pct negative_pct |}.

End GeneratorAgent.

(** The gate after a sequence of calls of [verify_signal], each with its
    own environment, signal, state and open positions. *)
Definition verify_all {P : Type} (v : VerifierAgent.t)
    (calls : list (VerifierAgent.Env * VerifierAgent.Signal * VerifierAgent.State * list P))
    : VerifierAgent.t :=
  fold_left (fun v c =>
               match c with
               | (env, signal, state, positions) =>
                 fst (VerifierAgent.verify_signal env v signal state positions)
               end)
            calls v.

(** The state dictionary with ["regime_confidence"] set, as the trading
    loop does after the regime reading. *)
Definition with_regime_confidence (state : VerifierAgent.State) (c : Q) : VerifierAgent.State :=
  {| VerifierAgent.noise_level := VerifierAgent.noise_level state;
     VerifierAgent.current_drawdown := VerifierAgent.current_drawdown state;
     VerifierAgent.daily_pnl_pct := VerifierAgent.daily_pnl_pct state;
     VerifierAgent.regime_confidence := Some c |}.

(** The monitor after a sequence of cycles of the trading loop, each
    calling [detect_edge_decay] on the trade log of the moment. *)
Definition monitor (d : HARDetector.t)
    (cycles : list (HARDetector.Clock * list HARDetector.Trade)) : HARDetector.t :=
  fold_left (fun d c => fst (HARDetector.detect_edge_decay (fst c) d (snd c))) cycles d.

(** The alert types of a monitor that started active: decay and
    restoration in turn. *)
Fixpoint alternating (inactive : bool) (types : list string) : bool :=
  match types with
  | [] => true
  | ty :: rest =>
    String.eqb ty (if inactive then "edge_restored" else "edge_decay")
    && alternating (negb inactive) rest
  end.

(** ** run_api.py: the updater *)

Module UpdaterAgent.

(** The numeric entries of the shared [state] dictionary, by key; the time
    of the last sweep is held in seconds on the time line.  An entry whose
    value is [None] reads like a missing one in every place below. *)
Abbreviation State := (gmap string Q).

(** The two environment variables of the sweeper, and the two readings of
    [datetime.now()] that one call of [check_profit_sweep] makes. *)
Record Env := {
  TMS_PROFIT_SWEEP_THRESHOLD : option Q;
  TMS_PROFIT_SWEEP_PERCENTAGE : option Q
}.

Record Clock := { now_check : Q; now_stamp : Q }.

Record t := {
  trades_executed : Z;
  sweeps_performed : Z;
  total_swept : Q
}.

Definition __init__ : t :=
  {| trades_executed := 0; sweeps_performed := 0; total_swept := 0 |}.

(** [update_state]; [starting_capital] is [config["starting_capital"]] and
    [pnl] is [trade_result.get("pnl")].  [Raised] is the [KeyError] of
    [state["trades_today"]] or of [state["peak_equity"]]. *)
Definition update_state (starting_capital : Q) (state : State) (pnl : option Q)
    : result State unit :=
  match state !! "trades_today" with
  | None => Raised state
  | Some n =>
    let state := <["trades_today" := n + 1]> state in
    (* Update daily PnL tracking *)
    let pnl := default 0 pnl in
    let state := <["daily_pnl" := default 0 (state !! "daily_pnl") + pnl]> state in
    (* Calculate drawdown *)
    let equity := default starting_capital (state !! "equity") in
    let peak := default equity (state !! "peak_equity") in
    let state := if Py.gtb equity peak then <["peak_equity" := equity]> state else state in
    match state !! "peak_equity" with
    | None => Raised state
    | Some p =>
      let drawdown := if Py.gtb p 0 then (p - equity) / p else 0 in
      Returned (<["current_drawdown" := drawdown]> state) tt
    end
  end.

(** [check_profit_sweep]: the agent and the state after the call, and the
    returned flag. *)
Definition check_profit_sweep (starting_capital : Q) (env : Env) (clk : Clock)
    (u : t) (state : State) : t * State * bool :=
  (* Calculate current daily growth *)
  let start_equity := default starting_capital (state !! "start_of_day_equity") in
  let current_equity := default start_equity (state !! "equity") in
  let daily_growth :=
    if Py.gtb start_equity 0 then (current_equity - start_equity) / start_equity else 0 in
  let state :=
    if Py.gtb start_equity 0 then <["daily_pnl_pct" := daily_growth]> state else state in
  (* Check if we've already swept recently (within 1 hour) *)
  let recently :=
    match state !! "last_sweep_time" with
    | Some last_sweep => Py.ltb ((now_check clk - last_sweep) / 3600) 1
    | None => false
    end in
  if recently then (u, state, false)
  else
    let sweep_threshold := default (1 # 2) (TMS_PROFIT_SWEEP_THRESHOLD env) in
    let sweep_percentage := default (2 # 10) (TMS_PROFIT_SWEEP_PERCENTAGE env) in
    if Py.geb daily_growth sweep_threshold then
      let sweep_amount := current_equity * sweep_percentage in
      let state :=
        <["sovereign_vault" := default 0 (state !! "sovereign_vault") + sweep_amount]> state in
      let state := <["hustle_account" := current_equity - sweep_amount]> state in
      let state := <["last_sweep_time" := now_stamp clk]> state in
      let state :=
        <["total_swept" := default 0 (state !! "total_swept") + sweep_amount]> state in
      ({| trades_executed := trades_executed u;
          sweeps_performed := (sweeps_performed u + 1)%Z;
          total_swept := total_swept u + sweep_amount |},
       state, true)
    else (u, state, false).

End UpdaterAgent.

(** A day that started at 100 and stands at 160, with nothing swept yet. *)
Definition growing_day : UpdaterAgent.State :=
  {[ "start_of_day_equity" := 100; "equity" := 160 ]}.

Definition default_sweep : UpdaterAgent.Env :=
  {| UpdaterAgent.TMS_PROFIT_SWEEP_THRESHOLD := None;
     UpdaterAgent.TMS_PROFIT_SWEEP_PERCENTAGE := None |}.

Definition sweep_clock (seconds : Q) : UpdaterAgent.Clock :=
  {| UpdaterAgent.now_check := seconds; UpdaterAgent.now_stamp := seconds |}.

(** The equity at the start of the day and the equity of the moment, as
    [check_profit_sweep] reads them, and the amount that a sweep moves. *)
Definition day_start (starting_capital : Q) (state : UpdaterAgent.State) : Q :=
  default starting_capital (state !! "start_of_day_equity").

Definition day_equity (starting_capital : Q) (state : UpdaterAgent.State) : Q :=
  default (day_start starting_capital state) (state !! "equity").

Definition swept_amount (starting_capital : Q) (env : UpdaterAgent.Env)
    (state : UpdaterAgent.State) : Q :=
  day_equity starting_capital state
  * default (2 # 10) (UpdaterAgent.TMS_PROFIT_SWEEP_PERCENTAGE env).

(** A state with one trade-free day behind it: equity 80 under a peak of
    100. *)
Definition losing_day : UpdaterAgent.State :=
  {[ "trades_today" := 0; "peak_equity" := 100; "equity" := 80 ]}.

(** ** Histories of the hyper-growth engine *)

Section EngineHistory.

Context (Ohlcv : Type) `{HyperGrowth.SignalSources Ohlcv}.

(** The engine objects that calls of [generate_signals] and
    [on_position_close] produce from a given object, whether the calls
    return or raise. *)
Inductive engine_reachable (e0 : HyperGrowth.t) : HyperGrowth.t -> Prop :=
| engine_start : engine_reachable e0 e0
| engine_signals (clk : HyperGrowth.Clock) (e : HyperGrowth.t)
    (ms : HyperGrowth.MarketState Ohlcv) :
    engine_reachable e0 e ->
    engine_reachable e0 (state_of (HyperGrowth.generate_signals clk e ms))
| engine_close (clk : HyperGrowth.Clock) (e : HyperGrowth.t) (symbol : string)
    (entry_price exit_price : Q) (side : string) (pnl_pct : Q) :
    engine_reachable e0 e ->
    engine_reachable e0
      (state_of (HyperGrowth.on_position_close clk e symbol entry_price exit_price
                   side pnl_pct)).

End EngineHistory.

(** Two engine objects that agree on the fields that stand for settings:
    the halt flag, the accuracy table, the configuration and the name. *)
Definition same_settings (e e' : HyperGrowth.t) : Prop :=
  HyperGrowth._is_halted e' = HyperGrowth._is_halted e /\
  HyperGrowth._source_accuracy e' = HyperGrowth._source_accuracy e /\
  HyperGrowth.config e' = HyperGrowth.config e /\
  HyperGrowth.name e' = HyperGrowth.name e.

Definition half_minute_later : HyperGrowth.Clock :=
  {| HyperGrowth.utcnow := 30; HyperGrowth.today := "2025-01-01";
     HyperGrowth.isoformat := "2025-01-01T00:00:30" |}.

(** ** tms/memecoin/memecoin_engine.py: conviction labels and position sizing *)

Module AlphaScorer.

Definition _get_recommendation (score : Q) : string :=
  if Py.geb score 85 then "STRONG BUY -- High conviction, max position"
  else if Py.geb score 70 then "BUY -- Good setup, standard position"
  else if Py.geb score 60 then "SPECULATIVE BUY -- Smaller position, tight stop"
  else if Py.geb score 40 then "WATCH -- Not enough conviction yet"
  else "SKIP -- Too risky or no edge".

End AlphaScorer.

Module MemecoinPositionSizer.

Record t := {
  base_allocation_pct : Q;
  max_allocation_pct : Q;
  max_portfolio_in_memes : Q;
  max_positions : Z;
  conviction_multipliers : gmap string Q
}.

Definition __init__ : t :=
  {| base_allocation_pct := 5 # 100;
     max_allocation_pct := 15 # 100;
     max_portfolio_in_memes := 80 # 100;
     max_positions := 8;
     conviction_multipliers :=
       list_to_map [("STRONG BUY", 3); ("BUY", 2); ("SPECULATIVE BUY", 1)] |}.

(** The returned dictionary; the last two keys are present only when the
    trade is allowed. *)
Record Sizing := {
  size_sol : Q;
  size_pct : Q;
  reason : string;
  can_trade : bool;
  multiplier : option Q;
  alpha_score : option Q
}.

Definition refused (reason : string) : Sizing :=
  {| size_sol := 0; size_pct := 0; reason := reason; can_trade := false;
     multiplier := None; alpha_score := None |}.

(** [round(x, 4)]. *)
Definition round4 (x : Q) : Q := inject_Z (Py.round_half_even (x * 10000)) / 10000.

Definition calculate_position_size (s : t) (portfolio_value_sol alpha_score : Q)
    (recommendation : string) (current_positions : Z) (current_exposure_pct : Q)
    : Sizing :=
  (* Check if we can take more positions *)
  if (max_positions s <=? current_positions)%Z then
    refused ("Max positions (" +:+ Py.fmt_int (max_positions s) +:+ ") reached")
  else
    (* Check total exposure *)
    let remaining_capacity := max_portfolio_in_memes s - current_exposure_pct in
    if Py.leb remaining_capacity (2 # 100) then
      refused ("Max memecoin exposure (" +:+ Py.fmt_pct 0 (max_portfolio_in_memes s)
               +:+ ") reached")
    else
      (* Base size *)
      let multiplier := default 1 (conviction_multipliers s !! recommendation) in
      let size_pct :=
        Py.min (Py.min (base_allocation_pct s * multiplier) (max_allocation_pct s))
               remaining_capacity in
      (* Score-based adjustment *)
      let size_pct :=
        if Py.geb alpha_score 85 then size_pct * (12 # 10)
        else if Py.ltb alpha_score 65 then size_pct * (7 # 10)
        else size_pct in
      (* Cap at max *)
      let size_pct := Py.min size_pct (max_allocation_pct s) in
      let size_sol := portfolio_value_sol * size_pct in
      (* Minimum trade size *)
      let min_size_sol := 1 # 100 in
      if Py.ltb size_sol min_size_sol then
        refused ("Position too small: " +:+ Py.fmt_f 4 size_sol +:+
                 " SOL < 0.01 SOL minimum")
      else
        {| size_sol := round4 size_sol;
           size_pct := size_pct;
           reason := recommendation +:+ ": " +:+ Py.fmt_pct 1 size_pct +:+
                     " of portfolio (" +:+ Py.fmt_f 4 size_sol +:+ " SOL)";
           can_trade := true;
           multiplier := Some multiplier;
           alpha_score := Some alpha_score |}.

End MemecoinPositionSizer.
(** * Properties *)

(** ** Comparisons and formatting *)

Lemma ltb_true (x y : Q) : Py.ltb x y = true <-> x < y.
Proof.
  unfold Py.ltb. rewrite negb_true_iff.
  destruct (Qle_bool y x) eqn:E.
  - apply Qle_bool_iff in E. split; [discriminate | intros Hlt; lra].
  - split; [intros _ | reflexivity].
    destruct (Qlt_le_dec x y) as [Hlt | Hle]; [exact Hlt |].
    apply Qle_bool_iff in Hle. congruence.
Qed.

Lemma ltb_false (x y : Q) : Py.ltb x y = false <-> y <= x.
Proof.
  unfold Py.ltb. rewrite negb_false_iff. apply Qle_bool_iff.
Qed.

Lemma leb_true (x y : Q) : Py.leb x y = true <-> x <= y.
Proof. apply Qle_bool_iff. Qed.

Lemma leb_false (x y : Q) : Py.leb x y = false <-> y < x.
Proof.
  rewrite <- ltb_true. unfold Py.ltb, Py.leb.
  destruct (Qle_bool x y); simpl; split; congruence.
Qed.

Lemma gtb_true (x y : Q) : Py.gtb x y = true <-> y < x.
Proof. apply ltb_true. Qed.

Lemma gtb_false (x y : Q) : Py.gtb x y = false <-> x <= y.
Proof. apply ltb_false. Qed.

Lemma geb_true (x y : Q) : Py.geb x y = true <-> y <= x.
Proof. apply leb_true. Qed.

Lemma geb_false (x y : Q) : Py.geb x y = false <-> x < y.
Proof. apply leb_false. Qed.

Lemma eqb_true (x y : Q) : Py.eqb x y = true <-> x == y.
Proof. apply Qeq_bool_iff. Qed.

Lemma eqb_false (x y : Q) : Py.eqb x y = false <-> ~ x == y.
Proof.
  rewrite <- eqb_true. destruct (Py.eqb x y); split; congruence.
Qed.

Lemma max_spec (a b : Q) : a <= Py.max a b /\ b <= Py.max a b.
Proof.
  unfold Py.max. destruct (Py.ltb a b) eqn:E.
  - apply ltb_true in E. lra.
  - apply ltb_false in E. lra.
Qed.

Lemma max_cases (a b : Q) : Py.max a b = a \/ Py.max a b = b.
Proof. unfold Py.max. destruct (Py.ltb a b); auto. Qed.

Lemma min_spec (a b : Q) : Py.min a b <= a /\ Py.min a b <= b.
Proof.
  unfold Py.min. destruct (Py.ltb b a) eqn:E.
  - apply ltb_true in E. lra.
  - apply ltb_false in E. lra.
Qed.

Lemma min_cases (a b : Q) : Py.min a b = a \/ Py.min a b = b.
Proof. unfold Py.min. destruct (Py.ltb b a); auto. Qed.

(** The slice [l[-k:]] for a positive [k] keeps the last [k] elements, or
    the whole list when it is shorter. *)
Lemma slice_from_suffix {A} (i : Z) (l : list A) :
  exists older, l = (older ++ Py.slice_from i l)%list.
Proof.
  unfold Py.slice_from. eexists. symmetry. apply take_drop.
Qed.

Lemma slice_from_neg_len {A} (k : Z) (l : list A) :
  (0 < k)%Z -> (Py.len (Py.slice_from (- k) l) <= k)%Z.
Proof.
  intros Hk. unfold Py.slice_from, Py.len.
  replace (- k <? 0)%Z with true by (symmetry; apply Z.ltb_lt; lia).
  rewrite length_drop. lia.
Qed.

Lemma slice_from_len_le {A} (i : Z) (l : list A) :
  (Py.len (Py.slice_from i l) <= Py.len l)%Z.
Proof. unfold Py.slice_from, Py.len. rewrite length_drop. lia. Qed.

Lemma slice_from_last {A} (older recent : list A) :
  recent <> [] ->
  Py.slice_from (- Py.len recent) (older ++ recent) = recent.
Proof.
  intros Hne. unfold Py.slice_from, Py.len.
  assert (0 < length recent)%nat by (destruct recent; [congruence | simpl; lia]).
  replace (- Z.of_nat (length recent) <? 0)%Z with true
    by (symmetry; apply Z.ltb_lt; lia).
  rewrite length_app.
  replace (Z.to_nat (Z.max 0 (Z.of_nat (length older + length recent)
                              + - Z.of_nat (length recent))))
    with (length older) by lia.
  apply drop_app_length.
Qed.

(** ** The risk gate *)

Section Gate.

Import VerifierAgent.

Context {P : Type}.
Variables (env : Env) (v : t) (signal : Signal) (state : State).
Variable positions : list P.

(** The variance check holds exactly when the absolute strength is
    strictly above twice the noise level. *)
Lemma variance_inequality_iff :
  _check_variance_inequality signal state = true <->
  2 * default (1 # 100) (noise_level state) < Qabs (default 0 (strength signal)).
Proof.
  unfold _check_variance_inequality.
  rewrite gtb_true. split; intros; lra.
Qed.

(** A rejection reports [false] and records its reason. *)
Lemma reject_result (reason : string) :
  snd (reject v reason) = (false, reason) /\
  signals_rejected (fst (reject v reason)) = (signals_rejected v + 1)%Z /\
  rejection_reasons (fst (reject v reason)) = (rejection_reasons v ++ [reason])%list.
Proof. repeat split. Qed.

(** C1: a signal whose absolute strength is at most twice the noise
    level of the state (equality included) fails the variance check, and
    the gate rejects it with the variance reason, whatever the other
    inputs are. *)
Theorem C1_variance_inequality_rejects :
  Qabs (default 0 (strength signal)) <= 2 * default (1 # 100) (noise_level state) ->
  _check_variance_inequality signal state = false /\
  verify_signal env v signal state positions
    = reject v "Variance inequality not satisfied" /\
  fst (snd (verify_signal env v signal state positions)) = false.
Proof.
  intros Hle.
  assert (Hc : _check_variance_inequality signal state = false).
  { destruct (_check_variance_inequality signal state) eqn:E; [| reflexivity].
    apply variance_inequality_iff in E. lra. }
  unfold verify_signal. rewrite Hc. simpl. auto.
Qed.

(** The converse direction: a signal that the gate accepts has an
    absolute strength strictly above twice the noise level. *)
Lemma accepted_exceeds_noise :
  fst (snd (verify_signal env v signal state positions)) = true ->
  2 * default (1 # 100) (noise_level state) < Qabs (default 0 (strength signal)).
Proof.
  intros Hacc. apply variance_inequality_iff.
  destruct (_check_variance_inequality signal state) eqn:E; [reflexivity |].
  revert Hacc. unfold verify_signal. rewrite E. simpl. discriminate.
Qed.

End Gate.

(** The boundary case: strength 0.02 against noise 0.01. *)
Lemma C1_witness :
  Qabs (2 # 100) <= 2 * (1 # 100) /\
  VerifierAgent.verify_signal (P := string) (env_at 10 0) VerifierAgent.__init__
    (signal_of "buy" (2 # 100)) quiet_state []
  = VerifierAgent.reject VerifierAgent.__init__ "Variance inequality not satisfied".
Proof.
  split.
  - vm_compute. discriminate.
  - apply (C1_variance_inequality_rejects (P := string) (env_at 10 0)
             VerifierAgent.__init__ (signal_of "buy" (2 # 100)) quiet_state []).
    vm_compute. discriminate.
Defined.

Section HardStop.

Import VerifierAgent.

Context {P : Type}.

(** The hard-stop test reads hour and minute separately. *)
Lemma is_past_hard_stop_iff (env : Env) :
  _is_past_hard_stop env = true <->
  exists hour minute,
    now_et env = Some (hour, minute) /\ (15 <= hour)%Z /\ (50 <= minute)%Z.
Proof.
  unfold _is_past_hard_stop. destruct (now_et env) as [[h m] |].
  - rewrite andb_true_iff, !Z.leb_le. split.
    + intros [Hh Hm]. exists h, m. auto.
    + intros (h' & m' & Heq & Hh & Hm). inversion Heq; subst. auto.
  - split; [discriminate | intros (h & m & Heq & _); discriminate].
Qed.

(** The first five checks do not read the clock. *)
Lemma verify_signal_clock (env : Env) (v : t) (signal : Signal) (state : State)
    (positions : list P) :
  verify_signal env v signal state positions =
  if fst (snd (verify_signal (without_clock env) v signal state positions))
  then if _is_past_hard_stop env
       then reject v "Past hard stop time (3:50 PM ET)" else accept v
  else verify_signal (without_clock env) v signal state positions.
Proof.
  unfold verify_signal, without_clock, _is_past_hard_stop. simpl.
  repeat match goal with
         | |- context [if ?b then reject _ _ else _] =>
           destruct b; simpl; [reflexivity |]
         end.
  destruct (now_et env) as [[h m] |]; simpl; [| reflexivity].
  destruct ((15 <=? h)%Z && (50 <=? m)%Z); reflexivity.
Qed.

(** In the minutes that the test flags (an hour of at least 15 and a
    minute of at least 50) the gate rejects every signal, whatever its
    side; a signal that passes the five earlier checks is rejected with
    the hard-stop reason. *)
Lemma hard_stop_rejects_every_side
    (env : Env) (v : t) (signal : Signal) (state : State) (positions : list P)
    (hour minute : Z) :
  now_et env = Some (hour, minute) ->
  (15 <= hour)%Z -> (50 <= minute)%Z ->
  fst (snd (verify_signal env v signal state positions)) = false /\
  (fst (snd (verify_signal (without_clock env) v signal state positions)) = true ->
   verify_signal env v signal state positions
     = reject v "Past hard stop time (3:50 PM ET)").
Proof.
  intros Hnow Hh Hm.
  assert (Hpast : _is_past_hard_stop env = true).
  { apply is_past_hard_stop_iff. exists hour, minute. auto. }
  rewrite verify_signal_clock, Hpast.
  destruct (fst (snd (verify_signal (without_clock env) v signal state positions)))
    eqn:E; simpl.
  - split; [reflexivity | intros _; reflexivity].
  - split; [exact E | discriminate].
Qed.

(** C9 at the failing inputs: the hard-stop test reads the hour and the
    minute separately.  At every time of day strictly later than 3:50 PM
    whose minute is below 50 (16:00 to 16:49, 17:00 to 17:49, and so on)
    the test is false, and the gate verifies every signal that passes its
    five earlier checks, a long entry included. *)
Theorem C9_hard_stop_misses_later_hours
    (env : Env) (v : t) (signal : Signal) (state : State) (positions : list P)
    (hour minute : Z) :
  now_et env = Some (hour, minute) ->
  (0 <= minute < 60)%Z ->
  (15 * 60 + 50 < hour * 60 + minute)%Z ->
  (minute < 50)%Z ->
  _is_past_hard_stop env = false /\
  (fst (snd (verify_signal (without_clock env) v signal state positions)) = true ->
   verify_signal env v signal state positions = accept v).
Proof.
  intros Hnow Hmin Hlater Hm.
  assert (Hpast : _is_past_hard_stop env = false).
  { unfold _is_past_hard_stop. rewrite Hnow.
    replace (50 <=? minute)%Z with false by (symmetry; apply Z.leb_gt; exact Hm).
    apply andb_false_r. }
  split; [exact Hpast |].
  intros Hpass. rewrite verify_signal_clock, Hpass, Hpast. reflexivity.
Qed.

End HardStop.

(** At 16:05, a quarter of an hour after the hard stop, a buy signal is
    verified. *)
Lemma C9_witness :
  VerifierAgent._is_past_hard_stop (env_at 16 5) = false /\
  VerifierAgent.verify_signal (P := string) (env_at 16 5) VerifierAgent.__init__
    (signal_of "buy" (1 # 2)) quiet_state []
  = VerifierAgent.accept VerifierAgent.__init__.
Proof.
  destruct (C9_hard_stop_misses_later_hours (P := string) (env_at 16 5)
              VerifierAgent.__init__ (signal_of "buy" (1 # 2)) quiet_state []
              16 5 eq_refl) as [Hpast Hok]; [lia | lia | lia |].
  split; [exact Hpast | apply Hok; reflexivity].
Defined.

(** Inside the flagged minutes the gate makes no exception for closing
    signals: at 15:55 a sell signal that would otherwise be verified is
    rejected with the hard-stop reason. *)
Lemma hard_stop_rejects_sell_at_1555 :
  snd (VerifierAgent.verify_signal (P := string) (without_clock (env_at 15 55))
         VerifierAgent.__init__ (signal_of "sell" (1 # 2)) quiet_state [])
    = (true, "Signal verified") /\
  snd (VerifierAgent.verify_signal (P := string) (env_at 15 55)
         VerifierAgent.__init__ (signal_of "sell" (1 # 2)) quiet_state [])
    = (false, "Past hard stop time (3:50 PM ET)").
Proof. split; reflexivity. Qed.

(** The test [hour >= 15 and minute >= 50] is not "later than 15:50": at
    16:05 it is false, and a buy signal is verified. *)
Lemma hard_stop_not_past_at_1605 :
  VerifierAgent._is_past_hard_stop (env_at 16 5) = false /\
  snd (VerifierAgent.verify_signal (P := string) (env_at 16 5)
         VerifierAgent.__init__ (signal_of "buy" (1 # 2)) quiet_state [])
    = (true, "Signal verified").
Proof. split; reflexivity. Qed.

(** ** The edge-decay monitor *)

Section HAR.

Import HARDetector.

Variable d : t.

(** The reading is a function of the recent window alone. *)
Lemma calculate_har_recent (trade_log : list Trade) :
  calculate_har d trade_log =
  if (Py.len (recent_trades d trade_log) <? 5)%Z then 1 # 2
  else win_rate (recent_trades d trade_log).
Proof.
  unfold calculate_har. destruct trade_log as [| tr rest]; [| reflexivity].
  unfold recent_trades, Py.slice_from. rewrite drop_nil. reflexivity.
Qed.

(** With fewer than five trades in the log the reading is one half. *)
Lemma calculate_har_short (trade_log : list Trade) :
  (length trade_log < 5)%nat -> calculate_har d trade_log = 1 # 2.
Proof.
  intros Hlen. rewrite calculate_har_recent.
  pose proof (slice_from_len_le (- lookback d) trade_log) as Hle.
  fold (recent_trades d trade_log) in Hle. unfold Py.len in *.
  replace (Z.of_nat (length (recent_trades d trade_log)) <? 5)%Z with true
    by (symmetry; apply Z.ltb_lt; lia).
  reflexivity.
Qed.

(** Trades older than the window do not change the reading. *)
Lemma calculate_har_window (older recent : list Trade) :
  (0 < lookback d)%Z -> Py.len recent = lookback d ->
  calculate_har d (older ++ recent) = calculate_har d recent.
Proof.
  intros Hpos Hlen.
  assert (Hne : recent <> []).
  { intros ->. unfold Py.len in Hlen. simpl in Hlen. lia. }
  rewrite !calculate_har_recent. unfold recent_trades. rewrite <- Hlen.
  rewrite slice_from_last by exact Hne.
  pose proof (slice_from_last [] recent Hne) as Hself. simpl in Hself.
  rewrite Hself. reflexivity.
Qed.

(** For a positive lookback the slice [trade_log[-lookback:]] is the last
    [lookback] trades of the log, or the whole log when it holds fewer. *)
Lemma recent_trades_spec (trade_log : list Trade) :
  (0 < lookback d)%Z ->
  recent_trades d trade_log = spec_window (Z.to_nat (lookback d)) trade_log.
Proof.
  intros Hpos. unfold recent_trades, Py.slice_from, spec_window, Py.len.
  replace (- lookback d <? 0)%Z with true by (symmetry; apply Z.ltb_lt; lia).
  f_equal. lia.
Qed.

Lemma spec_window_length (k : nat) (trade_log : list Trade) :
  length (spec_window k trade_log) = Nat.min k (length trade_log).
Proof. unfold spec_window. rewrite length_skipn. lia. Qed.

(** The generator expression [t.get("pnl", 0) > 0] picks the trades with a
    recorded profit above zero, and [sum(1 for ...)] counts them. *)
Lemma is_win_spec (tr : Trade) : is_win tr = spec_is_win tr.
Proof.
  unfold is_win, spec_is_win. destruct (pnl tr) as [profit |]; cbn [from_option id].
  - destruct (Qlt_le_dec 0 profit) as [Hlt | Hle].
    + apply gtb_true. exact Hlt.
    + apply gtb_false. exact Hle.
  - reflexivity.
Qed.

Lemma wins_spec (trades : list Trade) :
  length (List.filter is_win trades) = spec_wins trades.
Proof.
  induction trades as [| tr rest IH]; [reflexivity |].
  cbn [List.filter spec_wins]. rewrite <- is_win_spec.
  destruct (is_win tr); cbn [length]; lia.
Qed.

(** The reading of the code is the reading that the specification
    describes. *)
Lemma calculate_har_spec (trade_log : list Trade) :
  (0 < lookback d)%Z ->
  calculate_har d trade_log = spec_har (lookback d) trade_log.
Proof.
  intros Hpos. rewrite calculate_har_recent, (recent_trades_spec trade_log Hpos).
  unfold spec_har, win_rate, Py.len. cbv zeta.
  set (window := spec_window (Z.to_nat (lookback d)) trade_log).
  rewrite wins_spec.
  destruct (length window <? 5)%nat eqn:E.
  - apply Nat.ltb_lt in E.
    replace (Z.of_nat (length window) <? 5)%Z with true
      by (symmetry; apply Z.ltb_lt; lia).
    reflexivity.
  - apply Nat.ltb_ge in E.
    replace (Z.of_nat (length window) <? 5)%Z with false
      by (symmetry; apply Z.ltb_ge; lia).
    reflexivity.
Qed.

(** C8: for a monitor with a positive lookback and a threshold of at most
    one half (the instance of the program has 20 and 0.4), the window of
    the reading is the last [min(lookback, n)] trades of a log of [n]
    trades; the reading is one half when the window holds fewer than five
    trades and otherwise the number of trades of the window with a profit
    above zero, divided by the length of the window; two logs with the
    same window have the same reading, so that older trades do not count;
    and on a log of fewer than five trades the reading is exactly one
    half, edge decay is not reported, and the monitor is not in strategic
    inactivity afterwards. *)
Theorem C8_har_window_and_short_log (clk : Clock) (trade_log : list Trade) :
  (0 < lookback d)%Z ->
  threshold d <= 1 # 2 ->
  let window := spec_window (Z.to_nat (lookback d)) trade_log in
  length window = Nat.min (Z.to_nat (lookback d)) (length trade_log) /\
  (exists older, trade_log = (older ++ window)%list) /\
  calculate_har d trade_log
    = (if (length window <? 5)%nat then 1 # 2
       else inject_Z (Z.of_nat (spec_wins window))
            / inject_Z (Z.of_nat (length window))) /\
  (forall other_log,
      spec_window (Z.to_nat (lookback d)) other_log = window ->
      calculate_har d other_log = calculate_har d trade_log) /\
  (forall older recent,
      Py.len recent = lookback d ->
      calculate_har d (older ++ recent) = calculate_har d recent) /\
  ((length trade_log < 5)%nat ->
   calculate_har d trade_log = 1 # 2 /\
   snd (detect_edge_decay clk d trade_log) = (false, 1 # 2) /\
   strategic_inactivity (fst (detect_edge_decay clk d trade_log)) = false).
Proof.
  intros Hpos Hthr window.
  split; [apply spec_window_length |].
  split.
  { exists (firstn (length trade_log - Z.to_nat (lookback d)) trade_log).
    symmetry. apply firstn_skipn. }
  split; [exact (calculate_har_spec trade_log Hpos) |].
  split.
  { intros other_log Hsame. rewrite !calculate_har_spec by exact Hpos.
    unfold spec_har. cbv zeta. rewrite Hsame. reflexivity. }
  split.
  { intros older recent Hlen. apply calculate_har_window; assumption. }
  intros Hshort. split; [apply calculate_har_short; assumption |].
  unfold detect_edge_decay. rewrite calculate_har_short by assumption.
  replace (Py.ltb (1 # 2) (threshold d)) with false
    by (symmetry; apply ltb_false; exact Hthr).
  simpl. destruct (strategic_inactivity d) eqn:E; simpl; split;
    first [reflexivity | exact E].
Qed.

End HAR.

(** The program's monitor on a log of twenty-five trades: the five old
    wins do not count, and the reading is the six wins of the last twenty
    trades, 0.30, not the eleven wins of the whole log. *)
Lemma C8_witness :
  (0 < HARDetector.lookback HARDetector.har_detector)%Z /\
  HARDetector.threshold HARDetector.har_detector <= 1 # 2 /\
  length (spec_window 20 mixed_log) = 20%nat /\
  HARDetector.calculate_har HARDetector.har_detector mixed_log == 3 # 10.
Proof.
  assert (Hpos : (0 < HARDetector.lookback HARDetector.har_detector)%Z)
    by (vm_compute; reflexivity).
  assert (Hthr : HARDetector.threshold HARDetector.har_detector <= 1 # 2)
    by (vm_compute; discriminate).
  pose proof (C8_har_window_and_short_log HARDetector.har_detector noon
                mixed_log Hpos Hthr)
    as (Hlen & _ & Hhar & _).
  split; [exact Hpos |]. split; [exact Hthr |].
  split; [exact Hlen |]. rewrite Hhar. reflexivity.
Defined.

(** On a log of four losing trades the reading is one half and the monitor
    stays active. *)
Lemma har_short_log_example :
  HARDetector.calculate_har HARDetector.har_detector
    [loss_trade; loss_trade; loss_trade; loss_trade] = 1 # 2 /\
  HARDetector.strategic_inactivity
    (fst (HARDetector.detect_edge_decay noon HARDetector.har_detector
            [loss_trade; loss_trade; loss_trade; loss_trade])) = false.
Proof. split; reflexivity. Qed.

(** Scenario D of the specification: twenty trades, six of them wins, give
    a reading of 0.30 and put the monitor into strategic inactivity. *)
Lemma har_scenario_six_wins_of_twenty :
  let log := (repeat win_trade 6 ++ repeat loss_trade 14)%list in
  HARDetector.calculate_har HARDetector.har_detector log == 3 # 10 /\
  HARDetector.strategic_inactivity
    (fst (HARDetector.detect_edge_decay noon HARDetector.har_detector log)) = true.
Proof. split; reflexivity. Qed.

(** The slice [l[-0:]] is the whole list: a monitor configured with a
    lookback of zero reads every trade of the log. *)
Lemma recent_trades_lookback_zero (trade_log : list HARDetector.Trade) :
  HARDetector.recent_trades (HARDetector.__init__ 0 (4 # 10)) trade_log = trade_log.
Proof.
  unfold HARDetector.recent_trades, Py.slice_from. simpl.
  replace (Z.to_nat (Z.min (- 0) (Py.len trade_log))) with 0%nat
    by (unfold Py.len; lia).
  reflexivity.
Qed.

(** ** Rendered numbers and the test for a daily halt *)

Lemma all_numeric_app (a b : string) :
  all_numeric (a +:+ b) = all_numeric a && all_numeric b.
Proof.
  induction a as [| c a IH]; simpl; [reflexivity |].
  rewrite IH. apply andb_assoc.
Qed.

Lemma all_numeric_uint (u : Decimal.uint) :
  all_numeric (NilEmpty.string_of_uint u) = true.
Proof. induction u; simpl; auto. Qed.

Lemma all_numeric_digits (n : Z) : all_numeric (Py.digits n) = true.
Proof.
  unfold Py.digits, NilZero.string_of_uint.
  destruct (N.to_uint (Z.to_N n)); try reflexivity; apply all_numeric_uint.
Qed.

Lemma all_numeric_zeros (k : nat) : all_numeric (Py.zeros k) = true.
Proof. induction k; simpl; auto. Qed.

Lemma all_numeric_fmt_f (prec : nat) (q : Q) : all_numeric (Py.fmt_f prec q) = true.
Proof.
  unfold Py.fmt_f, Py.pad_zeros.
  rewrite !all_numeric_app, all_numeric_digits.
  destruct (Py.ltb q 0); destruct prec; simpl; try reflexivity;
    rewrite !all_numeric_app, all_numeric_zeros, all_numeric_digits; reflexivity.
Qed.

Lemma all_numeric_fmt_pct (prec : nat) (q : Q) : all_numeric (Py.fmt_pct prec q) = true.
Proof.
  unfold Py.fmt_pct. rewrite all_numeric_app, all_numeric_fmt_f. reflexivity.
Qed.

Lemma all_numeric_fmt_int (z : Z) : all_numeric (Py.fmt_int z) = true.
Proof.
  unfold Py.fmt_int, NilZero.string_of_int, NilZero.string_of_uint.
  destruct (Z.to_int z) as [u | u]; destruct u; simpl;
    try reflexivity; apply all_numeric_uint.
Qed.

(** A numeric character is neither of the letters "a" and "d", and
    lower-casing leaves it alone. *)
Lemma is_numeric_char (c : ascii) :
  is_numeric c = true ->
  Ascii.eqb c "a" = false /\ Ascii.eqb c "d" = false /\ Py.lower_ascii c = c.
Proof.
  destruct c as [[] [] [] [] [] [] [] []]; vm_compute; intros Hn;
    first [discriminate Hn | repeat split].
Qed.

Lemma lower_app (a b : string) : Py.lower (a +:+ b) = Py.lower a +:+ Py.lower b.
Proof. induction a as [| c a IH]; simpl; [reflexivity | rewrite IH; reflexivity]. Qed.

Lemma lower_numeric (x : string) : all_numeric x = true -> Py.lower x = x.
Proof.
  induction x as [| c x IH]; simpl; [reflexivity |].
  intros Hn. apply andb_true_iff in Hn as [Hc Hx].
  destruct (is_numeric_char c Hc) as (_ & _ & ->). rewrite IH by exact Hx. reflexivity.
Qed.

Lemma scan_da_app (b : bool) (x y : string) :
  scan_da b (x +:+ y) = scan_da b x || scan_da (ends_in_d b x) y.
Proof.
  revert b. induction x as [| c x IH]; intros b; simpl; [reflexivity |].
  rewrite IH. apply orb_assoc.
Qed.

Lemma ends_in_d_app (b : bool) (x y : string) :
  ends_in_d b (x +:+ y) = ends_in_d (ends_in_d b x) y.
Proof. revert b. induction x as [| c x IH]; intros b; simpl; auto. Qed.

Lemma scan_da_numeric (x : string) :
  all_numeric x = true -> scan_da false x = false /\ ends_in_d false x = false.
Proof.
  induction x as [| c x IH]; simpl; [auto |].
  intros Hn. apply andb_true_iff in Hn as [Hc Hx].
  destruct (is_numeric_char c Hc) as (_ & -> & _). apply IH. exact Hx.
Qed.

(** A string that contains "daily" contains "da". *)
Lemma contains_daily_scan (s : string) (b : bool) :
  Py.contains "daily" s = true -> scan_da b s = true.
Proof.
  revert b. induction s as [| c s IH]; intros b; [discriminate |].
  cbn [Py.contains]. intros Hc. apply orb_true_iff in Hc as [Hp | Hr].
  - cbn [String.prefix] in Hp.
    destruct (Ascii.ascii_dec "d" c) as [<- |]; [| discriminate].
    destruct s as [| c' s]; [discriminate |].
    cbn [String.prefix] in Hp.
    destruct (Ascii.ascii_dec "a" c') as [<- |]; [| discriminate].
    simpl. apply orb_true_r.
  - simpl. rewrite (IH _ Hr). apply orb_true_r.
Qed.

(** A text made of fixed parts around two rendered numbers has no "da"
    when its fixed parts have none and do not end in "d". *)
Lemma scan_da_template (p m t x y : string) :
  all_numeric x = true -> all_numeric y = true ->
  scan_da false (Py.lower p) = false -> ends_in_d false (Py.lower p) = false ->
  scan_da false (Py.lower m) = false -> ends_in_d false (Py.lower m) = false ->
  scan_da false (Py.lower t) = false ->
  scan_da false (Py.lower (p +:+ x +:+ m +:+ y +:+ t)) = false.
Proof.
  intros Hx Hy Hp Ep Hm Em Ht.
  rewrite !lower_app, (lower_numeric x Hx), (lower_numeric y Hy).
  destruct (scan_da_numeric x Hx) as [Sx Ex].
  destruct (scan_da_numeric y Hy) as [Sy Ey].
  rewrite scan_da_app, Hp, Ep. simpl.
  rewrite scan_da_app, Sx, Ex. simpl.
  rewrite scan_da_app, Hm, Em. simpl.
  rewrite scan_da_app, Sy, Ey. simpl.
  exact Ht.
Qed.

Section HaltReasons.

Import AggressiveRisk.

(** The reason of a daily-loss halt is recognised as daily. *)
Lemma daily_reason_is_daily (pnl halt : Q) :
  is_daily_reason (Some (daily_reason pnl halt)) = true.
Proof. reflexivity. Qed.

(** The reasons of the two other halts are not. *)
Lemma drawdown_reason_not_daily (dd halt : Q) :
  is_daily_reason (Some (drawdown_reason dd halt)) = false.
Proof.
  unfold is_daily_reason, drawdown_reason. apply andb_false_iff. right.
  destruct (Py.contains "daily" _) eqn:E; [| reflexivity].
  apply (contains_daily_scan _ false) in E.
  rewrite scan_da_template in E;
    first [discriminate E | apply all_numeric_fmt_pct | reflexivity].
Qed.

Lemma consecutive_reason_not_daily (losses : Z) :
  is_daily_reason (Some (consecutive_reason losses)) = false.
Proof.
  unfold is_daily_reason, consecutive_reason. apply andb_false_iff. right.
  destruct (Py.contains "daily" _) eqn:E; [| reflexivity].
  apply (contains_daily_scan _ false) in E.
  change (Py.lower ("Consecutive loss limit: " +:+ Py.fmt_int losses +:+ " losses in a row"))
    with (Py.lower ("Consecutive loss limit: " +:+ Py.fmt_int losses +:+ ""
                    +:+ "" +:+ " losses in a row")) in E.
  rewrite scan_da_template in E;
    first [discriminate E | apply all_numeric_fmt_int | reflexivity].
Qed.

End HaltReasons.

(** ** The growth-phase risk manager *)

Section RiskManager.

Import AggressiveRisk.

(** On the same day a halted manager stays halted, with its reason. *)
Lemma update_equity_halted_same_day (today : string) (m : t) (new_equity : Q) :
  _is_halted m = true ->
  String.eqb today (_current_date m) = true ->
  _is_halted (fst (update_equity today m new_equity)) = true /\
  _halt_reason (fst (update_equity today m new_equity)) = _halt_reason m.
Proof.
  intros Hh Hd. unfold update_equity. rewrite Hd. cbn [negb].
  destruct (Py.gtb new_equity (_peak_equity (set_equity m new_equity)));
    cbn; rewrite Hh; cbn; auto.
Qed.

(** Whatever the day, a halt whose reason is not a daily one stays. *)
Lemma update_equity_halted_not_daily (today : string) (m : t) (new_equity : Q) :
  _is_halted m = true ->
  is_daily_reason (_halt_reason m) = false ->
  _is_halted (fst (update_equity today m new_equity)) = true /\
  _halt_reason (fst (update_equity today m new_equity)) = _halt_reason m.
Proof.
  intros Hh Hr. unfold update_equity.
  destruct (negb (String.eqb today (_current_date m))).
  - cbn [set_day _is_halted _halt_reason]. rewrite Hh, Hr. cbn [andb].
    destruct (Py.gtb new_equity _); cbn; rewrite Hh; cbn; auto.
  - destruct (Py.gtb new_equity _); cbn; rewrite Hh; cbn; auto.
Qed.

(** On a new day a daily halt is forgotten before the update proceeds. *)
Lemma update_equity_new_day_daily (today : string) (m : t) (new_equity : Q) :
  _is_halted m = true ->
  String.eqb today (_current_date m) = false ->
  is_daily_reason (_halt_reason m) = true ->
  update_equity today m new_equity
    = update_equity today (set_halt m false None) new_equity.
Proof.
  intros Hh Hd Hr. unfold update_equity.
  cbn [set_halt _current_date]. rewrite Hd. cbn [negb].
  cbn [set_day _is_halted _halt_reason set_halt]. rewrite Hh, Hr.
  reflexivity.
Qed.

(** C7: on a halted manager an equity update keeps the halt and its
    reason, unless the update falls on a new day and the halt is a
    daily-loss halt; in that case the halt is cleared first, and the
    update goes on as on a manager that was not halted.  The reasons of
    drawdown and consecutive-loss halts are never taken for daily ones,
    so an equity update never clears them; [reset_halt] clears any
    halt. *)
Theorem C7_halt_persistence (today : string) (m : t) (new_equity : Q)
    (reason : string) :
  _is_halted m = true ->
  let m' := fst (update_equity today m new_equity) in
  ((today = _current_date m \/ is_daily_reason (_halt_reason m) = false) ->
   _is_halted m' = true /\ _halt_reason m' = _halt_reason m) /\
  (today <> _current_date m -> is_daily_reason (_halt_reason m) = true ->
   update_equity today m new_equity
     = update_equity today (set_halt m false None) new_equity) /\
  (forall pnl halt, is_daily_reason (Some (daily_reason pnl halt)) = true) /\
  (forall dd halt,
      _halt_reason m = Some (drawdown_reason dd halt) ->
      _is_halted m' = true /\ _halt_reason m' = _halt_reason m) /\
  (forall losses,
      _halt_reason m = Some (consecutive_reason losses) ->
      _is_halted m' = true /\ _halt_reason m' = _halt_reason m) /\
  _is_halted (reset_halt m reason) = false /\
  _halt_reason (reset_halt m reason) = None.
Proof.
  intros Hh m'. subst m'. repeat split.
  - destruct H as [-> | Hr].
    + apply update_equity_halted_same_day; [exact Hh | apply String.eqb_refl].
    + apply update_equity_halted_not_daily; assumption.
  - destruct H as [-> | Hr].
    + apply update_equity_halted_same_day; [exact Hh | apply String.eqb_refl].
    + apply update_equity_halted_not_daily; assumption.
  - intros Hne Hr. apply update_equity_new_day_daily; try assumption.
    apply String.eqb_neq. exact Hne.
  - apply update_equity_halted_not_daily; [exact Hh |].
    rewrite H. apply drawdown_reason_not_daily.
  - apply update_equity_halted_not_daily; [exact Hh |].
    rewrite H. apply drawdown_reason_not_daily.
  - apply update_equity_halted_not_daily; [exact Hh |].
    rewrite H. apply consecutive_reason_not_daily.
  - apply update_equity_halted_not_daily; [exact Hh |].
    rewrite H. apply consecutive_reason_not_daily.
Qed.

End RiskManager.

Section RiskInvariant.

Import AggressiveRisk.

(** What the manager stores about a halt: a reason of one of the three
    kinds when it is halted, no reason when it is not. *)
Lemma halt_reason_invariant (m : t) :
  reachable m ->
  if _is_halted m then halt_kind (_halt_reason m) else _halt_reason m = None.
Proof.
  induction 1 as [cfg today | today m e Hm IH | now m pnl pct sym Hm IH | m r Hm IH].
  - reflexivity.
  - unfold update_equity.
    set (m1 := if negb (String.eqb today (_current_date m)) then _ else m).
    assert (H1 : if _is_halted m1 then halt_kind (_halt_reason m1)
                 else _halt_reason m1 = None).
    { subst m1. destruct (negb (String.eqb today (_current_date m))); [| exact IH].
      cbn [set_day _is_halted _halt_reason].
      destruct (_is_halted m) eqn:Hh; cbn [andb].
      - destruct (is_daily_reason (_halt_reason m)); cbn; [reflexivity |].
        rewrite Hh. exact IH.
      - cbn. rewrite Hh. exact IH. }
    clearbody m1. cbv zeta.
    set (m3 := if Py.gtb e (_peak_equity (set_equity m1 e)) then _ else _).
    assert (H3 : _is_halted m3 = _is_halted m1 /\ _halt_reason m3 = _halt_reason m1).
    { subst m3. destruct (Py.gtb e _); split; reflexivity. }
    destruct H3 as [H3h H3r]. clearbody m3. cbn [fst].
    rewrite H3h. destruct (_is_halted m1) eqn:Hh; cbn [negb].
    + rewrite H3h, H3r. exact H1.
    + destruct (Py.leb _ _); [cbn; apply kind_daily |].
      destruct (Py.geb _ _); [cbn; apply kind_drawdown |].
      destruct (_ <=? _)%Z; [cbn; apply kind_consecutive |].
      rewrite H3h, H3r. exact H1.
  - exact IH.
  - reflexivity.
Qed.

(** On a reachable halted manager the stored reason is recognised as
    daily exactly when the halt was raised for a daily loss. *)
Lemma daily_halt_iff (m : t) :
  reachable m -> _is_halted m = true ->
  (is_daily_reason (_halt_reason m) = true <->
   exists pnl halt, _halt_reason m = Some (daily_reason pnl halt)).
Proof.
  intros Hm Hh. pose proof (halt_reason_invariant m Hm) as Hk.
  rewrite Hh in Hk. split.
  - intros Hd. inversion Hk as [pnl halt Heq | dd halt Heq | losses Heq].
    + exists pnl, halt. reflexivity.
    + rewrite <- Heq, drawdown_reason_not_daily in Hd. discriminate.
    + rewrite <- Heq, consecutive_reason_not_daily in Hd. discriminate.
  - intros (pnl & halt & ->). apply daily_reason_is_daily.
Qed.

End RiskInvariant.

(** Over any sequence of equity updates, on whatever days, a halt whose
    reason is not a daily one stays in place with its reason. *)
Lemma halt_persists_over_updates (updates : list (string * Q)) (m : AggressiveRisk.t) :
  AggressiveRisk._is_halted m = true ->
  AggressiveRisk.is_daily_reason (AggressiveRisk._halt_reason m) = false ->
  let m' := fold_left
              (fun acc u => fst (AggressiveRisk.update_equity (fst u) acc (snd u)))
              updates m in
  AggressiveRisk._is_halted m' = true /\
  AggressiveRisk._halt_reason m' = AggressiveRisk._halt_reason m.
Proof.
  revert m. induction updates as [| [day eq] rest IH]; intros m Hh Hr; cbn [fold_left].
  - auto.
  - destruct (update_equity_halted_not_daily day m eq Hh Hr) as [Hh' Hr'].
    cbn [fst snd]. destruct (IH _ Hh') as [IHh IHr].
    + rewrite Hr'. exact Hr.
    + split; [exact IHh | rewrite IHr; exact Hr'].
Qed.

(** A drawdown halt of the day before survives an equity update on the
    next day. *)
Lemma C7_witness :
  AggressiveRisk._is_halted halted_drawdown = true /\
  AggressiveRisk._is_halted
    (fst (AggressiveRisk.update_equity "2025-01-02" halted_drawdown 45)) = true.
Proof.
  split; [reflexivity |].
  pose proof (C7_halt_persistence "2025-01-02" halted_drawdown 45 "manual" eq_refl)
    as (_ & _ & _ & Hdd & _).
  apply (Hdd (55 # 100) (50 # 100)). reflexivity.
Defined.

(** Scenario B of the specification: in the seed phase a day at -41%
    halts the manager with a daily-loss reason; the next day the halt is
    cleared, and the manager halts again only if another limit is hit. *)
Lemma risk_scenario_daily_halt :
  let m0 := AggressiveRisk.__init__ None "2025-01-01" in
  let m1 := fst (AggressiveRisk.update_equity "2025-01-01" m0 59) in
  let m2 := fst (AggressiveRisk.update_equity "2025-01-02" m1 59) in
  AggressiveRisk._is_halted m1 = true /\
  AggressiveRisk._halt_reason m1
    = Some "Daily loss limit hit: -41.0% (limit: -40.0%)" /\
  AggressiveRisk._is_halted m2 = false /\
  AggressiveRisk._halt_reason m2 = None.
Proof. vm_compute. repeat split. Qed.

(** ** Position sizing *)

Section Sizing.

Import AggressiveRisk.

(** The scaled size lies between half the phase maximum and the phase
    maximum. *)
Lemma scaled_size_bounds (m : t) (equity signal_strength : Q) :
  0 <= get_max_position_pct m (Some equity) ->
  get_max_position_pct m (Some equity) * (1 # 2) <= scaled_size m equity signal_strength
  /\ scaled_size m equity signal_strength <= get_max_position_pct m (Some equity).
Proof.
  intros Hpos. unfold scaled_size.
  set (M := get_max_position_pct m (Some equity)) in *.
  pose proof (max_spec (1 # 2) signal_strength) as [Hhalf _].
  set (k := Py.max (1 # 2) signal_strength) in *.
  pose proof (min_spec M (M * k)) as [Hle _].
  split; [| exact Hle].
  destruct (min_cases M (M * k)) as [-> | ->]; nra.
Qed.

(** The result of [calculate_position_size], case by case. *)
Lemma calculate_position_size_cases (m : t) (equity signal_strength stop : Q) :
  ~ equity == 0 ->
  exists ps,
    calculate_position_size m equity signal_strength stop = Some ps /\
    if Py.ltb (equity * scaled_size m equity signal_strength)
              (min_trade_value_usd (config m))
    then position_pct ps = min_trade_value_usd (config m) / equity /\
         position_usd ps = min_trade_value_usd (config m)
    else position_pct ps = scaled_size m equity signal_strength /\
         position_usd ps = equity * scaled_size m equity signal_strength.
Proof.
  intros Hne. unfold calculate_position_size. fold (scaled_size m equity signal_strength).
  cbv zeta.
  destruct (Py.ltb (equity * scaled_size m equity signal_strength) _).
  - apply eqb_false in Hne. rewrite Hne. eexists. split; [reflexivity |]. split; reflexivity.
  - eexists. split; [reflexivity |]. split; reflexivity.
Qed.

End Sizing.

Section EngineSizing.

Import HyperGrowth.

(** [_calculate_position_size] clamps between the configured minimum and
    the engine's own cap. *)
Lemma engine_position_size_bounds (e : t) (signal_strength equity p : Q) :
  min_position_pct (config e) <= max_single_position_pct (config e) ->
  _calculate_position_size e signal_strength equity = Some p ->
  min_position_pct (config e) <= p /\ p <= max_single_position_pct (config e).
Proof.
  intros Hcfg. unfold _calculate_position_size.
  destruct (CompoundGrowthTracker.get_aggression_multiplier _) as [a |];
    [| discriminate].
  cbn [mbind option_bind].
  match goal with
  | |- ?x ≫= _ = _ -> _ => destruct x as [sz |]; [| discriminate]
  end.
  cbn [mbind option_bind]. intros [= <-].
  set (c := Py.min (sz * a) (max_single_position_pct (config e))).
  pose proof (min_spec (sz * a) (max_single_position_pct (config e))) as [_ Hc].
  fold c in Hc.
  pose proof (max_spec c (min_position_pct (config e))) as [_ Hlo].
  split; [exact Hlo |].
  destruct (max_cases c (min_position_pct (config e))) as [-> | ->]; lra.
Qed.

(** It returns whenever the two divisions are defined. *)
Lemma engine_position_size_returns (e : t) (signal_strength equity : Q) :
  ~ CompoundGrowthTracker.target_equity (_growth_tracker e)
    == CompoundGrowthTracker.starting_equity (_growth_tracker e) ->
  ~ strong_signal_threshold (config e) - min_signal_strength (config e) + eps == 0 ->
  exists p, _calculate_position_size e signal_strength equity = Some p.
Proof.
  intros Hg Hd. unfold _calculate_position_size,
    CompoundGrowthTracker.get_aggression_multiplier,
    CompoundGrowthTracker.progress_pct.
  assert (Hg' : Py.eqb (CompoundGrowthTracker.target_equity (_growth_tracker e)
                        - CompoundGrowthTracker.starting_equity (_growth_tracker e)) 0
                = false)
    by (apply eqb_false; intros Heq; apply Hg; lra).
  rewrite Hg'. cbn [mbind option_bind].
  destruct (Py.geb signal_strength _); cbn [mbind option_bind].
  - eexists; reflexivity.
  - apply eqb_false in Hd. rewrite Hd. cbn [mbind option_bind]. eexists; reflexivity.
Qed.

End EngineSizing.

(** C2, as the two sizers implement it.  The engine's sizer returns a
    percentage between [min_position_pct] and its own cap
    [max_single_position_pct]; it does not read the equity.  The risk
    manager's sizer returns the scaled size, between half the phase maximum
    and the phase maximum of the given equity, as long as the notional is
    not below the minimum trade value; below it, the notional is raised to
    the minimum trade value and the percentage is that value divided by
    the equity. *)
Theorem C2_position_pct_bounds
    (m : AggressiveRisk.t) (e : HyperGrowth.t) (equity signal_strength stop : Q) :
  0 <= AggressiveRisk.get_max_position_pct m (Some equity) ->
  ~ equity == 0 ->
  HyperGrowth.min_position_pct (HyperGrowth.config e)
    <= HyperGrowth.max_single_position_pct (HyperGrowth.config e) ->
  ~ CompoundGrowthTracker.target_equity (HyperGrowth._growth_tracker e)
    == CompoundGrowthTracker.starting_equity (HyperGrowth._growth_tracker e) ->
  ~ HyperGrowth.strong_signal_threshold (HyperGrowth.config e)
    - HyperGrowth.min_signal_strength (HyperGrowth.config e) + HyperGrowth.eps == 0 ->
  (exists p,
      HyperGrowth._calculate_position_size e signal_strength equity = Some p /\
      HyperGrowth.min_position_pct (HyperGrowth.config e) <= p /\
      p <= HyperGrowth.max_single_position_pct (HyperGrowth.config e)) /\
  (exists ps,
      AggressiveRisk.calculate_position_size m equity signal_strength stop = Some ps /\
      if Py.ltb (equity * scaled_size m equity signal_strength)
                (AggressiveRisk.min_trade_value_usd (AggressiveRisk.config m))
      then AggressiveRisk.position_pct ps
             = AggressiveRisk.min_trade_value_usd (AggressiveRisk.config m) / equity /\
           AggressiveRisk.position_usd ps
             = AggressiveRisk.min_trade_value_usd (AggressiveRisk.config m)
      else AggressiveRisk.get_max_position_pct m (Some equity) * (1 # 2)
             <= AggressiveRisk.position_pct ps /\
           AggressiveRisk.position_pct ps
             <= AggressiveRisk.get_max_position_pct m (Some equity)).
Proof.
  intros Hmax Hne Hcfg Hg Hd. split.
  - destruct (engine_position_size_returns e signal_strength equity Hg Hd) as [p Hp].
    exists p. split; [exact Hp |].
    apply (engine_position_size_bounds e signal_strength equity p Hcfg Hp).
  - destruct (calculate_position_size_cases m equity signal_strength stop Hne)
      as (ps & Hps & Hcase).
    exists ps. split; [exact Hps |].
    destruct (Py.ltb _ _); [exact Hcase |].
    destruct Hcase as [-> _]. apply scaled_size_bounds. exact Hmax.
Qed.

(** Scenario A of the specification: equity 100, seed phase, a strong
    signal of 0.9.  The engine sizes 40% and the risk manager 36%. *)
Lemma C2_witness :
  0 <= AggressiveRisk.get_max_position_pct fresh_manager (Some 100) /\
  ~ 100 == 0 /\
  (exists p,
      HyperGrowth._calculate_position_size fresh_engine (9 # 10) 100 = Some p /\
      HyperGrowth.min_position_pct (HyperGrowth.config fresh_engine) <= p /\
      p <= HyperGrowth.max_single_position_pct (HyperGrowth.config fresh_engine)) /\
  (exists ps,
      AggressiveRisk.calculate_position_size fresh_manager 100 (9 # 10) (25 # 1000)
        = Some ps /\
      AggressiveRisk.position_pct ps
        <= AggressiveRisk.get_max_position_pct fresh_manager (Some 100)).
Proof.
  assert (H1 : 0 <= AggressiveRisk.get_max_position_pct fresh_manager (Some 100))
    by (vm_compute; discriminate).
  assert (H2 : ~ 100 == 0) by (vm_compute; discriminate).
  split; [exact H1 |]. split; [exact H2 |].
  destruct (C2_position_pct_bounds fresh_manager fresh_engine 100 (9 # 10) (25 # 1000))
    as [He (ps & Hps & Hcase)];
    [exact H1 | exact H2 | vm_compute; discriminate | vm_compute; discriminate
     | vm_compute; discriminate | ].
  split; [exact He |].
  exists ps. split; [exact Hps |].
  change (Py.ltb (100 * scaled_size fresh_manager 100 (9 # 10))
            (AggressiveRisk.min_trade_value_usd (AggressiveRisk.config fresh_manager)))
    with false in Hcase.
  apply Hcase.
Defined.

(** C2 as stated fails when the notional is raised to the minimum trade
    value: with the default configuration an equity of 10 is in the seed
    phase, whose maximum is 40%, and the sizer returns 50%. *)
Lemma C2_counterexample :
  exists ps,
    AggressiveRisk.calculate_position_size fresh_manager 10 1 (25 # 1000) = Some ps /\
    AggressiveRisk.get_phase fresh_manager (Some 10) = AggressiveRisk.SEED /\
    AggressiveRisk.get_max_position_pct fresh_manager (Some 10) == 40 # 100 /\
    AggressiveRisk.position_usd ps == 5 /\
    AggressiveRisk.position_pct ps == 50 # 100 /\
    ~ AggressiveRisk.position_pct ps
      <= AggressiveRisk.get_max_position_pct fresh_manager (Some 10).
Proof.
  eexists. split; [reflexivity |].
  repeat split; vm_compute; congruence.
Qed.

(** With the default configuration the engine sizes a strong signal at
    40% whatever the equity, also where the phase maximum of the risk
    manager is 15%. *)
Lemma engine_size_ignores_phase :
  HyperGrowth._calculate_position_size fresh_engine (9 # 10) 50000 = Some (40 # 100) /\
  AggressiveRisk.get_max_position_pct fresh_manager (Some 50000) = 15 # 100.
Proof. split; reflexivity. Qed.

(** ** A trade that closes at exactly zero *)

(** C10: the three trackers classify a closed trade with a return of
    exactly zero differently.  [CompoundGrowthTracker.update] counts it as
    a loss and leaves the equity unchanged; [on_position_close] adds one to
    the engine's consecutive-loss counter (whether or not the call then
    raises while logging); [AggressiveRiskManager.record_trade] resets its
    consecutive-loss counter to zero. *)
Theorem C10_zero_return_classification
    (g : CompoundGrowthTracker.t) (e : HyperGrowth.t) (m : AggressiveRisk.t)
    (clk : HyperGrowth.Clock) (now symbol side : string) (entry exit pnl : Q) :
  (CompoundGrowthTracker.loss_count (CompoundGrowthTracker.update g 0)
     = (CompoundGrowthTracker.loss_count g + 1)%Z /\
   CompoundGrowthTracker.win_count (CompoundGrowthTracker.update g 0)
     = CompoundGrowthTracker.win_count g /\
   CompoundGrowthTracker.current_equity (CompoundGrowthTracker.update g 0)
     == CompoundGrowthTracker.current_equity g) /\
  (HyperGrowth._consecutive_losses
     (state_of (HyperGrowth.on_position_close clk e symbol entry exit side 0))
     = (HyperGrowth._consecutive_losses e + 1)%Z /\
   HyperGrowth._growth_tracker
     (state_of (HyperGrowth.on_position_close clk e symbol entry exit side 0))
     = CompoundGrowthTracker.update (HyperGrowth._growth_tracker e) 0) /\
  AggressiveRisk._consecutive_losses (AggressiveRisk.record_trade now m pnl 0 symbol)
    = 0%Z.
Proof.
  split; [| split].
  - repeat split. simpl. ring.
  - unfold HyperGrowth.on_position_close. cbv zeta.
    destruct (CompoundGrowthTracker.progress_pct _); split; reflexivity.
  - reflexivity.
Qed.

(** A losing trade, by contrast, is a loss for all three, and a winning
    trade a win for all three. *)
Lemma nonzero_return_classification
    (e : HyperGrowth.t) (m : AggressiveRisk.t)
    (clk : HyperGrowth.Clock) (now symbol side : string) (entry exit pnl r : Q) :
  (r < 0 ->
   HyperGrowth._consecutive_losses
     (state_of (HyperGrowth.on_position_close clk e symbol entry exit side r))
     = (HyperGrowth._consecutive_losses e + 1)%Z /\
   AggressiveRisk._consecutive_losses (AggressiveRisk.record_trade now m pnl r symbol)
     = (AggressiveRisk._consecutive_losses m + 1)%Z) /\
  (0 < r ->
   HyperGrowth._consecutive_losses
     (state_of (HyperGrowth.on_position_close clk e symbol entry exit side r))
     = 0%Z /\
   AggressiveRisk._consecutive_losses (AggressiveRisk.record_trade now m pnl r symbol)
     = 0%Z).
Proof.
  split; intros Hr.
  - assert (H1 : Py.gtb r 0 = false) by (apply gtb_false; lra).
    assert (H2 : Py.ltb r 0 = true) by (apply ltb_true; exact Hr).
    unfold HyperGrowth.on_position_close, AggressiveRisk.record_trade. cbv zeta.
    rewrite H1, H2.
    destruct (CompoundGrowthTracker.progress_pct _); split; reflexivity.
  - assert (H1 : Py.gtb r 0 = true) by (apply gtb_true; exact Hr).
    assert (H2 : Py.ltb r 0 = false) by (apply ltb_false; lra).
    unfold HyperGrowth.on_position_close, AggressiveRisk.record_trade. cbv zeta.
    rewrite H1, H2.
    destruct (CompoundGrowthTracker.progress_pct _); split; reflexivity.
Qed.

(** ** Signal fusion *)

Section Fusion.

Import HyperGrowth.

(** The verdict on the accumulators: a direction wins only with a
    strictly larger normalized score and enough contributing sources. *)
Lemma fuse_verdict_cases (cfg : HyperGrowthConfig) (f : Fusion)
    (score : Q) (dir : string) (srcs : list string) :
  fuse_verdict cfg f = (score, dir, srcs) ->
  (dir = "bull" /\ 0 < total_weight f /\
   score = bull_score f / total_weight f /\
   bear_score f / total_weight f < bull_score f / total_weight f /\
   (min_sources_agreeing cfg <= Py.len (active_bull_sources f))%Z /\
   srcs = active_bull_sources f) \/
  (dir = "bear" /\ 0 < total_weight f /\
   score = bear_score f / total_weight f /\
   bull_score f / total_weight f < bear_score f / total_weight f /\
   (min_sources_agreeing cfg <= Py.len (active_bear_sources f))%Z /\
   srcs = active_bear_sources f) \/
  (dir = "neutral" /\ score = 0 /\ srcs = []).
Proof.
  unfold fuse_verdict.
  destruct (Py.leb (total_weight f) 0) eqn:Hw.
  { intros [= <- <- <-]. right. right. auto. }
  apply leb_false in Hw.
  destruct (Py.gtb (bull_score f / total_weight f) (bear_score f / total_weight f)
            && (min_sources_agreeing cfg <=? Py.len (active_bull_sources f))%Z) eqn:Hb.
  { apply andb_true_iff in Hb as [Hgt Hn]. apply gtb_true in Hgt. apply Z.leb_le in Hn.
    intros [= <- <- <-]. left. repeat split; assumption. }
  destruct (Py.gtb (bear_score f / total_weight f) (bull_score f / total_weight f)
            && (min_sources_agreeing cfg <=? Py.len (active_bear_sources f))%Z) eqn:Hr.
  { apply andb_true_iff in Hr as [Hgt Hn]. apply gtb_true in Hgt. apply Z.leb_le in Hn.
    intros [= <- <- <-]. right. left. repeat split; assumption. }
  intros [= <- <- <-]. right. right. auto.
Qed.

(** Equal normalized scores give the neutral verdict. *)
Lemma fuse_verdict_tie (cfg : HyperGrowthConfig) (f : Fusion) :
  bull_score f / total_weight f == bear_score f / total_weight f ->
  fuse_verdict cfg f = (0, "neutral", []).
Proof.
  intros Htie. unfold fuse_verdict.
  destruct (Py.leb (total_weight f) 0); [reflexivity |].
  replace (Py.gtb (bull_score f / total_weight f) (bear_score f / total_weight f))
    with false by (symmetry; apply gtb_false; lra).
  replace (Py.gtb (bear_score f / total_weight f) (bull_score f / total_weight f))
    with false by (symmetry; apply gtb_false; lra).
  reflexivity.
Qed.

(** Each source with a positive score in a direction adds one entry to
    the list of that direction, and nothing else does. *)
Lemma fuse_step_counts (e : t) (bb rb : bool) (acc : Fusion)
    (src : string * (Q * string)) :
  Py.len (active_bull_sources (fuse_step e bb rb acc src))
    = (Py.len (active_bull_sources acc)
       + if contributes "bull" src then 1 else 0)%Z /\
  Py.len (active_bear_sources (fuse_step e bb rb acc src))
    = (Py.len (active_bear_sources acc)
       + if contributes "bear" src then 1 else 0)%Z.
Proof.
  destruct src as [nm [score dir]]. unfold fuse_step, contributes. cbn [fst snd].
  unfold Py.gtb, Py.ltb, Py.leb.
  destruct (Qle_bool score 0); cbn [negb andb]; [lia |].
  destruct (String.eqb dir "bull") eqn:Eb.
  - apply String.eqb_eq in Eb. subst dir. cbn.
    unfold Py.len. rewrite length_app. cbn. lia.
  - destruct (String.eqb dir "bear") eqn:Er.
    + cbn. unfold Py.len. rewrite length_app. cbn. lia.
    + lia.
Qed.

Lemma fuse_fold_counts (e : t) (bb rb : bool)
    (srcs : list (string * (Q * string))) (acc : Fusion) :
  Py.len (active_bull_sources (fold_left (fuse_step e bb rb) srcs acc))
    = (Py.len (active_bull_sources acc)
       + Py.len (List.filter (contributes "bull") srcs))%Z /\
  Py.len (active_bear_sources (fold_left (fuse_step e bb rb) srcs acc))
    = (Py.len (active_bear_sources acc)
       + Py.len (List.filter (contributes "bear") srcs))%Z.
Proof.
  revert acc. induction srcs as [| src srcs IH]; intros acc; cbn [fold_left List.filter].
  - unfold Py.len. cbn. lia.
  - destruct (IH (fuse_step e bb rb acc src)) as [IHb IHr].
    destruct (fuse_step_counts e bb rb acc src) as [Sb Sr].
    rewrite IHb, IHr, Sb, Sr. unfold Py.len.
    destruct (contributes "bull" src); destruct (contributes "bear" src);
      cbn [length]; lia.
Qed.

End Fusion.

Section FusionGate.

Import HyperGrowth.

Context {Ohlcv : Type} `{SignalSources Ohlcv}.

(** The daily reset does not change what fusion reads. *)
Lemma fuse_signals_set_daily (e : t) (n : Z) (d : option string)
    (ohlcv : Ohlcv) (symbol regime : string) :
  _fuse_signals (set_daily e n d) ohlcv symbol regime
    = _fuse_signals e ohlcv symbol regime.
Proof.
  unfold _fuse_signals, fuse, run_sources, fuse_step, _get_source_weight.
  cbn [set_daily config _source_accuracy]. reflexivity.
Qed.

(** A pyramid add is not an entry. *)
Lemma check_pyramid_not_entry (e e' : t) (ms : MarketState Ohlcv) (sig : Signal) :
  _check_pyramid e ms = Returned e' (Some sig) -> is_entry sig = false.
Proof.
  unfold _check_pyramid.
  repeat match goal with
         | |- context [match ?x with _ => _ end] =>
           match type of x with
           | bool => destruct x
           | option _ => destruct x
           end; try discriminate
         end;
    intros [= <- <-]; reflexivity.
Qed.

(** What stands behind an entry signal: the fusion verdict that
    [generate_signals] read, its score at least [min_signal_strength],
    and a direction other than neutral. *)
Lemma generate_signals_entry (clk : Clock) (e e' : t) (ms : MarketState Ohlcv)
    (sigs : list Signal) (sig : Signal) :
  generate_signals clk e ms = Returned e' sigs ->
  In sig sigs -> is_entry sig = true ->
  exists ohlcv score dir srcs,
    ms_ohlcv ms = Some ohlcv /\
    _fuse_signals e ohlcv (ms_symbol ms) (regime_of ms) = (score, dir, srcs) /\
    min_signal_strength (config e) <= score /\
    strength sig = score /\
    ((dir = "bull" /\ signal_type sig = LONG) \/
     (dir = "bear" /\ signal_type sig = SHORT)).
Proof.
  unfold generate_signals.
  destruct (_is_halted e); [intros [= <- <-] [] |].
  destruct (ms_ohlcv ms) as [ohlcv |]; [| intros [= <- <-] []].
  destruct (n_bars ohlcv <? 20)%Z; [intros [= <- <-] [] |].
  cbv zeta.
  set (e1 := if bool_decide (_last_trade_date e = Some (today clk)) then e
             else set_daily e 0 (Some (today clk))).
  assert (Hcfg : config e1 = config e)
    by (subst e1; destruct (bool_decide _); reflexivity).
  assert (Hfuse : _fuse_signals e1 ohlcv (ms_symbol ms) (regime_of ms)
                  = _fuse_signals e ohlcv (ms_symbol ms) (regime_of ms))
    by (subst e1; destruct (bool_decide _);
        [reflexivity | apply fuse_signals_set_daily]).
  clearbody e1.
  destruct (max_trades_per_day (config e1) <=? _daily_trades e1)%Z;
    [intros [= <- <-] [] |].
  destruct (max_consecutive_losses (config e1) <=? _consecutive_losses e1)%Z;
    [intros [= <- <-] [] |].
  match goal with
  | |- (if ?c then _ else _) = _ -> _ => destruct c; [intros [= <- <-] [] |]
  end.
  destruct (max_concurrent_positions (config e1) <=? _)%Z.
  { destruct (_active_positions e1 !! ms_symbol ms); [| intros [= <- <-] []].
    destruct (_check_pyramid e1 ms) as [e2 [psig |] | e2] eqn:Hp;
      [| intros [= <- <-] [] | discriminate].
    intros [= <- <-] [<- | []] Hentry.
    rewrite (check_pyramid_not_entry _ _ _ _ Hp) in Hentry. discriminate. }
  rewrite Hfuse.
  destruct (_fuse_signals e ohlcv (ms_symbol ms) (regime_of ms))
    as [[score dir] srcs] eqn:Hf.
  destruct (Py.ltb score (min_signal_strength (config e1))) eqn:Hs;
    cbn [orb]; [intros [= <- <-] [] |].
  apply ltb_false in Hs. rewrite Hcfg in Hs.
  destruct (String.eqb dir "neutral"); [intros [= <- <-] [] |].
  destruct (_calculate_position_size e1 score _) as [pct |]; [| discriminate].
  destruct (CompoundGrowthTracker.progress_pct _) as [prog |]; [| discriminate].
  destruct (String.eqb dir "bull") eqn:Eb.
  { apply String.eqb_eq in Eb. intros [= <- <-] [<- | []] _.
    exists ohlcv, score, dir, srcs. repeat split; auto. }
  destruct (String.eqb dir "bear") eqn:Er; [| intros [= <- <-] []].
  apply String.eqb_eq in Er. intros [= <- <-] [<- | []] _.
  exists ohlcv, score, dir, srcs. repeat split; auto.
Qed.

(** [_fuse_signals] is the verdict on the accumulators of the loop. *)
Lemma fuse_signals_eq (e : t) (ohlcv : Ohlcv) (symbol regime : string) :
  _fuse_signals e ohlcv symbol regime
    = fuse_verdict (config e) (fuse e ohlcv symbol regime).
Proof. reflexivity. Qed.

(** The number of entries that fusion lists for a direction is the number
    of sources with a positive score in that direction. *)
Lemma fuse_counts (e : t) (ohlcv : Ohlcv) (symbol regime : string) :
  Py.len (active_bull_sources (fuse e ohlcv symbol regime))
    = Py.len (List.filter (contributes "bull") (run_sources e ohlcv symbol)) /\
  Py.len (active_bear_sources (fuse e ohlcv symbol regime))
    = Py.len (List.filter (contributes "bear") (run_sources e ohlcv symbol)).
Proof.
  unfold fuse.
  destruct (fuse_fold_counts e
              (String.eqb regime "bull" || String.eqb regime "high_vol")
              (String.eqb regime "bear")
              (run_sources e ohlcv symbol) fusion_start) as [Cb Cr].
  rewrite Cb, Cr. split; apply Z.add_0_l.
Qed.

(** What the engine does guarantee: an entry signal is emitted only for
    a direction whose normalized weighted score is at least
    [min_signal_strength] and strictly above the score of the other
    direction, with at least [min_sources_agreeing] sources of positive
    score in that direction; and whenever the two normalized scores are
    equal the fusion result is neutral with score zero, so that no entry
    signal is emitted. *)
Lemma fusion_gate_guarantee (clk : Clock) (e e' : t) (ms : MarketState Ohlcv)
    (sigs : list Signal) (sig : Signal) :
  generate_signals clk e ms = Returned e' sigs ->
  In sig sigs -> is_entry sig = true ->
  (exists ohlcv,
    ms_ohlcv ms = Some ohlcv /\
    let f := fuse e ohlcv (ms_symbol ms) (regime_of ms) in
    let sources := run_sources e ohlcv (ms_symbol ms) in
    let bull_norm := bull_score f / total_weight f in
    let bear_norm := bear_score f / total_weight f in
    ~ bull_norm == bear_norm /\
    ((signal_type sig = LONG /\ strength sig = bull_norm /\
      min_signal_strength (config e) <= bull_norm /\
      bear_norm < bull_norm /\
      (min_sources_agreeing (config e)
       <= Py.len (List.filter (contributes "bull") sources))%Z) \/
     (signal_type sig = SHORT /\ strength sig = bear_norm /\
      min_signal_strength (config e) <= bear_norm /\
      bull_norm < bear_norm /\
      (min_sources_agreeing (config e)
       <= Py.len (List.filter (contributes "bear") sources))%Z))) /\
  (forall (ohlcv : Ohlcv) (symbol regime : string),
      let f := fuse e ohlcv symbol regime in
      bull_score f / total_weight f == bear_score f / total_weight f ->
      _fuse_signals e ohlcv symbol regime = (0, "neutral", [])).
Proof.
  intros Hgen Hin Hentry. split.
  2: { intros ohlcv symbol regime f Htie. apply fuse_verdict_tie. exact Htie. }
  destruct (generate_signals_entry clk e e' ms sigs sig Hgen Hin Hentry)
    as (ohlcv & score & dir & srcs & Hoh & Hf & Hmin & Hstr & Hdir).
  exists ohlcv. split; [exact Hoh |]. cbv zeta.
  destruct (fuse_counts e ohlcv (ms_symbol ms) (regime_of ms)) as [Cb Cr].
  rewrite fuse_signals_eq in Hf.
  apply fuse_verdict_cases in Hf
    as [(Hd & Hw & Hs & Hgt & Hn & _) | [(Hd & Hw & Hs & Hgt & Hn & _) | (Hd & _)]].
  - split; [lra |].
    left. destruct Hdir as [[_ Hty] | [Hbear _]]; [| congruence].
    rewrite <- Cb. subst score. repeat split; try assumption; congruence.
  - split; [lra |].
    right. destruct Hdir as [[Hbull _] | [_ Hty]]; [congruence |].
    rewrite <- Cr. subst score. repeat split; try assumption; congruence.
  - destruct Hdir as [[Hbull _] | [Hbear _]]; congruence.
Qed.

End FusionGate.

(** Two sources reading 0.8 in the bull direction give a long entry. *)
Lemma fusion_gate_example :
  exists e' sig,
    HyperGrowth.generate_signals midnight fresh_engine
      (snapshot (two_sources (8 # 10) "bull") 100) = Returned e' [sig] /\
    HyperGrowth.signal_type sig = HyperGrowth.LONG /\
    HyperGrowth.min_signal_strength (HyperGrowth.config fresh_engine)
      <= HyperGrowth.strength sig.
Proof.
  assert (Hrun : exists e' sig,
             HyperGrowth.generate_signals midnight fresh_engine
               (snapshot (two_sources (8 # 10) "bull") 100) = Returned e' [sig] /\
             is_entry sig = true /\
             HyperGrowth.signal_type sig = HyperGrowth.LONG).
  { eexists. eexists. split; [vm_compute; reflexivity | split; reflexivity]. }
  destruct Hrun as (e' & sig & Hgen & Hentry & Hlong).
  exists e', sig. split; [exact Hgen |]. split; [exact Hlong |].
  destruct (fusion_gate_guarantee midnight fresh_engine e'
              (snapshot (two_sources (8 # 10) "bull") 100) [sig] sig Hgen
              (or_introl eq_refl) Hentry)
    as [(w & _ & _ & [(_ & Hs & Hmin & _) | (Hshort & _)]) _].
  - rewrite Hs. exact Hmin.
  - rewrite Hlong in Hshort. discriminate.
Qed.

(** C6 at the failing input: a fused score equal to [min_signal_strength]
    does not exceed it, and yet the signal is emitted, for
    [generate_signals] only drops scores below the threshold.  With the
    default configuration (threshold 0.35), two bull sources reading 0.35
    fuse to a bull score of exactly 0.35, with no bear score and a quorum
    of two, and a long entry of strength 0.35 comes out. *)
Theorem C6_signal_at_threshold :
  let e := fresh_engine in
  let w := two_sources (35 # 100) "bull" in
  let f := HyperGrowth.fuse e w "PEPE/USD" "neutral" in
  HyperGrowth.bull_score f / HyperGrowth.total_weight f
    == HyperGrowth.min_signal_strength (HyperGrowth.config e) /\
  HyperGrowth.bear_score f / HyperGrowth.total_weight f == 0 /\
  Py.len (HyperGrowth.active_bull_sources f) = 2%Z /\
  HyperGrowth._fuse_signals e w "PEPE/USD" "neutral"
    = (HyperGrowth.bull_score f / HyperGrowth.total_weight f, "bull",
       HyperGrowth.active_bull_sources f) /\
  exists e' sig,
    HyperGrowth.generate_signals midnight e (snapshot w 100) = Returned e' [sig] /\
    is_entry sig = true /\
    HyperGrowth.signal_type sig = HyperGrowth.LONG /\
    HyperGrowth.strength sig == HyperGrowth.min_signal_strength (HyperGrowth.config e) /\
    ~ HyperGrowth.min_signal_strength (HyperGrowth.config e) < HyperGrowth.strength sig.
Proof.
  cbv zeta. split; [vm_compute; reflexivity |]. split; [vm_compute; reflexivity |].
  split; [vm_compute; reflexivity |]. split; [vm_compute; reflexivity |].
  eexists. eexists. split; [vm_compute; reflexivity |].
  repeat split; vm_compute; congruence.
Qed.

(** ** The adaptive trailing stop *)

(** The trail on the price path of the two positions compared below. *)
Lemma select_trail_values :
  Memecoin.select_trail (30 # 100) (4 # 10) = 30 # 100 /\
  Memecoin.select_trail (30 # 100) (6 # 10) = 35 # 100 /\
  Memecoin.select_trail (30 # 100) 1 = 30 # 100 /\
  Memecoin.select_trail (30 # 100) 2 = 25 # 100 /\
  Memecoin.select_trail (30 # 100) 5 = 20 # 100 /\
  Memecoin.select_trail (30 # 100) 10 = 15 # 100.
Proof. repeat split. Qed.

(** C3 at the failing input: with the default trailing stop of 30% the
    trail selected for a peak gain of +60% (35%) is wider than the trail
    selected for a peak gain of +40% (30%).  Two positions that both fall
    32% from their peak show it: the one that peaked at +40% is exited,
    the one that peaked at +60% is kept. *)
Theorem C3_trail_widens_at_half_gain :
  let lower := price_path (meme_position 1) [14 # 10; 952 # 1000] in
  let higher := price_path (meme_position 1) [16 # 10; 1088 # 1000] in
  Memecoin.peak_pnl_pct lower == 4 # 10 /\
  Memecoin.peak_pnl_pct higher == 6 # 10 /\
  Memecoin.select_trail (Memecoin.trailing_stop_pct lower) (Memecoin.peak_pnl_pct lower)
    == 30 # 100 /\
  Memecoin.select_trail (Memecoin.trailing_stop_pct higher) (Memecoin.peak_pnl_pct higher)
    == 35 # 100 /\
  ~ Memecoin.select_trail (Memecoin.trailing_stop_pct higher) (Memecoin.peak_pnl_pct higher)
    <= Memecoin.select_trail (Memecoin.trailing_stop_pct lower) (Memecoin.peak_pnl_pct lower) /\
  drawdown_from_peak lower == 32 # 100 /\
  drawdown_from_peak higher == 32 # 100 /\
  Memecoin.should_exit lower
    = (true, "Trailing stop: 32.0% from peak (trail=30%)") /\
  Memecoin.should_exit higher = (false, "").
Proof. vm_compute. repeat split; congruence. Qed.

(** From the +50% tier upwards the trail does tighten: it is a
    non-increasing function of the peak gain there, whatever the
    configured trailing stop. *)
Lemma select_trail_monotone_from_half (configured g1 g2 : Q) :
  5 # 10 <= g1 -> g1 <= g2 ->
  Memecoin.select_trail configured g2 <= Memecoin.select_trail configured g1.
Proof.
  intros H1 H12. unfold Memecoin.select_trail.
  repeat match goal with
         | |- context [Py.geb ?a ?b] =>
           let E := fresh "E" in
           destruct (Py.geb a b) eqn:E;
           [apply geb_true in E | apply geb_false in E]
         end;
    lra.
Qed.

(** With a configured trailing stop of at least 35% it is non-increasing
    everywhere. *)
Lemma select_trail_monotone_wide (configured g1 g2 : Q) :
  35 # 100 <= configured -> g1 <= g2 ->
  Memecoin.select_trail configured g2 <= Memecoin.select_trail configured g1.
Proof.
  intros Hc H12. unfold Memecoin.select_trail.
  repeat match goal with
         | |- context [Py.geb ?a ?b] =>
           let E := fresh "E" in
           destruct (Py.geb a b) eqn:E;
           [apply geb_true in E | apply geb_false in E]
         end;
    lra.
Qed.

(** ** Scenario C: entry stop and trailing exit *)

(** The price path of the scenario: entered at 100, up to 115, down to
    100, down to 97.  At 97 the position is still open, and the trail that
    applies after the peak at 115 is the configured 30%, not 15%. *)
Lemma C4_counterexample :
  let at_peak := price_path (meme_position 100) [115] in
  let at_97 := price_path (meme_position 100) [115; 100; 97] in
  Memecoin.peak_pnl_pct at_peak == 15 # 100 /\
  ~ Memecoin.select_trail (Memecoin.trailing_stop_pct at_peak)
      (Memecoin.peak_pnl_pct at_peak) == 15 # 100 /\
  Memecoin.is_active at_97 = true /\
  Memecoin.should_exit at_97 = (false, "").
Proof. vm_compute. repeat split; congruence. Qed.

(** C4, as the code runs the scenario.  A long entry at price 100 with an
    ATR of 2 and [initial_stop_atr_mult] 2 gets the stop 96 (the 4% hard
    stop is 96 as well).  On a position entered at 100 with the default
    trailing stop, the peak at 115 is a peak gain of +15%, below the +50%
    tier, so the configured 30% trail applies: the drops to 100 (13.0% from
    the peak) and to 97 (15.7% from the peak) leave the position open, and
    the drop to 80 (30.4% from the peak) is a full exit whose reason starts
    with "Trailing stop". *)
Theorem C4_scenario_entry_stop_and_trailing_exit :
  (exists e' sig,
      HyperGrowth.generate_signals midnight fresh_engine
        (snapshot (two_sources (8 # 10) "bull") 100) = Returned e' [sig] /\
      HyperGrowth.signal_type sig = HyperGrowth.LONG /\
      100 - atr_value (two_sources (8 # 10) "bull")
            * HyperGrowth.initial_stop_atr_mult (HyperGrowth.config fresh_engine)
        == 96 /\
      HyperGrowth.stop_loss sig == 96) /\
  let at_peak := price_path (meme_position 100) [115] in
  let at_100 := price_path (meme_position 100) [115; 100] in
  let at_97 := price_path (meme_position 100) [115; 100; 97] in
  let at_80 := price_path (meme_position 100) [115; 100; 97; 80] in
  Memecoin.peak_pnl_pct at_peak == 15 # 100 /\
  Memecoin.select_trail (Memecoin.trailing_stop_pct at_peak)
    (Memecoin.peak_pnl_pct at_peak) == 30 # 100 /\
  drawdown_from_peak at_100 == 15 # 115 /\
  Memecoin.should_exit at_100 = (false, "") /\
  drawdown_from_peak at_97 == 18 # 115 /\
  Memecoin.should_exit at_97 = (false, "") /\
  drawdown_from_peak at_80 == 35 # 115 /\
  Memecoin.should_exit at_80
    = (true, "Trailing stop: 30.4% from peak (trail=30%)") /\
  String.prefix "Trailing stop" (snd (Memecoin.should_exit at_80)) = true.
Proof.
  split.
  - eexists. eexists. split; [vm_compute; reflexivity |].
    repeat split; vm_compute; congruence.
  - vm_compute. repeat split; congruence.
Qed.

(** ** Partial exits and pyramid adds *)

Section PartialExits.

Import Memecoin.

(** A level that [get_partial_exit_level] returns was reached and is not
    among the recorded values. *)
Lemma get_partial_exit_level_some (p : MemecoinPosition) (level : Q) :
  get_partial_exit_level p = Some level ->
  In level (take_profit_levels p) /\
  level <= unrealized_pnl_pct p /\
  Py.mem level (partial_exits_done p) = false.
Proof.
  unfold get_partial_exit_level. intros Hf.
  apply find_some in Hf as [Hin Hp].
  apply andb_true_iff in Hp as [Hge Hmem].
  apply geb_true in Hge. apply negb_true_iff in Hmem. auto.
Qed.

(** What a partial exit records is the gain at the time of the exit, not
    the level: the level fires again unless the gain equals it. *)
Lemma partial_exit_refires (p : MemecoinPosition) (sell_pct level : Q) :
  get_partial_exit_level p = Some level ->
  ~ unrealized_pnl_pct p == level ->
  get_partial_exit_level (partial_exit p sell_pct) = Some level.
Proof.
  unfold get_partial_exit_level. cbn [partial_exit take_profit_levels
    unrealized_pnl_pct partial_exits_done].
  intros Hf Hne.
  induction (take_profit_levels p) as [| l ls IH]; [discriminate |].
  cbn [find] in *. unfold Py.mem in *. rewrite existsb_app. cbn [existsb].
  rewrite orb_false_r, negb_orb.
  destruct (Py.geb (unrealized_pnl_pct p) l
            && negb (existsb (Py.eqb l) (partial_exits_done p))) eqn:El.
  - injection Hf as ->.
    assert (Hq : Py.eqb level (unrealized_pnl_pct p) = false).
    { apply eqb_false. intros Heq. apply Hne. symmetry. exact Heq. }
    rewrite Hq. cbn [negb]. rewrite andb_true_r, El. reflexivity.
  - rewrite andb_assoc, El. cbn [andb]. apply IH. exact Hf.
Qed.

(** Only a gain equal to the level consumes it. *)
Lemma partial_exit_consumes_exact_gain (p : MemecoinPosition) (sell_pct level : Q) :
  get_partial_exit_level (partial_exit p sell_pct) = Some level ->
  ~ level == unrealized_pnl_pct p.
Proof.
  intros Hf. apply get_partial_exit_level_some in Hf as (_ & _ & Hmem).
  cbn [partial_exit partial_exits_done] in Hmem.
  unfold Py.mem in Hmem. rewrite existsb_app in Hmem.
  apply orb_false_iff in Hmem as [_ Hlast]. cbn [existsb] in Hlast.
  rewrite orb_false_r in Hlast. apply eqb_false. exact Hlast.
Qed.

End PartialExits.

(** C5 at the failing input: a position entered at price 1 and quoted at
    3.5, a gain of +250%.  The first pass of position management sells 20%
    at the +200% level and records 2.5, the gain, not the level 2; the
    second pass on the same quote finds the +200% level still open and
    sells 20% again. *)
Theorem C5_partial_exit_fires_twice :
  let venue := venue_at (35 # 10) in
  let now := "2025-01-01T00:00:03" in
  let first := Memecoin.manage_positions venue now (holding (meme_position 1)) in
  let second := Memecoin.manage_positions venue now (fst first) in
  snd first = [Memecoin.PartialExit "MINT" 2] /\
  snd second = [Memecoin.PartialExit "MINT" 2] /\
  (exists p1 p2,
      Dict.get "MINT" (Memecoin.positions (fst first)) = Some p1 /\
      Dict.get "MINT" (Memecoin.positions (fst second)) = Some p2 /\
      Memecoin.current_price p1 = Memecoin.current_price p2 /\
      Memecoin.get_partial_exit_level p1 = Some 2 /\
      Forall (fun done => done == 25 # 10) (Memecoin.partial_exits_done p1) /\
      length (Memecoin.partial_exits_done p1) = 1%nat /\
      length (Memecoin.partial_exits_done p2) = 2%nat /\
      Memecoin.entry_amount_tokens p1 == 800 /\
      Memecoin.entry_amount_tokens p2 == 640).
Proof.
  vm_compute. split; [reflexivity |]. split; [reflexivity |].
  eexists. eexists. split; [reflexivity |]. split; [reflexivity |].
  split; [reflexivity |]. split; [reflexivity |].
  split; [repeat constructor |].
  repeat split; congruence.
Qed.

Section Pyramid.

Import HyperGrowth.

Context {Ohlcv : Type} `{SignalSources Ohlcv}.

(** A pyramid add announces the level after the position's count, and
    leaves the count at that level. *)
Lemma check_pyramid_fires (e e' : t) (ms : MarketState Ohlcv) (sig : Signal) :
  _check_pyramid e ms = Returned e' (Some sig) ->
  exists pos,
    _active_positions e !! ms_symbol ms = Some pos /\
    (pyramid_count pos < max_pyramid_adds (config e))%Z /\
    pyramid_level sig = Some (pyramid_count pos + 1)%Z /\
    _active_positions e' !! ms_symbol ms
      = Some (set_pyramid pos (pyramid_count pos + 1) (ms_current_price ms)) /\
    config e' = config e.
Proof.
  unfold _check_pyramid.
  destruct (_active_positions e !! ms_symbol ms) as [pos |] eqn:Hpos; [| discriminate].
  destruct (negb (pyramid_enabled (config e))); [discriminate |].
  destruct (max_pyramid_adds (config e) <=? pyramid_count pos)%Z eqn:Hmax;
    [discriminate |].
  apply Z.leb_gt in Hmax.
  destruct (Py.eqb (entry_price pos) 0); [discriminate |].
  destruct (index _ (pyramid_count pos)) as [trigger |]; [| discriminate].
  destruct (index _ (pyramid_count pos)) as [add_size |]; [| discriminate].
  destruct (Py.ltb _ trigger); [discriminate |].
  intros [= <- <-]. exists pos.
  split; [reflexivity |]. split; [exact Hmax |]. split; [reflexivity |].
  split; [| reflexivity].
  cbn [set_positions _active_positions]. apply lookup_insert_eq.
Qed.

(** A call that adds nothing changes nothing. *)
Lemma check_pyramid_silent (e e' : t) (ms : MarketState Ohlcv) :
  _check_pyramid e ms = Returned e' None -> e' = e.
Proof.
  unfold _check_pyramid.
  repeat match goal with
         | |- context [match ?x with _ => _ end] =>
           match type of x with
           | bool => destruct x
           | option _ => destruct x
           end; try discriminate
         end;
    intros [= <-]; reflexivity.
Qed.

(** The pyramid half of C5: two evaluations of the same snapshot never
    add at the same level.  If both add, the second add is at the next
    level. *)
Lemma check_pyramid_never_repeats_level (e e1 e2 : t) (ms : MarketState Ohlcv)
    (sig1 sig2 : Signal) (level : Z) :
  _check_pyramid e ms = Returned e1 (Some sig1) ->
  _check_pyramid e1 ms = Returned e2 (Some sig2) ->
  pyramid_level sig1 = Some level ->
  pyramid_level sig2 = Some (level + 1)%Z.
Proof.
  intros H1 H2 Hl.
  apply check_pyramid_fires in H1 as (pos & Hp & _ & Hl1 & Hp1 & _).
  apply check_pyramid_fires in H2 as (pos1 & Hp1' & _ & Hl2 & _ & _).
  rewrite Hp1 in Hp1'. injection Hp1' as <-.
  rewrite Hl1 in Hl. injection Hl as <-.
  rewrite Hl2. reflexivity.
Qed.

(** Once the configured number of adds is reached nothing is added. *)
Lemma check_pyramid_exhausted (e : t) (ms : MarketState Ohlcv) (pos : Position) :
  _active_positions e !! ms_symbol ms = Some pos ->
  (max_pyramid_adds (config e) <= pyramid_count pos)%Z ->
  _check_pyramid e ms = Returned e None.
Proof.
  intros Hpos Hmax. unfold _check_pyramid. rewrite Hpos.
  destruct (negb (pyramid_enabled (config e))); [reflexivity |].
  apply Z.leb_le in Hmax. rewrite Hmax. reflexivity.
Qed.

End Pyramid.

(** On a position entered at 100 and quoted at 115 (a gain of +15%, above
    all three triggers), three evaluations of the same snapshot add at
    levels 1, 2 and 3, and a fourth adds nothing. *)
Lemma pyramid_levels_on_one_snapshot :
  let ms := snapshot (two_sources (8 # 10) "bull") 115 in
  exists e0 entry e1 s1 e2 s2 e3 s3,
    HyperGrowth.generate_signals midnight fresh_engine
      (snapshot (two_sources (8 # 10) "bull") 100) = Returned e0 [entry] /\
    HyperGrowth._check_pyramid e0 ms = Returned e1 (Some s1) /\
    HyperGrowth._check_pyramid e1 ms = Returned e2 (Some s2) /\
    HyperGrowth._check_pyramid e2 ms = Returned e3 (Some s3) /\
    HyperGrowth._check_pyramid e3 ms = Returned e3 None /\
    pyramid_level s1 = Some 1%Z /\
    pyramid_level s2 = Some 2%Z /\
    pyramid_level s3 = Some 3%Z.
Proof.
  do 8 eexists.
  split; [vm_compute; reflexivity |].
  split; [vm_compute; reflexivity |].
  split; [vm_compute; reflexivity |].
  split; [vm_compute; reflexivity |].
  split; [vm_compute; reflexivity |].
  repeat split.
Qed.

(** * Further properties of the code *)

(** ** The compound growth tracker *)

Lemma record_all_app (g : CompoundGrowthTracker.t) (xs ys : list Q) :
  record_all g (xs ++ ys) = record_all (record_all g xs) ys.
Proof. unfold record_all. apply fold_left_app. Qed.

Lemma record_all_fields (returns : list Q) (g : CompoundGrowthTracker.t) :
  CompoundGrowthTracker.starting_equity (record_all g returns)
    = CompoundGrowthTracker.starting_equity g /\
  CompoundGrowthTracker.target_equity (record_all g returns)
    = CompoundGrowthTracker.target_equity g /\
  CompoundGrowthTracker.trade_returns (record_all g returns)
    = (CompoundGrowthTracker.trade_returns g ++ returns)%list /\
  CompoundGrowthTracker.current_equity (record_all g returns)
    == CompoundGrowthTracker.current_equity g * growth_product returns /\
  (CompoundGrowthTracker.win_count (record_all g returns)
   + CompoundGrowthTracker.loss_count (record_all g returns)
   = CompoundGrowthTracker.win_count g + CompoundGrowthTracker.loss_count g
     + Py.len returns)%Z.
Proof.
  revert g. induction returns as [| r rest IH]; intros g.
  - cbn. rewrite app_nil_r. unfold Py.len. cbn. repeat split; try lia. ring.
  - change (record_all g (r :: rest))
      with (record_all (CompoundGrowthTracker.update g r) rest).
    destruct (IH (CompoundGrowthTracker.update g r)) as (Hs & Ht & Hr & He & Hc).
    rewrite Hs, Ht, Hr, He, Hc. cbn [CompoundGrowthTracker.update
      CompoundGrowthTracker.starting_equity CompoundGrowthTracker.target_equity
      CompoundGrowthTracker.trade_returns CompoundGrowthTracker.current_equity
      CompoundGrowthTracker.win_count CompoundGrowthTracker.loss_count growth_product].
    repeat split.
    + rewrite <- app_assoc. reflexivity.
    + ring.
    + unfold Py.len. cbn [length]. destruct (Py.gtb r 0); lia.
Qed.

(** X1: after any sequence of closed trades recorded on a fresh tracker,
    the current equity is the starting equity times the product of the
    factors [1 + r], the recorded returns are the trades in order, and the
    win and loss counts add up to the number of trades. *)
Theorem X1_tracker_compounds (starting target : Q) (returns : list Q) :
  let g := record_all (CompoundGrowthTracker.__init__ starting target) returns in
  CompoundGrowthTracker.current_equity g == starting * growth_product returns /\
  CompoundGrowthTracker.trade_returns g = returns /\
  (CompoundGrowthTracker.win_count g + CompoundGrowthTracker.loss_count g
   = Py.len returns)%Z /\
  CompoundGrowthTracker.starting_equity g = starting /\
  CompoundGrowthTracker.target_equity g = target.
Proof.
  intros g. subst g.
  destruct (record_all_fields returns (CompoundGrowthTracker.__init__ starting target))
    as (Hs & Ht & Hr & He & Hc).
  repeat split; assumption.
Qed.

(** The clamp [max(0, min(1, x))]. *)
Lemma clamp_unit (x : Q) :
  0 <= Py.max 0 (Py.min 1 x) /\ Py.max 0 (Py.min 1 x) <= 1.
Proof.
  pose proof (max_spec 0 (Py.min 1 x)) as [H0 _].
  pose proof (min_spec 1 x) as [H1 _].
  split; [exact H0 |].
  destruct (max_cases 0 (Py.min 1 x)) as [-> | ->]; lra.
Qed.

Lemma clamp_unit_monotone (x y : Q) :
  x <= y -> Py.max 0 (Py.min 1 x) <= Py.max 0 (Py.min 1 y).
Proof.
  intros Hxy.
  pose proof (min_spec 1 x) as [Hx1 Hxx].
  assert (Hmin : Py.min 1 x <= Py.min 1 y)
    by (destruct (min_cases 1 y) as [-> | ->]; lra).
  pose proof (max_spec 0 (Py.min 1 y)) as [Hy0 Hyy].
  destruct (max_cases 0 (Py.min 1 x)) as [-> | ->]; lra.
Qed.

(** X2: the progress toward the target is defined exactly when the target
    differs from the starting equity (otherwise the division raises), and
    it always lies between 0 and 1: it is 0 while the equity is at or below
    the start and 1 once the equity has reached a target above the
    start. *)
Theorem X2_progress_pct_clamped (g : CompoundGrowthTracker.t) :
  (CompoundGrowthTracker.progress_pct g = None <->
   CompoundGrowthTracker.target_equity g == CompoundGrowthTracker.starting_equity g) /\
  (forall p, CompoundGrowthTracker.progress_pct g = Some p ->
     0 <= p /\ p <= 1 /\
     (CompoundGrowthTracker.starting_equity g < CompoundGrowthTracker.target_equity g ->
      (CompoundGrowthTracker.current_equity g <= CompoundGrowthTracker.starting_equity g
         -> p == 0) /\
      (CompoundGrowthTracker.target_equity g <= CompoundGrowthTracker.current_equity g
         -> p == 1))).
Proof.
  unfold CompoundGrowthTracker.progress_pct.
  set (s := CompoundGrowthTracker.starting_equity g).
  set (t := CompoundGrowthTracker.target_equity g).
  set (c := CompoundGrowthTracker.current_equity g).
  destruct (Py.eqb (t - s) 0) eqn:E.
  - apply eqb_true in E. split.
    + split; [intros _; lra | reflexivity].
    + intros p [=].
  - apply eqb_false in E. split.
    + split; [discriminate | intros Heq; exfalso; apply E; lra].
    + intros p [= <-].
      destruct (clamp_unit ((c - s) / (t - s))) as [H0 H1].
      split; [exact H0 |]. split; [exact H1 |].
      intros Hst. split; intros Hc.
      * assert (Hx : (c - s) / (t - s) <= 0).
        { apply Qle_shift_div_r; lra. }
        pose proof (clamp_unit_monotone _ _ Hx) as Hm.
        change (Py.max 0 (Py.min 1 0)) with 0 in Hm. lra.
      * assert (Hx : 1 <= (c - s) / (t - s)).
        { apply Qle_shift_div_l; lra. }
        pose proof (clamp_unit_monotone _ _ Hx) as Hm.
        change (Py.max 0 (Py.min 1 1)) with 1 in Hm. lra.
Qed.

(** The aggression multiplier as a function of the progress. *)
Lemma aggression_of_progress (g : CompoundGrowthTracker.t) (a : Q) :
  CompoundGrowthTracker.get_aggression_multiplier g = Some a ->
  exists p,
    CompoundGrowthTracker.progress_pct g = Some p /\
    a = (if Py.ltb p (1 # 2) then 1 else if Py.ltb p (8 # 10) then 9 # 10 else 8 # 10).
Proof.
  unfold CompoundGrowthTracker.get_aggression_multiplier.
  destruct (CompoundGrowthTracker.progress_pct g) as [p |]; [| discriminate].
  cbn [mbind option_bind]. intros [= <-]. exists p. auto.
Qed.

(** X3: the aggression multiplier is 1, 0.9 or 0.8, and it never rises as
    the equity grows toward a target above the start: of two trackers with
    the same start and target, the one with the larger equity is at most as
    aggressive. *)
Theorem X3_aggression_steps_down (g1 g2 : CompoundGrowthTracker.t) (a1 a2 : Q) :
  CompoundGrowthTracker.starting_equity g1 = CompoundGrowthTracker.starting_equity g2 ->
  CompoundGrowthTracker.target_equity g1 = CompoundGrowthTracker.target_equity g2 ->
  CompoundGrowthTracker.starting_equity g1 < CompoundGrowthTracker.target_equity g1 ->
  CompoundGrowthTracker.current_equity g1 <= CompoundGrowthTracker.current_equity g2 ->
  CompoundGrowthTracker.get_aggression_multiplier g1 = Some a1 ->
  CompoundGrowthTracker.get_aggression_multiplier g2 = Some a2 ->
  (a1 = 1 \/ a1 = 9 # 10 \/ a1 = 8 # 10) /\
  (a2 = 1 \/ a2 = 9 # 10 \/ a2 = 8 # 10) /\
  a2 <= a1.
Proof.
  intros Hs Ht Hst Hc H1 H2.
  apply aggression_of_progress in H1 as (p1 & Hp1 & ->).
  apply aggression_of_progress in H2 as (p2 & Hp2 & ->).
  assert (Hp : p1 <= p2).
  { revert Hp1 Hp2. unfold CompoundGrowthTracker.progress_pct.
    rewrite <- Hs, <- Ht.
    destruct (Py.eqb _ 0); [discriminate |].
    intros [= <-] [= <-]. apply clamp_unit_monotone.
    apply Qmult_le_compat_r; [lra |].
    apply Qinv_le_0_compat. lra. }
  repeat match goal with
         | |- context [Py.ltb ?a ?b] =>
           let E := fresh "E" in
           destruct (Py.ltb a b) eqn:E;
           [apply ltb_true in E | apply ltb_false in E]
         end;
    (split; [auto | split; [auto | lra]]).
Qed.

(** At equity 150 (progress 1/8) the multiplier is 1; at 450 (progress
    7/8) it is 0.8. *)
Lemma X3_witness :
  CompoundGrowthTracker.get_aggression_multiplier (tracker_at 150) = Some 1 /\
  CompoundGrowthTracker.get_aggression_multiplier (tracker_at 450) = Some (8 # 10) /\
  8 # 10 <= 1.
Proof.
  split; [reflexivity |]. split; [reflexivity |].
  apply (X3_aggression_steps_down (tracker_at 150) (tracker_at 450) 1 (8 # 10));
    first [reflexivity | vm_compute; discriminate].
Defined.

(** ** More on the growth-phase risk manager *)

Section RiskPhases.

Import AggressiveRisk.

(** The phase of a non-zero equity is read off the boundaries. *)
Lemma get_phase_nonzero (m : t) (e : Q) :
  ~ e == 0 ->
  get_phase m (Some e) =
  if Py.ltb e (seed_max (config m)) then SEED
  else if Py.ltb e (sprout_max (config m)) then SPROUT
  else if Py.ltb e (grow_max (config m)) then GROW
  else MATURE.
Proof.
  intros Hne. unfold get_phase, Py.or_else, Py.truthy.
  apply eqb_false in Hne. rewrite Hne. reflexivity.
Qed.

(** X4: with ascending phase boundaries the phase never goes down as the
    equity goes up, and with limits that tighten from phase to phase (as
    the defaults do) the maximum position percentage, the daily-loss halt
    and the drawdown halt never go up. *)
Theorem X4_limits_tighten_with_equity (m : t) (e1 e2 : Q) :
  tightening (config m) ->
  ~ e1 == 0 -> ~ e2 == 0 -> e1 <= e2 ->
  (phase_rank (get_phase m (Some e1)) <= phase_rank (get_phase m (Some e2)))%Z /\
  get_max_position_pct m (Some e2) <= get_max_position_pct m (Some e1) /\
  get_daily_loss_halt m (Some e2) <= get_daily_loss_halt m (Some e1) /\
  get_drawdown_halt m (Some e2) <= get_drawdown_halt m (Some e1).
Proof.
  intros (B1 & B2 & P1 & P2 & P3 & D1 & D2 & D3 & W1 & W2 & W3) H1 H2 Hle.
  unfold get_max_position_pct, get_daily_loss_halt, get_drawdown_halt.
  rewrite (get_phase_nonzero m e1 H1), (get_phase_nonzero m e2 H2).
  repeat match goal with
         | |- context [Py.ltb ?a ?b] =>
           let E := fresh "E" in
           destruct (Py.ltb a b) eqn:E;
           [apply ltb_true in E | apply ltb_false in E]
         end;
    cbn [phase_rank]; repeat split; first [lia | lra].
Qed.

End RiskPhases.

(** The default configuration at equities 100 and 50000. *)
Lemma X4_witness :
  tightening (AggressiveRisk.config fresh_manager) /\
  AggressiveRisk.get_max_position_pct fresh_manager (Some 50000)
    <= AggressiveRisk.get_max_position_pct fresh_manager (Some 100).
Proof.
  assert (Ht : tightening (AggressiveRisk.config fresh_manager))
    by (repeat split; vm_compute; discriminate).
  split; [exact Ht |].
  apply (X4_limits_tighten_with_equity fresh_manager 100 50000 Ht);
    vm_compute; discriminate.
Defined.

Section RiskSizing.

Import AggressiveRisk.

(** X5: an equity of zero is read as "no equity given": the phase is that
    of the manager's stored equity, and the sizer, whose notional is then
    zero, raises on the division by the equity whenever the minimum trade
    value is positive; with a minimum trade value of zero or less it
    returns a notional of zero. *)
Theorem X5_zero_equity_sizing (m : t) (equity signal_strength stop : Q) :
  equity == 0 ->
  get_phase m (Some equity) = get_phase m None /\
  (0 < min_trade_value_usd (config m) ->
   calculate_position_size m equity signal_strength stop = None) /\
  (min_trade_value_usd (config m) <= 0 ->
   exists ps,
     calculate_position_size m equity signal_strength stop = Some ps /\
     position_usd ps == 0 /\
     position_pct ps = scaled_size m equity signal_strength).
Proof.
  intros Hz.
  assert (Hq : Py.eqb equity 0 = true) by (apply eqb_true; exact Hz).
  split; [| split].
  - unfold get_phase, Py.or_else, Py.truthy. rewrite Hq. reflexivity.
  - intros Hmin. unfold calculate_position_size.
    fold (scaled_size m equity signal_strength). cbv zeta.
    assert (Hlt : Py.ltb (equity * scaled_size m equity signal_strength)
                    (min_trade_value_usd (config m)) = true).
    { apply ltb_true. assert (Hp : equity * scaled_size m equity signal_strength == 0) by nra.
      lra. }
    rewrite Hlt, Hq. reflexivity.
  - intros Hmin. unfold calculate_position_size.
    fold (scaled_size m equity signal_strength). cbv zeta.
    assert (Hlt : Py.ltb (equity * scaled_size m equity signal_strength)
                    (min_trade_value_usd (config m)) = false).
    { apply ltb_false. assert (Hp : equity * scaled_size m equity signal_strength == 0) by nra.
      lra. }
    rewrite Hlt. eexists. split; [reflexivity |].
    cbn [position_usd position_pct]. split; [nra | reflexivity].
Qed.

(** X6: whatever the sizer returns is a trade of at least the minimum
    trade value, and its figures agree: the notional is the equity times
    the position percentage, and the two loss figures are the notional and
    the percentage times the stop distance. *)
Theorem X6_sizing_figures_agree (m : t) (equity signal_strength stop : Q)
    (ps : PositionSize) :
  calculate_position_size m equity signal_strength stop = Some ps ->
  min_trade_value_usd (config m) <= position_usd ps /\
  position_usd ps == equity * position_pct ps /\
  max_loss_usd ps == position_usd ps * stop /\
  max_loss_pct_of_equity ps == position_pct ps * stop /\
  ps_phase ps = value (get_phase m (Some equity)).
Proof.
  unfold calculate_position_size. fold (scaled_size m equity signal_strength).
  cbv zeta.
  destruct (Py.ltb (equity * scaled_size m equity signal_strength)
              (min_trade_value_usd (config m))) eqn:Hlt.
  - destruct (Py.eqb equity 0) eqn:Hq; [discriminate |].
    apply eqb_false in Hq. intros [= <-].
    cbn [position_usd position_pct max_loss_usd max_loss_pct_of_equity ps_phase].
    repeat split; try lra; try reflexivity. field. exact Hq.
  - apply ltb_false in Hlt. intros [= <-].
    cbn [position_usd position_pct max_loss_usd max_loss_pct_of_equity ps_phase].
    repeat split; try lra; reflexivity.
Qed.

End RiskSizing.

(** A fresh manager asked to size for an equity of zero. *)
Lemma X5_witness :
  0 == 0 /\
  AggressiveRisk.calculate_position_size fresh_manager 0 1 (25 # 1000) = None.
Proof.
  split; [reflexivity |].
  apply (X5_zero_equity_sizing fresh_manager 0 1 (25 # 1000)); reflexivity.
Defined.

(** Equity 10 in the seed phase: the notional is raised to 5. *)
Lemma X6_witness :
  exists ps,
    AggressiveRisk.calculate_position_size fresh_manager 10 1 (25 # 1000) = Some ps /\
    AggressiveRisk.min_trade_value_usd (AggressiveRisk.config fresh_manager)
      <= AggressiveRisk.position_usd ps.
Proof.
  eexists. split; [reflexivity |].
  eapply (X6_sizing_figures_agree fresh_manager 10 1 (25 # 1000)). reflexivity.
Defined.

Section RiskUpdate.

Import AggressiveRisk.

(** The equity fields after [update_equity], and the two metrics it
    reports. *)
Lemma update_equity_fields (today : string) (m : t) (new_equity : Q) :
  let peak := if Py.gtb new_equity (_peak_equity m) then new_equity else _peak_equity m in
  let day_start :=
    if String.eqb today (_current_date m) then _day_start_equity m else new_equity in
  let m' := fst (update_equity today m new_equity) in
  let st := snd (update_equity today m new_equity) in
  _equity m' = new_equity /\
  _peak_equity m' = peak /\
  _day_start_equity m' = day_start /\
  _current_date m' = today /\
  _consecutive_losses m' = _consecutive_losses m /\
  config m' = config m /\
  equity st = new_equity /\
  peak_equity st = peak /\
  day_start_equity st = day_start /\
  current_drawdown st = (if Py.gtb peak 0 then (peak - new_equity) / peak else 0) /\
  daily_pnl_pct st
    = (if Py.gtb day_start 0 then (new_equity - day_start) / day_start else 0) /\
  is_halted st = _is_halted m' /\
  halt_reason st = _halt_reason m' /\
  consecutive_losses st = _consecutive_losses m /\
  max_position_pct st = get_max_position_pct m' (Some new_equity) /\
  daily_loss_halt_pct st = get_daily_loss_halt m' (Some new_equity) /\
  drawdown_halt_pct st = get_drawdown_halt m' (Some new_equity).
Proof.
  cbv zeta. unfold update_equity.
  destruct (String.eqb today (_current_date m)) eqn:Hd; cbn [negb].
  - apply String.eqb_eq in Hd. subst today.
    destruct (Py.gtb new_equity (_peak_equity (set_equity m new_equity))) eqn:Hp;
      cbn in Hp; rewrite Hp; cbn;
      destruct (_is_halted m); cbn;
      repeat match goal with
             | |- context [if ?b then set_halt _ _ _ else _] => destruct b; cbn
             end;
      repeat split.
  - destruct (_is_halted (set_day m new_equity today)
              && is_daily_reason (_halt_reason (set_day m new_equity today)));
      cbn;
      (destruct (Py.gtb new_equity (_peak_equity m)) eqn:Hp; cbn;
       try destruct (_is_halted m); cbn;
       repeat match goal with
              | |- context [if ?b then set_halt _ _ _ else _] => destruct b; cbn
              end;
       repeat split).
Qed.

(** X7: after an equity update the stored equity is the new equity, the
    peak is the larger of the old peak and the new equity (so it never
    falls and is never below the equity), and the reported drawdown is
    never negative; it is zero at a positive new peak and at most 1 for a
    non-negative equity. *)
Theorem X7_peak_tracks_best_equity (today : string) (m : t) (new_equity : Q) :
  let m' := fst (update_equity today m new_equity) in
  let st := snd (update_equity today m new_equity) in
  _equity m' = new_equity /\
  _peak_equity m <= _peak_equity m' /\
  new_equity <= _peak_equity m' /\
  (_peak_equity m' = _peak_equity m \/ _peak_equity m' = new_equity) /\
  peak_equity st = _peak_equity m' /\
  0 <= current_drawdown st /\
  (0 <= new_equity -> current_drawdown st <= 1) /\
  (0 < new_equity -> _peak_equity m <= new_equity -> current_drawdown st == 0).
Proof.
  cbv zeta.
  destruct (update_equity_fields today m new_equity)
    as (He & Hp & _ & _ & _ & _ & _ & Hsp & _ & Hdd & _).
  cbv zeta in *. rewrite He, Hp, Hsp, Hdd. clear He Hp Hsp Hdd.
  destruct (Py.gtb new_equity (_peak_equity m)) eqn:Hgt;
    [apply gtb_true in Hgt | apply gtb_false in Hgt].
  - destruct (Py.gtb new_equity 0) eqn:H0;
      [apply gtb_true in H0 | apply gtb_false in H0].
    + assert (Hz : (new_equity - new_equity) / new_equity == 0) by (field; lra).
      repeat split; auto; lra.
    + repeat split; auto; lra.
  - destruct (Py.gtb (_peak_equity m) 0) eqn:H0;
      [apply gtb_true in H0 | apply gtb_false in H0].
    + assert (Hge : 0 <= (_peak_equity m - new_equity) / _peak_equity m).
      { apply Qle_shift_div_l; lra. }
      repeat split; auto; try lra.
      * intros Hn. apply Qle_shift_div_r; lra.
      * intros Hn Hle.
        assert (Hz : _peak_equity m - new_equity == 0) by lra.
        rewrite Hz. field. lra.
    + repeat split; auto; lra.
Qed.

(** The halting decision of [update_equity] on a manager that is not
    halted, in terms of the figures it reports. *)
Lemma halting_decision (today : string) (m : t) (new_equity : Q) :
  _is_halted m = false ->
  let st := snd (update_equity today m new_equity) in
  (is_halted st, halt_reason st) =
  if Py.leb (daily_pnl_pct st) (- daily_loss_halt_pct st) then
    (true, Some (daily_reason (daily_pnl_pct st) (daily_loss_halt_pct st)))
  else if Py.geb (current_drawdown st) (drawdown_halt_pct st) then
    (true, Some (drawdown_reason (current_drawdown st) (drawdown_halt_pct st)))
  else if (max_consecutive_losses (config m) <=? _consecutive_losses m)%Z then
    (true, Some (consecutive_reason (_consecutive_losses m)))
  else (false, _halt_reason m).
Proof.
  intros Hh. cbv zeta. unfold update_equity.
  destruct (String.eqb today (_current_date m)); cbn [negb];
    cbn [set_day _is_halted _halt_reason]; rewrite ?Hh; cbn [andb];
    destruct (Py.gtb new_equity _); cbn; rewrite Hh; cbn;
    repeat match goal with
           | |- context [if ?b then _ else _] => destruct b; cbn
           end;
    rewrite ?Hh; reflexivity.
Qed.

(** X8: on a manager that is not halted, an equity update halts exactly
    when one of the three limits is hit on the figures it reports: the
    daily P&L at or below minus the daily-loss halt, the drawdown at or
    above the drawdown halt, or the consecutive losses at or above their
    maximum.  The reason names the first limit hit, in that order. *)
Theorem X8_halt_exactly_on_limits (today : string) (m : t) (new_equity : Q) :
  _is_halted m = false ->
  let st := snd (update_equity today m new_equity) in
  let daily := daily_pnl_pct st <= - daily_loss_halt_pct st in
  let drawdown := drawdown_halt_pct st <= current_drawdown st in
  let streak := (max_consecutive_losses (config m) <= _consecutive_losses m)%Z in
  (is_halted st = true <-> daily \/ drawdown \/ streak) /\
  (daily ->
   halt_reason st = Some (daily_reason (daily_pnl_pct st) (daily_loss_halt_pct st))) /\
  (~ daily -> drawdown ->
   halt_reason st
     = Some (drawdown_reason (current_drawdown st) (drawdown_halt_pct st))) /\
  (~ daily -> ~ drawdown -> streak ->
   halt_reason st = Some (consecutive_reason (_consecutive_losses m))).
Proof.
  intros Hh. pose proof (halting_decision today m new_equity Hh) as Hd.
  cbv zeta in *.
  set (st := snd (update_equity today m new_equity)) in *. clearbody st.
  destruct (Py.leb (daily_pnl_pct st) (- daily_loss_halt_pct st)) eqn:E1;
    [apply leb_true in E1 | apply leb_false in E1].
  { injection Hd as Hi Hr. rewrite Hi, Hr.
    repeat split; auto; intros; exfalso; lra. }
  destruct (Py.geb (current_drawdown st) (drawdown_halt_pct st)) eqn:E2;
    [apply geb_true in E2 | apply geb_false in E2].
  { injection Hd as Hi Hr. rewrite Hi, Hr.
    repeat split; auto; intros; exfalso; lra. }
  destruct (max_consecutive_losses (config m) <=? _consecutive_losses m)%Z eqn:E3;
    [apply Z.leb_le in E3 | apply Z.leb_gt in E3].
  { injection Hd as Hi Hr. rewrite Hi, Hr.
    repeat split; auto; intros; exfalso; lra. }
  injection Hd as Hi Hr. rewrite Hi.
  split.
  - split; [discriminate |].
    intros [Hx | [Hx | Hx]]; exfalso; first [lra | lia].
  - repeat split; intros; exfalso; first [lra | lia].
Qed.

End RiskUpdate.

(** A fresh manager whose equity falls from 100 to 45 in a day: the daily
    limit (40%) and the drawdown limit (50%) are both hit, and the reason
    is the daily one. *)
Lemma X8_witness :
  AggressiveRisk._is_halted fresh_manager = false /\
  AggressiveRisk.halt_reason (snd (AggressiveRisk.update_equity "2025-01-01" fresh_manager 45))
    = Some "Daily loss limit hit: -55.0% (limit: -40.0%)".
Proof.
  split; [reflexivity |].
  destruct (X8_halt_exactly_on_limits "2025-01-01" fresh_manager 45 eq_refl)
    as (_ & Hdaily & _).
  rewrite Hdaily.
  - reflexivity.
  - vm_compute. discriminate.
Defined.

Section Milestones.

Import AggressiveRisk.

Lemma check_milestones_fold (m : t) (equity : Q) :
  _check_milestones m equity
    = fold_left (milestone_step equity) (_milestone_targets m) (_milestones_hit m).
Proof. reflexivity. Qed.

Lemma mem_app (x : Q) (l1 l2 : list Q) :
  Py.mem x (l1 ++ l2) = Py.mem x l1 || Py.mem x l2.
Proof. unfold Py.mem. apply existsb_app. Qed.

Lemma mem_last (x : Q) (l : list Q) : Py.mem x (l ++ [x]) = true.
Proof.
  rewrite mem_app. apply orb_true_iff. right. unfold Py.mem. cbn.
  replace (Py.eqb x x) with true; [reflexivity |].
  symmetry. apply eqb_true. reflexivity.
Qed.

(** The loop only appends: what was hit stays, in its place. *)
Lemma milestones_extend (equity : Q) (targets hit : list Q) :
  exists added,
    fold_left (milestone_step equity) targets hit = (hit ++ added)%list /\
    Forall (fun t => In t targets /\ t <= equity /\ Py.mem t hit = false) added.
Proof.
  revert hit. induction targets as [| t rest IH]; intros hit.
  - exists []. cbn. rewrite app_nil_r. auto.
  - cbn [fold_left]. destruct (IH (milestone_step equity hit t)) as (added & Heq & Hall).
    rewrite Heq. clear Heq. revert Hall. unfold milestone_step.
    destruct (Py.geb equity t && negb (Py.mem t hit)) eqn:E; intros Hall.
    + apply andb_true_iff in E as [Hge Hmem]. apply geb_true in Hge.
      apply negb_true_iff in Hmem.
      exists (t :: added). split; [rewrite <- app_assoc; reflexivity |].
      constructor; [cbn; auto |].
      eapply Forall_impl; [exact Hall |]. cbn. intros a (Hin & Hle & Hm).
      rewrite mem_app in Hm. apply orb_false_iff in Hm as [Hm _]. auto.
    + exists added. split; [reflexivity |].
      eapply Forall_impl; [exact Hall |]. cbn. intros a (Hin & Hle & Hm). auto.
Qed.

Lemma milestones_keep (equity : Q) (targets hit : list Q) (x : Q) :
  Py.mem x hit = true ->
  Py.mem x (fold_left (milestone_step equity) targets hit) = true.
Proof.
  intros Hm. destruct (milestones_extend equity targets hit) as (added & -> & _).
  rewrite mem_app, Hm. reflexivity.
Qed.

(** Every target that the equity has reached is hit after the loop. *)
Lemma milestones_reached (equity : Q) (targets hit : list Q) (x : Q) :
  In x targets -> x <= equity ->
  Py.mem x (fold_left (milestone_step equity) targets hit) = true.
Proof.
  revert hit. induction targets as [| t rest IH]; intros hit Hin Hle; [destruct Hin |].
  cbn [fold_left]. destruct Hin as [-> | Hin]; [| apply IH; assumption].
  apply milestones_keep. unfold milestone_step.
  destruct (Py.mem x hit) eqn:Hm.
  - rewrite andb_false_r. exact Hm.
  - replace (Py.geb equity x) with true by (symmetry; apply geb_true; exact Hle).
    cbn. apply mem_last.
Qed.

(** When every reached target is already hit, the loop changes nothing. *)
Lemma milestones_stable (equity : Q) (targets hit : list Q) :
  (forall x, In x targets -> x <= equity -> Py.mem x hit = true) ->
  fold_left (milestone_step equity) targets hit = hit.
Proof.
  induction targets as [| t rest IH]; intros Hall; [reflexivity |].
  cbn [fold_left]. unfold milestone_step at 2.
  destruct (Py.geb equity t) eqn:Hge; cbn [andb].
  - apply geb_true in Hge. rewrite (Hall t (or_introl eq_refl) Hge). cbn.
    apply IH. intros x Hin. apply Hall. right. exact Hin.
  - apply IH. intros x Hin. apply Hall. right. exact Hin.
Qed.

(** X9: milestones are one-time events.  [_check_milestones] keeps what
    was already hit and appends only targets that the equity has reached
    and that were not hit before; afterwards every reached target is hit,
    and checking again at the same equity records nothing more. *)
Theorem X9_milestones_recorded_once (m : t) (equity peak : Q) :
  let hit := _check_milestones m equity in
  (exists added,
      hit = (_milestones_hit m ++ added)%list /\
      Forall (fun x => In x (_milestone_targets m) /\ x <= equity /\
                       Py.mem x (_milestones_hit m) = false) added) /\
  (forall x, In x (_milestone_targets m) -> x <= equity -> Py.mem x hit = true) /\
  _check_milestones (set_peak m peak hit) equity = hit.
Proof.
  cbv zeta. rewrite !check_milestones_fold. cbn [set_peak _milestone_targets _milestones_hit].
  split; [apply milestones_extend |].
  split; [intros x; apply milestones_reached |].
  apply milestones_stable. intros x. apply milestones_reached.
Qed.

End Milestones.

Section TradeLog.

Import AggressiveRisk.

Lemma record_trade_fields (m : t) (r : TradeRecord) :
  let m' := record_trade (tr_timestamp r) m (tr_pnl r) (tr_pnl_pct r) (tr_symbol r) in
  _trade_history m'
    = (if (200 <? Py.len (_trade_history m ++ [r]))%Z
       then drop 1 (_trade_history m ++ [r]) else (_trade_history m ++ [r])%list) /\
  _consecutive_losses m'
    = (if is_loss r then _consecutive_losses m + 1 else 0)%Z /\
  _is_halted m' = _is_halted m /\ _halt_reason m' = _halt_reason m /\
  _equity m' = _equity m /\ _peak_equity m' = _peak_equity m.
Proof. destruct r. cbv zeta. unfold record_trade, is_loss. cbn. auto 10. Qed.

Lemma record_trades_snoc (m : t) (trades : list TradeRecord) (r : TradeRecord) :
  record_trades m (trades ++ [r])
    = record_trade (tr_timestamp r) (record_trades m trades)
        (tr_pnl r) (tr_pnl_pct r) (tr_symbol r).
Proof. unfold record_trades. rewrite fold_left_app. reflexivity. Qed.

Lemma leading_losses_all (trades : list TradeRecord) :
  forallb is_loss trades = true -> leading_losses trades = Py.len trades.
Proof.
  unfold Py.len. induction trades as [| r rest IH]; [reflexivity |].
  cbn [forallb leading_losses length]. intros H. apply andb_true_iff in H as [Hr Hrest].
  rewrite Hr, (IH Hrest). lia.
Qed.

Lemma forallb_rev {A} (f : A -> bool) (l : list A) : forallb f (rev l) = forallb f l.
Proof.
  induction l as [| a l IH]; [reflexivity |].
  cbn [rev forallb]. rewrite forallb_app, IH. cbn. rewrite andb_true_r. apply andb_comm.
Qed.

(** X10: the trade log is a sliding window.  Starting from a log of at
    most 200 records, after any sequence of recorded trades the log holds
    exactly the last 200 of the old records followed by the new ones, in
    order, so it never grows beyond 200. *)
Theorem X10_trade_log_keeps_last_200 (m : t) (trades : list TradeRecord)
    (Hlog : (length (_trade_history m) <= 200)%nat) :
  let every := (_trade_history m ++ trades)%list in
  _trade_history (record_trades m trades) = drop (length every - 200) every /\
  (length (_trade_history (record_trades m trades)) <= 200)%nat.
Proof.
  cbv zeta.
  assert (Heq : _trade_history (record_trades m trades)
                = drop (length (_trade_history m ++ trades) - 200)
                       (_trade_history m ++ trades)).
  { induction trades as [| r trades IH] using rev_ind.
    - cbn [record_trades fold_left]. rewrite app_nil_r.
      replace (length (_trade_history m) - 200)%nat with 0%nat by lia. reflexivity.
    - rewrite record_trades_snoc.
      destruct (record_trade_fields (record_trades m trades) r) as (-> & _).
      rewrite IH. clear IH.
      set (every := (_trade_history m ++ trades)%list).
      rewrite (app_assoc (_trade_history m) trades [r]). fold every.
      unfold Py.len. rewrite !length_app, length_drop. cbn [length].
      destruct (200 <? _)%Z eqn:E.
      + apply Z.ltb_lt in E.
        assert (Hl : (200 <= length every)%nat) by lia.
        rewrite <- drop_app_le by lia.
        rewrite drop_drop. f_equal. lia.
      + apply Z.ltb_ge in E.
        replace (length every - 200)%nat with 0%nat by lia.
        replace (length every + 1 - 200)%nat with 0%nat by lia. reflexivity. }
  split; [exact Heq |]. rewrite Heq, length_drop. lia.
Qed.

Lemma X10_witness :
  _trade_history
    (record_trades (__init__ None "2024-01-01")
       [{| tr_timestamp := "a"; tr_symbol := "BTC"; tr_pnl := 1; tr_pnl_pct := 0.01 |}])
  = drop 0 [{| tr_timestamp := "a"; tr_symbol := "BTC"; tr_pnl := 1; tr_pnl_pct := 0.01 |}].
Proof.
  refine (proj1 (X10_trade_log_keeps_last_200 (__init__ None "2024-01-01")
                   [{| tr_timestamp := "a"; tr_symbol := "BTC"; tr_pnl := 1;
                       tr_pnl_pct := 0.01 |}] _)).
  cbn. lia.
Defined.

(** X11: the losing-streak counter counts the losses at the end of the
    recorded trades: a trade that is not a loss resets it, and when every
    recorded trade lost, the losses add to the earlier streak.  Recording
    trades never halts or resumes trading by itself. *)
Theorem X11_losing_streak_counter (m : t) (trades : list TradeRecord) :
  _consecutive_losses (record_trades m trades)
    = (if forallb is_loss trades
       then _consecutive_losses m + Py.len trades
       else trailing_losses trades)%Z /\
  _is_halted (record_trades m trades) = _is_halted m /\
  _halt_reason (record_trades m trades) = _halt_reason m.
Proof.
  induction trades as [| r trades IH] using rev_ind.
  - cbn [record_trades fold_left forallb]. unfold Py.len. cbn [length].
    split; [lia | auto].
  - rewrite record_trades_snoc.
    destruct (record_trade_fields (record_trades m trades) r)
      as (_ & -> & -> & -> & _).
    destruct IH as (IHc & -> & ->). split; [| auto].
    rewrite forallb_app. cbn [forallb]. rewrite andb_true_r.
    unfold trailing_losses. rewrite rev_app_distr. cbn [rev app leading_losses].
    destruct (is_loss r) eqn:Hr.
    + rewrite andb_true_r, IHc.
      destruct (forallb is_loss trades) eqn:Ha.
      * unfold Py.len. rewrite length_app. cbn [length]. lia.
      * unfold trailing_losses. lia.
    + rewrite andb_false_r. reflexivity.
Qed.

End TradeLog.

Section GateCalls.

Import VerifierAgent.

Context {P : Type}.

Lemma verify_signal_outcome (env : Env) (v : t) (signal : Signal) (state : State)
    (positions : list P) :
  verify_signal env v signal state positions = accept v \/
  exists reason, verify_signal env v signal state positions = reject v reason.
Proof.
  unfold verify_signal.
  repeat match goal with
         | |- context [if ?c then _ else _] => destruct c
         end; eauto.
Qed.

Lemma verify_all_snoc (v : t) (calls : list (Env * Signal * State * list P))
    (env : Env) (signal : Signal) (state : State) (positions : list P) :
  verify_all v (calls ++ [(env, signal, state, positions)])
    = fst (verify_signal env (verify_all v calls) signal state positions).
Proof. unfold verify_all. rewrite fold_left_app. reflexivity. Qed.

(** X12: the gate's bookkeeping.  Over any sequence of calls every call is
    counted once, as verified or as rejected; the counters never decrease;
    recorded reasons are never dropped or reordered, and one reason is
    added for each rejection. *)
Theorem X12_gate_counts_every_call (v : t) (calls : list (Env * Signal * State * list P)) :
  let v' := verify_all v calls in
  (signals_verified v' + signals_rejected v'
     = signals_verified v + signals_rejected v + Py.len calls)%Z /\
  (signals_verified v <= signals_verified v')%Z /\
  (signals_rejected v <= signals_rejected v')%Z /\
  exists added,
    rejection_reasons v' = (rejection_reasons v ++ added)%list /\
    Py.len added = (signals_rejected v' - signals_rejected v)%Z.
Proof.
  cbv zeta. induction calls as [| [[[env signal] state] positions] calls IH] using rev_ind.
  - cbn [verify_all fold_left]. unfold Py.len. cbn [length].
    do 3 (split; [lia |]). exists []. rewrite app_nil_r. split; [reflexivity | cbn; lia].
  - rewrite verify_all_snoc. destruct IH as (Hsum & Hv & Hr & added & Hadd & Hlen).
    unfold Py.len in *. rewrite length_app. cbn [length].
    destruct (verify_signal_outcome env (verify_all v calls) signal state positions)
      as [-> | [reason ->]]; cbn [fst accept reject signals_verified signals_rejected
                                  rejection_reasons].
    + do 3 (split; [lia |]). exists added. split; [exact Hadd | lia].
    + do 3 (split; [lia |]). exists (added ++ [reason])%list.
      rewrite Hadd, app_assoc, length_app. cbn [length]. split; [reflexivity | lia].
Qed.

(** X13: only buys are held back by the regime and by the position count.
    For a signal whose side is not "buy" the verdict, the reason and the
    counters are the same whatever the regime confidence and whatever the
    open positions. *)
Theorem X13_regime_and_count_bind_buys_only (env : Env) (v : t) (signal : Signal)
    (state : State) (positions positions' : list P) (confidence : Q)
    (Hside : side signal <> "buy") :
  verify_signal env v signal (with_regime_confidence state confidence) positions'
    = verify_signal env v signal state positions.
Proof.
  apply String.eqb_neq in Hside.
  unfold verify_signal, _check_variance_inequality, with_regime_confidence.
  cbn [noise_level current_drawdown daily_pnl_pct regime_confidence].
  rewrite Hside, !andb_false_r. reflexivity.
Qed.

End GateCalls.

Lemma X13_witness :
  VerifierAgent.verify_signal (env_at 10 0) VerifierAgent.__init__ (signal_of "sell" 0.5)
    (with_regime_confidence quiet_state 0) [tt; tt; tt; tt; tt; tt]
  = VerifierAgent.verify_signal (env_at 10 0) VerifierAgent.__init__ (signal_of "sell" 0.5)
      quiet_state ([] : list unit).
Proof.
  apply (X13_regime_and_count_bind_buys_only (env_at 10 0) VerifierAgent.__init__
           (signal_of "sell" 0.5) quiet_state ([] : list unit) [tt; tt; tt; tt; tt; tt] 0).
  cbn. discriminate.
Defined.

Section Regime.

Import GeneratorAgent.

Lemma share_unit (part total : Z) :
  (0 <= part <= total)%Z -> (0 < total)%Z ->
  0 <= inject_Z part / inject_Z total <= 1.
Proof.
  intros [H0 H1] Ht.
  assert (Hq : 0 < inject_Z total) by (change 0 with (inject_Z 0); rewrite <- Zlt_Qlt; exact Ht).
  assert (Hp : 0 <= inject_Z part) by (change 0 with (inject_Z 0); rewrite <- Zle_Qle; exact H0).
  assert (Hle : inject_Z part <= inject_Z total) by (rewrite <- Zle_Qle; exact H1).
  split.
  - apply Qle_shift_div_l; [exact Hq | lra].
  - apply Qle_shift_div_r; [exact Hq | lra].
Qed.

Lemma filter_len_le {A} (f : A -> bool) (l : list A) :
  (0 <= Py.len (List.filter f l) <= Py.len l)%Z.
Proof.
  unfold Py.len. induction l as [| a l IH]; cbn [List.filter length]; [lia |].
  destruct (f a); cbn [length]; lia.
Qed.

Lemma momentum_count (g : t) :
  market_momentum g <> ∅ ->
  (0 < Py.len ((map_to_list (market_momentum g)).*2))%Z.
Proof.
  intros Hne. unfold Py.len. rewrite length_fmap.
  destruct (map_to_list (market_momentum g)) as [| kv rest] eqn:E.
  - apply map_to_list_empty_iff in E. contradiction.
  - cbn [length]. lia.
Qed.

(** X14: the regime reading.  The confidence is a share between 0 and 1;
    a bullish or bearish reading has a confidence of at least 70%, a
    neutral one less than 70%; the reading is "unknown", with confidence 0,
    exactly when no momentum has been recorded. *)
Theorem X14_regime_confidence (g : t) :
  let r := get_market_regime g in
  0 <= confidence r <= 1 /\
  (regime r = "bullish" \/ regime r = "bearish" -> 7 # 10 <= confidence r) /\
  (regime r = "neutral" -> confidence r < 7 # 10) /\
  (regime r = "unknown" <-> market_momentum g = ∅) /\
  (regime r = "unknown" -> confidence r = 0).
Proof.
  cbv zeta. unfold get_market_regime.
  destruct (bool_decide (market_momentum g = ∅)) eqn:Hempty.
  { apply bool_decide_eq_true in Hempty. cbn [regime confidence].
    split; [lra |]. split; [intros [H | H]; discriminate |].
    split; [discriminate |]. split; [tauto | reflexivity]. }
  apply bool_decide_eq_false in Hempty.
  pose proof (momentum_count g Hempty) as Hlen.
  set (momentums := (map_to_list (market_momentum g)).*2) in *.
  destruct (Py.len momentums =? 0)%Z eqn:Hz; [apply Z.eqb_eq in Hz; lia |].
  pose proof (share_unit _ _ (filter_len_le (fun m => Py.gtb m 0) momentums) Hlen) as Hpos.
  pose proof (share_unit _ _ (filter_len_le (fun m => Py.ltb m 0) momentums) Hlen) as Hneg.
  set (positive_pct :=
         inject_Z (Py.len (List.filter (fun m => Py.gtb m 0) momentums)) / _) in *.
  set (negative_pct :=
         inject_Z (Py.len (List.filter (fun m => Py.ltb m 0) momentums)) / _) in *.
  destruct (Py.geb positive_pct (7 # 10)) eqn:Hp.
  { apply geb_true in Hp. cbn [regime confidence].
    split; [exact Hpos |]. split; [intros _; exact Hp |].
    split; [discriminate |]. split; [split; [discriminate | contradiction] | discriminate]. }
  apply geb_false in Hp.
  destruct (Py.geb negative_pct (7 # 10)) eqn:Hn.
  { apply geb_true in Hn. cbn [regime confidence].
    split; [exact Hneg |]. split; [intros _; exact Hn |].
    split; [discriminate |]. split; [split; [discriminate | contradiction] | discriminate]. }
  apply geb_false in Hn. cbn [regime confidence].
  assert (Hmax : 0 <= Py.max positive_pct negative_pct <= 1 /\
                 Py.max positive_pct negative_pct < 7 # 10).
  { destruct (max_cases positive_pct negative_pct) as [-> | ->]; split; assumption. }
  destruct Hmax as [Hm1 Hm2].
  split; [exact Hm1 |]. split; [intros [H | H]; discriminate |].
  split; [intros _; exact Hm2 |]. split; [split; [discriminate | contradiction] | discriminate].
Qed.

End Regime.

Section Monitor.

Import HARDetector.

Lemma win_rate_unit (recent : list Trade) :
  (0 < Py.len recent)%Z -> 0 <= win_rate recent <= 1.
Proof. intros H. unfold win_rate. apply share_unit; [apply filter_len_le | exact H]. Qed.

(** X15: the reward estimate is a share.  For every monitor, whatever its
    lookback, and every trade log, [calculate_har] lies between 0 and 1. *)
Theorem X15_har_is_a_share (d : t) (trade_log : list Trade) :
  0 <= calculate_har d trade_log <= 1.
Proof.
  unfold calculate_har. destruct trade_log as [| tr rest]; [lra |].
  destruct (Py.len (recent_trades d (tr :: rest)) <? 5)%Z eqn:E; [lra |].
  apply Z.ltb_ge in E. apply win_rate_unit. lia.
Qed.

Lemma detect_edge_decay_fields (clk : Clock) (d : t) (trade_log : list Trade) :
  let d' := fst (detect_edge_decay clk d trade_log) in
  let decaying := Py.ltb (calculate_har d trade_log) (threshold d) in
  snd (detect_edge_decay clk d trade_log) = (decaying, calculate_har d trade_log) /\
  strategic_inactivity d' = decaying /\
  lookback d' = lookback d /\ threshold d' = threshold d /\
  (exists added,
      alerts d' = (alerts d ++ added)%list /\
      map type added
        = if Bool.eqb decaying (strategic_inactivity d) then []
          else [if decaying then "edge_decay" else "edge_restored"]).
Proof.
  cbv zeta. unfold detect_edge_decay.
  destruct (Py.ltb (calculate_har d trade_log) (threshold d));
    destruct (strategic_inactivity d) eqn:Hs; cbn;
    (do 4 (split; [auto |])).
  - exists []. rewrite app_nil_r. auto.
  - eexists [_]. split; reflexivity.
  - eexists [_]. split; reflexivity.
  - exists []. rewrite app_nil_r. auto.
Qed.

(** X16: one cycle of the loop's edge check.  After [detect_edge_decay]
    the monitor is inactive exactly when the estimate is below the
    threshold, an alert is appended exactly when that changed the state,
    and [should_trade] then clears trading exactly when the estimate is not
    below the threshold and the regime confidence is at least 60%. *)
Theorem X16_edge_check_then_should_trade (clk : Clock) (d : t) (trade_log : list Trade)
    (regime_confidence : Q) :
  let d' := fst (detect_edge_decay clk d trade_log) in
  let current_har := calculate_har d trade_log in
  (strategic_inactivity d' = true <-> current_har < threshold d) /\
  (Py.len (alerts d')
     = Py.len (alerts d)
       + (if Bool.eqb (strategic_inactivity d') (strategic_inactivity d) then 0 else 1))%Z /\
  (fst (should_trade d' regime_confidence) = true
     <-> threshold d <= current_har /\ 6 # 10 <= regime_confidence).
Proof.
  cbv zeta.
  destruct (detect_edge_decay_fields clk d trade_log) as (_ & Hs & _ & _ & added & Ha & Ht).
  rewrite Ha, Hs. unfold should_trade. rewrite Hs. clear Hs Ha.
  split; [apply ltb_true |]. split.
  - unfold Py.len. rewrite length_app, <- (length_map type added), Ht.
    destruct (Bool.eqb _ _); cbn [length]; lia.
  - destruct (Py.ltb (calculate_har d trade_log) (threshold d)) eqn:E.
    + apply ltb_true in E. cbn. split; [discriminate | intros [H _]; lra].
    + apply ltb_false in E. destruct (Py.ltb regime_confidence (6 # 10)) eqn:E2; cbn.
      * apply ltb_true in E2. split; [discriminate | intros [_ H]; lra].
      * apply ltb_false in E2. tauto.
Qed.

Lemma monitor_snoc (d : t) (cycles : list (Clock * list Trade)) (clk : Clock)
    (trade_log : list Trade) :
  monitor d (cycles ++ [(clk, trade_log)])
    = fst (detect_edge_decay clk (monitor d cycles) trade_log).
Proof. unfold monitor. rewrite fold_left_app. reflexivity. Qed.

Lemma alternating_app (b : bool) (xs ys : list string) :
  alternating b (xs ++ ys)
    = alternating b xs && alternating (if Nat.even (length xs) then b else negb b) ys.
Proof.
  revert b. induction xs as [| x xs IH]; intros b; [reflexivity |].
  cbn [app alternating length]. rewrite IH, Nat.even_succ, <- Nat.negb_even.
  rewrite andb_assoc. do 2 f_equal.
  destruct (Nat.even (length xs)); cbn; [reflexivity | apply negb_involutive].
Qed.

(** X17: alerts come in turn.  A fresh monitor run over any sequence of
    cycles has logged decay and restoration alerts alternately, starting
    with a decay alert, and it is inactive exactly when the number of its
    alerts is odd. *)
Theorem X17_alerts_alternate (lookback : Z) (threshold : Q)
    (cycles : list (Clock * list Trade)) :
  let d := monitor (__init__ lookback threshold) cycles in
  alternating false (map type (alerts d)) = true /\
  strategic_inactivity d = Nat.odd (length (alerts d)).
Proof.
  cbv zeta. induction cycles as [| [clk trade_log] cycles IH] using rev_ind.
  - cbn. auto.
  - rewrite monitor_snoc. destruct IH as [IHa IHs].
    destruct (detect_edge_decay_fields clk (monitor (__init__ lookback threshold) cycles)
                trade_log) as (_ & Hs & _ & _ & added & Ha & Ht).
    rewrite Ha, Hs, map_app, alternating_app, IHa, length_map, length_app.
    rewrite <- (length_map type added), Ht. clear Ha Hs Ht.
    rewrite IHs. rewrite <- Nat.negb_even.
    destruct (Py.ltb _ _); destruct (Nat.even (length (alerts _))) eqn:Ev; cbn;
      rewrite ?Nat.add_0_r, ?Nat.add_1_r, ?Nat.odd_succ, <- ?Nat.negb_even, ?Ev; auto.
Qed.

End Monitor.

Section LoopGate.

Import VerifierAgent.

(** X18: the loop settles the regime before the gate.  The trading loop
    passes the confidence of the regime reading to [should_trade] and calls
    the gate only when trading is cleared.  With no momentum recorded
    trading is never cleared; and when it is cleared the gate's own regime
    check cannot fire: it answers as for any confidence of at least 60%. *)
Theorem X18_regime_settled_before_gate {P : Type} (g : GeneratorAgent.t)
    (d : HARDetector.t) (env : Env) (v : t) (signal : Signal) (state : State)
    (positions : list P) :
  let c := GeneratorAgent.confidence (GeneratorAgent.get_market_regime g) in
  (GeneratorAgent.market_momentum g = ∅ -> fst (HARDetector.should_trade d c) = false) /\
  (fst (HARDetector.should_trade d c) = true ->
   forall c', 6 # 10 <= c' ->
     verify_signal env v signal (with_regime_confidence state c) positions
       = verify_signal env v signal (with_regime_confidence state c') positions).
Proof.
  cbv zeta. split.
  - intros Hempty. unfold GeneratorAgent.get_market_regime.
    rewrite bool_decide_eq_true_2 by exact Hempty. cbn [GeneratorAgent.confidence].
    unfold HARDetector.should_trade. destruct (HARDetector.strategic_inactivity d); reflexivity.
  - generalize (GeneratorAgent.confidence (GeneratorAgent.get_market_regime g)).
    intros c Hclear c' Hc'.
    unfold HARDetector.should_trade in Hclear.
    destruct (HARDetector.strategic_inactivity d); [discriminate |].
    destruct (Py.ltb c (6 # 10)) eqn:Hc; [discriminate |].
    apply (proj2 (ltb_false c' (6 # 10))) in Hc'.
    unfold verify_signal, _check_variance_inequality, with_regime_confidence.
    cbn [noise_level current_drawdown daily_pnl_pct regime_confidence from_option id].
    rewrite Hc, Hc'. reflexivity.
Qed.

End LoopGate.

Section Updater.

Import UpdaterAgent.

Ltac lookups :=
  repeat first [rewrite lookup_insert_eq | rewrite lookup_insert_ne by discriminate].

(** The state after the call, whichever way it went, reads as before at
    the two keys that the daily growth is computed from. *)
Lemma sweep_keeps_equity (sc : Q) (env : Env) (clk : Clock) (u : t) (s : State) :
  snd (fst (check_profit_sweep sc env clk u s)) !! "equity" = s !! "equity" /\
  snd (fst (check_profit_sweep sc env clk u s)) !! "start_of_day_equity"
    = s !! "start_of_day_equity".
Proof.
  unfold check_profit_sweep.
  destruct (Py.gtb _ 0);
    repeat match goal with
           | |- context [if ?c then _ else _] => destruct c
           | |- context [match ?x with Some _ => _ | None => _ end] => destruct x
           end; cbn [fst snd]; lookups; auto.
Qed.

(** What a call that swept has done, with the state written out. *)
Lemma sweep_done (sc : Q) (env : Env) (clk : Clock) (u : t) (s : State) :
  snd (check_profit_sweep sc env clk u s) = true ->
  let s0 := if Py.gtb (day_start sc s) 0
            then <["daily_pnl_pct" := (day_equity sc s - day_start sc s) / day_start sc s]> s
            else s in
  check_profit_sweep sc env clk u s
    = ({| trades_executed := trades_executed u;
          sweeps_performed := (sweeps_performed u + 1)%Z;
          total_swept := total_swept u + swept_amount sc env s |},
       <["total_swept" := default 0 (s !! "total_swept") + swept_amount sc env s]>
         (<["last_sweep_time" := now_stamp clk]>
            (<["hustle_account" := day_equity sc s - swept_amount sc env s]>
               (<["sovereign_vault" :=
                    default 0 (s !! "sovereign_vault") + swept_amount sc env s]> s0))),
       true) /\
  Py.geb (if Py.gtb (day_start sc s) 0
          then (day_equity sc s - day_start sc s) / day_start sc s else 0)
         (default (1 # 2) (TMS_PROFIT_SWEEP_THRESHOLD env)) = true.
Proof.
  unfold check_profit_sweep, swept_amount, day_equity, day_start. cbv zeta.
  destruct (Py.gtb (default sc (s !! "start_of_day_equity")) 0); lookups.
  - destruct (s !! "last_sweep_time") as [last |];
      [destruct (Py.ltb ((now_check clk - last) / 3600) 1); [discriminate |] |];
      (destruct (Py.geb _ _) eqn:Hg; [| discriminate]); intros _; lookups; auto.
  - destruct (s !! "last_sweep_time") as [last |];
      [destruct (Py.ltb ((now_check clk - last) / 3600) 1); [discriminate |] |];
      (destruct (Py.geb _ _) eqn:Hg; [| discriminate]); intros _; lookups; auto.
Qed.

(** The entries of the state after a call that swept. *)
Lemma sweep_books (sc : Q) (env : Env) (clk : Clock) (u : t) (s : State) :
  snd (check_profit_sweep sc env clk u s) = true ->
  let r := check_profit_sweep sc env clk u s in
  snd (fst r) !! "sovereign_vault"
    = Some (default 0 (s !! "sovereign_vault") + swept_amount sc env s) /\
  snd (fst r) !! "hustle_account" = Some (day_equity sc s - swept_amount sc env s) /\
  snd (fst r) !! "total_swept"
    = Some (default 0 (s !! "total_swept") + swept_amount sc env s) /\
  snd (fst r) !! "last_sweep_time" = Some (now_stamp clk) /\
  (Py.gtb (day_start sc s) 0 = true ->
   snd (fst r) !! "daily_pnl_pct"
     = Some ((day_equity sc s - day_start sc s) / day_start sc s)) /\
  total_swept (fst (fst r)) = total_swept u + swept_amount sc env s /\
  sweeps_performed (fst (fst r)) = (sweeps_performed u + 1)%Z.
Proof.
  intros Hswept. cbv zeta.
  destruct (sweep_done sc env clk u s Hswept) as [-> _]. cbn [fst snd].
  lookups. cbn [total_swept sweeps_performed].
  do 4 (split; [reflexivity |]). split; [| auto].
  intros ->. lookups. reflexivity.
Qed.

(** X19: what a sweep books.  A call that sweeps adds the swept amount,
    the sweep percentage of the equity, to the vault and to both running
    totals, and books the rest of the equity on the hustle account, so the
    vault's gain and the hustle account add up to the equity.  Sweeping or
    not, the call leaves the equity and the start-of-day equity as they
    were. *)
Theorem X19_sweep_accounting (sc : Q) (env : Env) (clk : Clock) (u : t) (s : State) :
  let r := check_profit_sweep sc env clk u s in
  snd (fst r) !! "equity" = s !! "equity" /\
  snd (fst r) !! "start_of_day_equity" = s !! "start_of_day_equity" /\
  (snd r = true ->
   exists vault hustle,
     snd (fst r) !! "sovereign_vault" = Some vault /\
     snd (fst r) !! "hustle_account" = Some hustle /\
     vault = default 0 (s !! "sovereign_vault") + swept_amount sc env s /\
     (vault - default 0 (s !! "sovereign_vault")) + hustle == day_equity sc s /\
     snd (fst r) !! "total_swept"
       = Some (default 0 (s !! "total_swept") + swept_amount sc env s) /\
     total_swept (fst (fst r)) = total_swept u + swept_amount sc env s /\
     sweeps_performed (fst (fst r)) = (sweeps_performed u + 1)%Z).
Proof.
  cbv zeta. destruct (sweep_keeps_equity sc env clk u s) as [He Hs].
  split; [exact He |]. split; [exact Hs |]. intros Hswept.
  destruct (sweep_books sc env clk u s Hswept) as (Hv & Hh & Ht & _ & _ & Hu & Hn).
  eexists _, _. split; [exact Hv |]. split; [exact Hh |]. split; [reflexivity |].
  split; [ring |]. auto.
Qed.

(** A call on a state that holds the time of an earlier sweep. *)
Lemma sweep_after (sc : Q) (env : Env) (clk : Clock) (u : t) (s : State) (last : Q) :
  s !! "last_sweep_time" = Some last ->
  (Py.gtb (day_start sc s) 0 = true ->
   s !! "daily_pnl_pct" = Some ((day_equity sc s - day_start sc s) / day_start sc s)) ->
  Py.geb (if Py.gtb (day_start sc s) 0
          then (day_equity sc s - day_start sc s) / day_start sc s else 0)
         (default (1 # 2) (TMS_PROFIT_SWEEP_THRESHOLD env)) = true ->
  (now_check clk - last < 3600 -> check_profit_sweep sc env clk u s = (u, s, false)) /\
  (3600 <= now_check clk - last ->
   snd (check_profit_sweep sc env clk u s) = true /\
   snd (fst (check_profit_sweep sc env clk u s)) !! "sovereign_vault"
     = Some (default 0 (s !! "sovereign_vault") + swept_amount sc env s) /\
   total_swept (fst (fst (check_profit_sweep sc env clk u s)))
     = total_swept u + swept_amount sc env s).
Proof.
  intros Hlast Hpct Hgrowth.
  unfold check_profit_sweep, swept_amount, day_equity, day_start in *. cbv zeta.
  destruct (Py.gtb (default sc (s !! "start_of_day_equity")) 0) eqn:Hstart;
    lookups; rewrite Hlast, Hgrowth.
  - split.
    + intros Hsoon.
      replace (Py.ltb ((now_check clk - last) / 3600) 1) with true.
      2:{ symmetry. apply ltb_true. apply Qlt_shift_div_r; lra. }
      f_equal. f_equal. apply insert_id. apply Hpct. reflexivity.
    + intros Hlate.
      replace (Py.ltb ((now_check clk - last) / 3600) 1) with false.
      2:{ symmetry. apply ltb_false. apply Qle_shift_div_l; lra. }
      cbn [fst snd]. lookups. cbn [total_swept]. auto.
  - split.
    + intros Hsoon.
      replace (Py.ltb ((now_check clk - last) / 3600) 1) with true.
      2:{ symmetry. apply ltb_true. apply Qlt_shift_div_r; lra. }
      reflexivity.
    + intros Hlate.
      replace (Py.ltb ((now_check clk - last) / 3600) 1) with false.
      2:{ symmetry. apply ltb_false. apply Qle_shift_div_l; lra. }
      cbn [fst snd]. lookups. cbn [total_swept]. auto.
Qed.

(** X20: the sweep repeats by the hour.  After a call that swept, a call
    on the state it left is refused without any change while less than an
    hour has passed since the sweep was stamped; once the hour has passed,
    and the equity being exactly what it was, the call sweeps the same
    amount again, for the sweep itself does not lower the equity that the
    daily growth is measured on. *)
Theorem X20_sweep_repeats_by_the_hour (sc : Q) (env : Env) (clk1 clk2 : Clock)
    (u : t) (s : State)
    (Hswept : snd (check_profit_sweep sc env clk1 u s) = true) :
  let u1 := fst (fst (check_profit_sweep sc env clk1 u s)) in
  let s1 := snd (fst (check_profit_sweep sc env clk1 u s)) in
  (now_check clk2 - now_stamp clk1 < 3600 ->
   check_profit_sweep sc env clk2 u1 s1 = (u1, s1, false)) /\
  (3600 <= now_check clk2 - now_stamp clk1 ->
   snd (check_profit_sweep sc env clk2 u1 s1) = true /\
   snd (fst (check_profit_sweep sc env clk2 u1 s1)) !! "sovereign_vault"
     = Some (default 0 (s !! "sovereign_vault")
             + swept_amount sc env s + swept_amount sc env s) /\
   total_swept (fst (fst (check_profit_sweep sc env clk2 u1 s1)))
     = total_swept u + swept_amount sc env s + swept_amount sc env s).
Proof.
  cbv zeta.
  destruct (sweep_books sc env clk1 u s Hswept) as (Hv & _ & _ & Hl & Hp & Hu & _).
  destruct (sweep_keeps_equity sc env clk1 u s) as [He Hs].
  destruct (sweep_done sc env clk1 u s Hswept) as [_ Hgrowth].
  set (u1 := fst (fst (check_profit_sweep sc env clk1 u s))) in *.
  set (s1 := snd (fst (check_profit_sweep sc env clk1 u s))) in *.
  assert (Hds : day_start sc s1 = day_start sc s) by (unfold day_start; rewrite Hs; reflexivity).
  assert (Hde : day_equity sc s1 = day_equity sc s)
    by (unfold day_equity; rewrite Hds, He; reflexivity).
  assert (Ham : swept_amount sc env s1 = swept_amount sc env s)
    by (unfold swept_amount; rewrite Hde; reflexivity).
  destruct (sweep_after sc env clk2 u1 s1 (now_stamp clk1) Hl) as [Hsoon Hlate].
  - rewrite Hds, Hde. exact Hp.
  - rewrite Hds, Hde. exact Hgrowth.
  - split; [exact Hsoon |]. intros H. destruct (Hlate H) as (Hb & Hv2 & Hu2).
    rewrite Hv2, Hu2, Ham, Hv, Hu. cbn [from_option id]. auto.
Qed.

(** On a day that went from 100 to 160 the first call sweeps 32; half an
    hour later nothing moves. *)
Lemma X20_witness :
  check_profit_sweep 100 default_sweep (sweep_clock 1800)
    (fst (fst (check_profit_sweep 100 default_sweep (sweep_clock 0) __init__ growing_day)))
    (snd (fst (check_profit_sweep 100 default_sweep (sweep_clock 0) __init__ growing_day)))
  = (fst (fst (check_profit_sweep 100 default_sweep (sweep_clock 0) __init__ growing_day)),
     snd (fst (check_profit_sweep 100 default_sweep (sweep_clock 0) __init__ growing_day)),
     false).
Proof.
  refine (proj1 (X20_sweep_repeats_by_the_hour 100 default_sweep (sweep_clock 0)
                   (sweep_clock 1800) __init__ growing_day _) _).
  - vm_compute. reflexivity.
  - cbn. lra.
Defined.

(** X21: the drawdown after a trade.  When the state holds the trade count
    and the peak, [update_state] returns; it counts the trade, raises the
    peak to the equity when the equity is above it, and records a drawdown
    that is never negative, is at most 1 when the equity is not negative,
    and is 0 when the equity is at or above the old peak. *)
Theorem X21_update_state_drawdown (sc : Q) (s : State) (pnl : option Q) (n p : Q)
    (Hcount : s !! "trades_today" = Some n)
    (Hpeak : s !! "peak_equity" = Some p) :
  let equity := default sc (s !! "equity") in
  exists s' drawdown,
    update_state sc s pnl = Returned s' tt /\
    s' !! "trades_today" = Some (n + 1) /\
    s' !! "daily_pnl" = Some (default 0 (s !! "daily_pnl") + default 0 pnl) /\
    s' !! "peak_equity" = Some (Py.max p equity) /\
    s' !! "current_drawdown" = Some drawdown /\
    0 <= drawdown /\
    (0 <= equity -> drawdown <= 1) /\
    (p <= equity -> drawdown == 0).
Proof.
  cbv zeta. unfold update_state. rewrite Hcount. cbv zeta. lookups. rewrite Hpeak.
  cbn [from_option id]. unfold Py.max, Py.gtb.
  set (equity := default sc (s !! "equity")).
  destruct (Py.ltb p equity) eqn:Hlt; lookups.
  - apply ltb_true in Hlt. eexists _, _. split; [reflexivity |]. lookups.
    do 4 (split; [reflexivity |]).
    destruct (Py.ltb 0 equity) eqn:H0.
    + apply ltb_true in H0.
      assert (Hz : (equity - equity) / equity == 0) by (field; lra).
      rewrite Hz. repeat split; intros; lra.
    + repeat split; intros; lra.
  - apply ltb_false in Hlt. rewrite Hpeak. eexists _, _. split; [reflexivity |]. lookups.
    rewrite Hpeak. do 4 (split; [reflexivity |]).
    destruct (Py.ltb 0 p) eqn:H0.
    + apply ltb_true in H0. split; [apply Qle_shift_div_l; lra |].
      split; intros He.
      * apply Qle_shift_div_r; lra.
      * assert (Hz : p - equity == 0) by lra. rewrite Hz. field. lra.
    + repeat split; intros; lra.
Qed.

Lemma X21_witness :
  exists s', update_state 100 losing_day None = Returned s' tt.
Proof.
  destruct (X21_update_state_drawdown 100 losing_day None 0 100) as (s' & _ & H & _).
  - vm_compute. reflexivity.
  - vm_compute. reflexivity.
  - exists s'. exact H.
Defined.

(** X22: the peak is read with a default but then demanded.  When the
    state has no peak, the default of the first read never exceeds the
    equity, nothing is stored, and the second read raises; by then the
    trade has been counted and the daily profit updated. *)
Theorem X22_update_state_raises_without_peak (sc : Q) (s : State) (pnl : option Q) (n : Q)
    (Hcount : s !! "trades_today" = Some n)
    (Hpeak : s !! "peak_equity" = None) :
  exists s',
    update_state sc s pnl = Raised s' /\
    s' !! "trades_today" = Some (n + 1) /\
    s' !! "daily_pnl" = Some (default 0 (s !! "daily_pnl") + default 0 pnl) /\
    s' !! "current_drawdown" = s !! "current_drawdown".
Proof.
  unfold update_state. rewrite Hcount. cbv zeta. lookups. rewrite Hpeak.
  cbn [from_option id].
  replace (Py.gtb (default sc (s !! "equity")) (default sc (s !! "equity"))) with false.
  2:{ symmetry. apply gtb_false. lra. }
  lookups. rewrite Hpeak. eexists. split; [reflexivity |]. lookups. auto.
Qed.

Lemma X22_witness :
  exists s', update_state 100 {[ "trades_today" := 3 ]} (Some 5) = Raised s'.
Proof.
  destruct (X22_update_state_raises_without_peak 100 {[ "trades_today" := 3 ]} (Some 5) 3)
    as (s' & H & _).
  - vm_compute. reflexivity.
  - vm_compute. reflexivity.
  - exists s'. exact H.
Defined.

End Updater.

Section EngineFrame.

Import HyperGrowth.

Context {Ohlcv : Type} `{SignalSources Ohlcv}.

Lemma same_settings_refl (e : t) : same_settings e e.
Proof. unfold same_settings. auto. Qed.

Lemma same_settings_trans (e1 e2 e3 : t) :
  same_settings e1 e2 -> same_settings e2 e3 -> same_settings e1 e3.
Proof.
  unfold same_settings. intros (A1 & A2 & A3 & A4) (B1 & B2 & B3 & B4).
  rewrite B1, B2, B3, B4. auto.
Qed.

Ltac settings :=
  unfold same_settings;
  cbn [state_of set_positions set_daily set_last_signal set_closed set_history
       _is_halted _source_accuracy config name];
  auto.

Lemma check_pyramid_settings (e : t) (ms : MarketState Ohlcv) :
  same_settings e (state_of (_check_pyramid e ms)).
Proof.
  unfold _check_pyramid.
  repeat match goal with
         | |- context [match ?x with _ => _ end] =>
           match type of x with
           | bool => destruct x
           | option _ => destruct x
           end
         end; settings.
Qed.

Lemma generate_signals_settings (clk : Clock) (e : t) (ms : MarketState Ohlcv) :
  same_settings e (state_of (generate_signals clk e ms)).
Proof.
  unfold generate_signals.
  destruct (_is_halted e) eqn:Hh; [settings |].
  destruct (ms_ohlcv ms) as [ohlcv |]; [| settings].
  destruct (n_bars ohlcv <? 20)%Z; [settings |].
  cbv zeta.
  set (e1 := if bool_decide (_last_trade_date e = Some (today clk)) then e
             else set_daily e 0 (Some (today clk))).
  assert (H1 : same_settings e e1)
    by (subst e1; destruct (bool_decide _); settings).
  clearbody e1. apply (same_settings_trans e e1); [exact H1 |]. clear H1 Hh.
  destruct (max_trades_per_day (config e1) <=? _daily_trades e1)%Z;
    [settings |].
  destruct (max_consecutive_losses (config e1) <=? _consecutive_losses e1)%Z;
    [settings |].
  match goal with
  | |- same_settings _ (state_of (if ?c then _ else _)) =>
    destruct c; [settings |]
  end.
  destruct (max_concurrent_positions (config e1) <=? _)%Z.
  { destruct (_active_positions e1 !! ms_symbol ms); [| settings].
    pose proof (check_pyramid_settings e1 ms) as Hp.
    destruct (_check_pyramid e1 ms) as [e2 [psig |] | e2]; exact Hp. }
  destruct (_fuse_signals e1 ohlcv (ms_symbol ms) (regime_of ms)) as [[score dir] srcs].
  destruct (Py.ltb score (min_signal_strength (config e1)) || String.eqb dir "neutral");
    [settings |].
  destruct (_calculate_position_size e1 score _) as [pct |]; [| settings].
  destruct (CompoundGrowthTracker.progress_pct _) as [prog |]; [| settings].
  destruct (String.eqb dir "bull"); [settings |].
  destruct (String.eqb dir "bear"); settings.
Qed.

Lemma on_position_close_settings (clk : Clock) (e : t) (symbol : string)
    (entry_price exit_price : Q) (side : string) (pnl_pct : Q) :
  same_settings e
    (state_of (on_position_close clk e symbol entry_price exit_price side pnl_pct)).
Proof.
  unfold on_position_close. cbv zeta.
  destruct (CompoundGrowthTracker.progress_pct _); settings.
Qed.

Lemma initial_accuracy_entries (source_name : string) :
  default (1, 2) (initial_accuracy !! source_name) = (1, 2).
Proof.
  destruct (initial_accuracy !! source_name) as [acc |] eqn:E; [| reflexivity].
  apply elem_of_list_to_map_2 in E. cbn [from_option id].
  repeat (apply elem_of_cons in E as [E | E]; [congruence |]).
  apply elem_of_nil in E. destruct E.
Qed.

(** X23: the engine neither halts itself nor learns.  Along every history
    of [generate_signals] and [on_position_close] calls, returned or
    raised, the halt flag stays clear, the configuration and the accuracy
    table stay those of the constructor, and so every source, known or
    not, keeps the weight 1/2 in the fusion. *)
Theorem X23_engine_never_halts_nor_learns (cfg : option HyperGrowthConfig)
    (engine_name : string) (starting_equity target_equity : Q) (e : t)
    (Hreach : engine_reachable Ohlcv
                (__init__ cfg engine_name starting_equity target_equity) e) :
  _is_halted e = false /\
  _source_accuracy e = initial_accuracy /\
  config e = default default_config cfg /\
  (forall source_name, _get_source_weight e source_name = 1 # 2).
Proof.
  assert (Hs : same_settings (__init__ cfg engine_name starting_equity target_equity) e).
  { induction Hreach as [| clk e ms _ IH | clk e symbol p1 p2 side pnl _ IH].
    - apply same_settings_refl.
    - eapply same_settings_trans; [exact IH | apply generate_signals_settings].
    - eapply same_settings_trans; [exact IH | apply on_position_close_settings]. }
  destruct Hs as (Hh & Ha & Hc & _). cbn [__init__ _is_halted _source_accuracy config] in *.
  do 3 (split; [assumption |]).
  intros source_name. unfold _get_source_weight. rewrite Ha, initial_accuracy_entries.
  reflexivity.
Qed.

End EngineFrame.

(** After a scan that opened a position, the engine is as the theorem
    says. *)
Lemma X23_witness :
  HyperGrowth._get_source_weight
    (state_of (HyperGrowth.generate_signals midnight fresh_engine
                 (snapshot (two_sources (9 # 10) "bull") 100)))
    "order_flow" = 1 # 2.
Proof.
  refine (proj2 (proj2 (proj2
            (X23_engine_never_halts_nor_learns None "HyperGrowthEngine" 100 500 _ _))) _).
  apply engine_signals. apply engine_start.
Defined.

Section EngineEntries.

Import HyperGrowth.

Context {Ohlcv : Type} `{SignalSources Ohlcv}.

(** What a call that returned an entry signal has done. *)
Lemma generate_signals_entry_shape (clk : Clock) (e e' : t) (ms : MarketState Ohlcv)
    (sigs : list Signal) (sig : Signal) :
  generate_signals clk e ms = Returned e' sigs ->
  In sig sigs -> is_entry sig = true ->
  sigs = [sig] /\
  symbol sig = ms_symbol ms /\
  target_price sig = Some (take_profit sig) /\
  (exists pos,
      _active_positions e' !! ms_symbol ms = Some pos /\
      entry_price pos = ms_current_price ms /\
      peak_price pos = ms_current_price ms /\
      pyramid_count pos = 0%Z /\
      pos_stop_loss pos = stop_loss sig /\
      pos_take_profit pos = take_profit sig) /\
  _last_signal_time e' !! ms_symbol ms = Some (utcnow clk) /\
  _last_trade_date e' = Some (today clk) /\
  (exists atr,
      match signal_type sig with
      | LONG =>
        stop_loss sig
          = Py.max (ms_current_price ms - atr * initial_stop_atr_mult (config e))
                   (ms_current_price ms * (1 - hard_stop_pct (config e))) /\
        take_profit sig
          = ms_current_price ms
            + (ms_current_price ms - stop_loss sig) * full_exit_r (config e)
      | SHORT =>
        stop_loss sig
          = Py.min (ms_current_price ms + atr * initial_stop_atr_mult (config e))
                   (ms_current_price ms * (1 + hard_stop_pct (config e))) /\
        take_profit sig
          = ms_current_price ms
            - (stop_loss sig - ms_current_price ms) * full_exit_r (config e)
      end).
Proof.
  unfold generate_signals.
  destruct (_is_halted e); [intros [= <- <-] [] |].
  destruct (ms_ohlcv ms) as [ohlcv |]; [| intros [= <- <-] []].
  destruct (n_bars ohlcv <? 20)%Z; [intros [= <- <-] [] |].
  cbv zeta.
  set (e1 := if bool_decide (_last_trade_date e = Some (today clk)) then e
             else set_daily e 0 (Some (today clk))).
  assert (Hcfg : config e1 = config e)
    by (subst e1; destruct (bool_decide _); reflexivity).
  assert (Hdate : _last_trade_date e1 = Some (today clk)).
  { subst e1. destruct (bool_decide _) eqn:E; [| reflexivity].
    apply bool_decide_eq_true in E. exact E. }
  clearbody e1.
  destruct (max_trades_per_day (config e1) <=? _daily_trades e1)%Z;
    [intros [= <- <-] [] |].
  destruct (max_consecutive_losses (config e1) <=? _consecutive_losses e1)%Z;
    [intros [= <- <-] [] |].
  match goal with
  | |- (if ?c then _ else _) = _ -> _ => destruct c; [intros [= <- <-] [] |]
  end.
  destruct (max_concurrent_positions (config e1) <=? _)%Z.
  { destruct (_active_positions e1 !! ms_symbol ms); [| intros [= <- <-] []].
    destruct (_check_pyramid e1 ms) as [e2 [psig |] | e2] eqn:Hp;
      [| intros [= <- <-] [] | discriminate].
    intros [= <- <-] [<- | []] Hentry.
    rewrite (check_pyramid_not_entry _ _ _ _ Hp) in Hentry. discriminate. }
  destruct (_fuse_signals e1 ohlcv (ms_symbol ms) (regime_of ms))
    as [[score dir] srcs].
  destruct (Py.ltb score (min_signal_strength (config e1)) || String.eqb dir "neutral");
    [intros [= <- <-] [] |].
  destruct (_calculate_position_size e1 score _) as [pct |]; [| discriminate].
  destruct (CompoundGrowthTracker.progress_pct _) as [prog |]; [| discriminate].
  rewrite Hcfg.
  destruct (String.eqb dir "bull") eqn:Eb.
  { intros [= <- <-] [<- | []] _.
    cbn [symbol target_price take_profit stop_loss signal_type set_positions set_daily
         set_last_signal _active_positions _last_signal_time _last_trade_date].
    rewrite !lookup_insert_eq.
    do 3 (split; [reflexivity |]).
    split; [eexists; split; [reflexivity |]; cbn; auto 10 |].
    do 2 (split; [auto |]).
    exists (_calculate_atr (config e) ohlcv). split; reflexivity. }
  destruct (String.eqb dir "bear") eqn:Er; [| intros [= <- <-] []].
  intros [= <- <-] [<- | []] _.
  cbn [symbol target_price take_profit stop_loss signal_type set_positions set_daily
       set_last_signal _active_positions _last_signal_time _last_trade_date].
  rewrite !lookup_insert_eq.
  do 3 (split; [reflexivity |]).
  split; [eexists; split; [reflexivity |]; cbn; auto 10 |].
  do 2 (split; [auto |]).
  exists (_calculate_atr (config e) ohlcv). split; reflexivity.
Qed.

(** X24: the levels of an entry.  The stop of an entry signal is never
    further from the price than the hard-stop fraction of the price, on
    either side; the take-profit lies [full_exit_r] times the distance to
    the stop beyond the price; and the engine has registered the position
    at the price with these levels and no pyramid adds. *)
Theorem X24_entry_levels (clk : Clock) (e e' : t) (ms : MarketState Ohlcv)
    (sigs : list Signal) (sig : Signal)
    (Hret : generate_signals clk e ms = Returned e' sigs)
    (Hin : In sig sigs) (Hentry : is_entry sig = true) :
  let price := ms_current_price ms in
  (signal_type sig = LONG ->
   price * (1 - hard_stop_pct (config e)) <= stop_loss sig /\
   price - stop_loss sig <= price * hard_stop_pct (config e) /\
   take_profit sig == price + (price - stop_loss sig) * full_exit_r (config e)) /\
  (signal_type sig = SHORT ->
   stop_loss sig <= price * (1 + hard_stop_pct (config e)) /\
   stop_loss sig - price <= price * hard_stop_pct (config e) /\
   take_profit sig == price - (stop_loss sig - price) * full_exit_r (config e)) /\
  (exists pos,
      _active_positions e' !! ms_symbol ms = Some pos /\
      entry_price pos = price /\
      pyramid_count pos = 0%Z /\
      pos_stop_loss pos = stop_loss sig /\
      pos_take_profit pos = take_profit sig).
Proof.
  cbv zeta.
  destruct (generate_signals_entry_shape clk e e' ms sigs sig Hret Hin Hentry)
    as (_ & _ & _ & (pos & Hp & Hpe & _ & Hpc & Hps & Hpt) & _ & _ & atr & Hlev).
  split; [| split].
  - intros Hlong. rewrite Hlong in Hlev. destruct Hlev as [Hs Ht].
    pose proof (max_spec (ms_current_price ms - atr * initial_stop_atr_mult (config e))
                  (ms_current_price ms * (1 - hard_stop_pct (config e)))) as [_ Hm].
    rewrite <- Hs in Hm. rewrite Ht. repeat split; lra.
  - intros Hshort. rewrite Hshort in Hlev. destruct Hlev as [Hs Ht].
    pose proof (min_spec (ms_current_price ms + atr * initial_stop_atr_mult (config e))
                  (ms_current_price ms * (1 + hard_stop_pct (config e)))) as [_ Hm].
    rewrite <- Hs in Hm. rewrite Ht. repeat split; lra.
  - exists pos. auto.
Qed.

(** X25: the cooldown after an entry.  After a call that returned an
    entry signal, a call for the same symbol less than
    [signal_cooldown_seconds] later returns no signal, whatever the market
    shows, and on the same day it leaves the engine as it was. *)
Theorem X25_cooldown_after_entry (clk clk2 : Clock) (e e' : t)
    (ms ms2 : MarketState Ohlcv) (sigs : list Signal) (sig : Signal)
    (Hret : generate_signals clk e ms = Returned e' sigs)
    (Hin : In sig sigs) (Hentry : is_entry sig = true)
    (Hsym : ms_symbol ms2 = ms_symbol ms)
    (Hsoon : utcnow clk2 - utcnow clk < inject_Z (signal_cooldown_seconds (config e))) :
  exists e'',
    generate_signals clk2 e' ms2 = Returned e'' [] /\
    (today clk2 = today clk -> e'' = e').
Proof.
  destruct (generate_signals_entry_shape clk e e' ms sigs sig Hret Hin Hentry)
    as (_ & _ & _ & _ & Hlast & Hdate & _).
  pose proof (generate_signals_settings clk e ms) as (Hh & _ & Hcfg & _).
  rewrite Hret in Hh, Hcfg. cbn [state_of] in Hh, Hcfg.
  unfold generate_signals.
  destruct (_is_halted e'); [exists e'; auto |].
  destruct (ms_ohlcv ms2) as [ohlcv |]; [| exists e'; auto].
  destruct (n_bars ohlcv <? 20)%Z; [exists e'; auto |].
  cbv zeta.
  set (e1 := if bool_decide (_last_trade_date e' = Some (today clk2)) then e'
             else set_daily e' 0 (Some (today clk2))).
  assert (Hsame : today clk2 = today clk -> e1 = e').
  { intros Ht. subst e1. rewrite Hdate, Ht.
    rewrite bool_decide_eq_true_2 by reflexivity. reflexivity. }
  assert (Hl1 : _last_signal_time e1 !! ms_symbol ms2 = Some (utcnow clk))
    by (subst e1; rewrite Hsym; destruct (bool_decide _); exact Hlast).
  assert (Hc1 : config e1 = config e)
    by (subst e1; destruct (bool_decide _); exact Hcfg).
  clearbody e1.
  destruct (max_trades_per_day (config e1) <=? _daily_trades e1)%Z; [exists e1; auto |].
  destruct (max_consecutive_losses (config e1) <=? _consecutive_losses e1)%Z;
    [exists e1; auto |].
  rewrite Hl1, Hc1.
  replace (Py.ltb (utcnow clk2 - utcnow clk)
                  (inject_Z (signal_cooldown_seconds (config e)))) with true
    by (symmetry; apply ltb_true; exact Hsoon).
  exists e1. auto.
Qed.

(** X26: closing ends the pyramid.  Whether the call returns or raises,
    [on_position_close] has taken the symbol off the active positions and
    left every other symbol's position alone; it logs the trade exactly
    when it returns; and a pyramid check for the symbol then returns no
    signal and changes nothing. *)
Theorem X26_close_ends_pyramid (clk : Clock) (e : t) (closed : string)
    (entry_price exit_price : Q) (side : string) (pnl_pct : Q)
    (ms : MarketState Ohlcv) :
  let r := on_position_close clk e closed entry_price exit_price side pnl_pct in
  _active_positions (state_of r) !! closed = None /\
  (forall other, other <> closed ->
     _active_positions (state_of r) !! other = _active_positions e !! other) /\
  (Py.len (_trade_history (state_of r))
     = Py.len (_trade_history e)
       + match r with Returned _ _ => 1 | Raised _ => 0 end)%Z /\
  (ms_symbol ms = closed ->
   _check_pyramid (state_of r) ms = Returned (state_of r) None).
Proof.
  cbv zeta. unfold on_position_close. cbv zeta.
  destruct (CompoundGrowthTracker.progress_pct _);
    cbn [state_of set_history set_closed _active_positions _trade_history].
  - split; [apply lookup_delete_eq |].
    split; [intros other Hne; apply lookup_delete_ne; congruence |].
    split; [unfold Py.len; rewrite length_app; cbn [length]; lia |].
    intros Hsym. unfold _check_pyramid. cbn [_active_positions set_history set_closed].
    rewrite Hsym, lookup_delete_eq. reflexivity.
  - split; [apply lookup_delete_eq |].
    split; [intros other Hne; apply lookup_delete_ne; congruence |].
    split; [lia |].
    intros Hsym. unfold _check_pyramid. cbn [_active_positions set_history set_closed].
    rewrite Hsym, lookup_delete_eq. reflexivity.
Qed.

End EngineEntries.

(** Two sources reading 0.9 in the bull direction at a price of 100: the
    position is registered at 100 with a stop at 96 or above. *)
Lemma X24_witness :
  exists e' sig pos,
    HyperGrowth.generate_signals midnight fresh_engine
      (snapshot (two_sources (9 # 10) "bull") 100) = Returned e' [sig] /\
    100 * (1 - HyperGrowth.hard_stop_pct (HyperGrowth.config fresh_engine))
      <= HyperGrowth.stop_loss sig /\
    HyperGrowth._active_positions e' !! "PEPE/USD" = Some pos /\
    HyperGrowth.entry_price pos = 100.
Proof.
  assert (Hrun : exists e' sig,
             HyperGrowth.generate_signals midnight fresh_engine
               (snapshot (two_sources (9 # 10) "bull") 100) = Returned e' [sig] /\
             is_entry sig = true /\
             HyperGrowth.signal_type sig = HyperGrowth.LONG).
  { eexists. eexists. split; [vm_compute; reflexivity | split; reflexivity]. }
  destruct Hrun as (e' & sig & Hgen & Hentry & Hlong).
  destruct (X24_entry_levels midnight fresh_engine e'
              (snapshot (two_sources (9 # 10) "bull") 100) [sig] sig Hgen
              (or_introl eq_refl) Hentry) as (Hl & _ & pos & Hp & He & _).
  exists e', sig, pos. split; [exact Hgen |]. split; [exact (proj1 (Hl Hlong)) |].
  split; [exact Hp | exact He].
Defined.

(** Thirty seconds after that entry, with the default cooldown of sixty,
    the same reading gives no signal. *)
Lemma X25_witness :
  exists e' sig e'',
    HyperGrowth.generate_signals midnight fresh_engine
      (snapshot (two_sources (9 # 10) "bull") 100) = Returned e' [sig] /\
    HyperGrowth.generate_signals half_minute_later e'
      (snapshot (two_sources (9 # 10) "bull") 101) = Returned e'' [].
Proof.
  assert (Hrun : exists e' sig,
             HyperGrowth.generate_signals midnight fresh_engine
               (snapshot (two_sources (9 # 10) "bull") 100) = Returned e' [sig] /\
             is_entry sig = true).
  { eexists. eexists. split; [vm_compute; reflexivity | reflexivity]. }
  destruct Hrun as (e' & sig & Hgen & Hentry).
  destruct (X25_cooldown_after_entry midnight half_minute_later fresh_engine e'
              (snapshot (two_sources (9 # 10) "bull") 100)
              (snapshot (two_sources (9 # 10) "bull") 101) [sig] sig Hgen
              (or_introl eq_refl) Hentry eq_refl) as (e'' & Hnone & _).
  - vm_compute. reflexivity.
  - exists e', sig, e''. split; [exact Hgen | exact Hnone].
Defined.

Section MemePositions.

Import Memecoin.

Lemma price_path_snoc (p : MemecoinPosition) (prices : list Q) (x : Q) :
  price_path p (prices ++ [x]) = update_price (price_path p prices) x.
Proof. unfold price_path. rewrite fold_left_app. reflexivity. Qed.

(** X27: the peak follows the path.  A position opened at a positive
    price and then updated along any sequence of prices stands at the last
    price; its peak is the highest of the entry price and the prices seen,
    so never below the current price; and the two gains it carries are
    those of the current price and of the peak over the entry price. *)
Theorem X27_peak_follows_path (mint symbol name : string)
    (entry amount_sol amount_tokens : Q) (now reason : string) (safety : Q)
    (prices : list Q) (Hentry : 0 < entry) :
  let p := price_path (open_position mint symbol name entry amount_sol amount_tokens
                         now reason safety) prices in
  entry_price p = entry /\
  current_price p = List.last prices entry /\
  entry <= peak_price p /\
  current_price p <= peak_price p /\
  Forall (fun x => x <= peak_price p) prices /\
  (peak_price p = entry \/ In (peak_price p) prices) /\
  unrealized_pnl_pct p == (current_price p - entry) / entry /\
  peak_pnl_pct p == (peak_price p - entry) / entry /\
  0 <= peak_pnl_pct p.
Proof.
  cbv zeta. induction prices as [| x prices IH] using rev_ind.
  - cbn. split; [reflexivity |]. split; [reflexivity |].
    split; [lra |]. split; [lra |]. split; [constructor |]. split; [auto |].
    split; [field; lra |]. split; [field; lra | lra].
  - rewrite price_path_snoc.
    destruct IH as (He & Hc & Hpe & Hcp & Hall & Hin & Hu & Hpp & H0).
    set (p := price_path _ prices) in *. clearbody p.
    rewrite last_last. unfold update_price.
    cbn [entry_price current_price peak_price unrealized_pnl_pct peak_pnl_pct].
    rewrite He.
    replace (Py.gtb entry 0) with true by (symmetry; apply gtb_true; exact Hentry).
    split; [reflexivity |]. split; [reflexivity |].
    destruct (Py.gtb x (peak_price p)) eqn:Hx.
    + apply gtb_true in Hx.
      split; [lra |]. split; [lra |].
      split.
      { apply Forall_app. split; [| repeat constructor; lra].
        eapply Forall_impl; [exact Hall |]. cbn. intros a Ha. lra. }
      split; [right; apply in_or_app; right; left; reflexivity |].
      split; [reflexivity |]. split; [reflexivity |].
      apply Qle_shift_div_l; lra.
    + apply gtb_false in Hx.
      split; [exact Hpe |]. split; [exact Hx |].
      split; [apply Forall_app; split; [exact Hall | repeat constructor; exact Hx] |].
      split; [destruct Hin as [Hin | Hin]; [left; exact Hin |
                                            right; apply in_or_app; left; exact Hin] |].
      split; [reflexivity |]. split; [exact Hpp | exact H0].
Qed.

Lemma X27_witness :
  peak_price (price_path (meme_position 1) [2; 3; 2]) = 1 \/
  In (peak_price (price_path (meme_position 1) [2; 3; 2])) [2; 3; 2].
Proof.
  refine (proj1 (proj2 (proj2 (proj2 (proj2 (proj2
            (X27_peak_follows_path "MINT" "MEME" "Meme coin" 1 1 1000
               "2025-01-01T00:00:00" "alpha" 80 [2; 3; 2] _))))))).
  reflexivity.
Defined.

Lemma select_trail_positive (configured gain : Q) :
  0 < configured -> 0 < select_trail configured gain.
Proof.
  intros Hc. unfold select_trail.
  repeat match goal with
         | |- context [if ?c then _ else _] => destruct c
         end; lra.
Qed.

(** X28: no exit at a new high.  When the price moves above the peak of a
    position, at or above its entry price, [should_exit] after the update
    asks for no exit: the loss stop is below zero and the drawdown from the
    new peak is zero, below every trailing distance. *)
Theorem X28_no_exit_at_new_high (p : MemecoinPosition) (new_price : Q)
    (Hentry : 0 < entry_price p)
    (Habove : entry_price p <= new_price)
    (Hhigh : peak_price p < new_price)
    (Hstop : stop_loss_pct p < 0)
    (Htrail : 0 < trailing_stop_pct p) :
  should_exit (update_price p new_price) = (false, "").
Proof.
  unfold should_exit, update_price.
  cbn [is_active unrealized_pnl_pct stop_loss_pct peak_pnl_pct trailing_stop_pct
       peak_price current_price].
  destruct (is_active p); [cbn [negb] | reflexivity].
  replace (Py.gtb (entry_price p) 0) with true by (symmetry; apply gtb_true; exact Hentry).
  replace (Py.gtb new_price (peak_price p)) with true
    by (symmetry; apply gtb_true; exact Hhigh).
  assert (Hgain : 0 <= (new_price - entry_price p) / entry_price p)
    by (apply Qle_shift_div_l; lra).
  replace (Py.leb ((new_price - entry_price p) / entry_price p) (stop_loss_pct p))
    with false by (symmetry; apply leb_false; lra).
  destruct (Py.gtb ((new_price - entry_price p) / entry_price p) 0); [| reflexivity].
  pose proof (select_trail_positive (trailing_stop_pct p)
                ((new_price - entry_price p) / entry_price p) Htrail) as Hpos.
  replace (Py.gtb new_price 0) with true by (symmetry; apply gtb_true; lra).
  replace (Py.geb ((new_price - new_price) / new_price)
                  (select_trail (trailing_stop_pct p)
                     ((new_price - entry_price p) / entry_price p))) with false;
    [reflexivity |].
  symmetry. apply geb_false.
  assert (Hz : (new_price - new_price) / new_price == 0) by (field; lra).
  rewrite Hz. exact Hpos.
Qed.

Lemma X28_witness :
  should_exit (update_price (meme_position 1) 2) = (false, "").
Proof.
  apply (X28_no_exit_at_new_high (meme_position 1) 2); cbn; lra.
Defined.

Lemma dict_get_set {V} (k : string) (v : V) (d : list (string * V)) :
  Dict.get k (Dict.set k v d) = Some v.
Proof.
  induction d as [| [k' v'] d IH]; cbn [Dict.set Dict.get].
  - rewrite String.eqb_refl. reflexivity.
  - destruct (String.eqb k k') eqn:E; cbn [Dict.get]; rewrite E; [reflexivity | exact IH].
Qed.

Lemma dict_get_del {V} (k : string) (d : list (string * V)) :
  Dict.get k (Dict.del k d) = None.
Proof.
  unfold Dict.del. induction d as [| [k' v'] d IH]; cbn [List.filter Dict.get fst];
    [reflexivity |].
  destruct (String.eqb k k') eqn:E; cbn [negb Dict.get]; [exact IH |].
  rewrite E. exact IH.
Qed.

(** X29: partial sells are not booked.  A partial sell leaves the profit
    totals and the win count as they were and only shrinks the position; a
    full exit that follows books the gain on what is left of the entry
    amount, so the share sold before never enters the totals. *)
Theorem X29_partial_sells_not_booked (venue1 venue2 : Venue) (now1 now2 : string)
    (e e1 e2 : t) (mint : string) (p : MemecoinPosition)
    (sell_pct : Q) (reason1 reason2 : string) (s1 g1 s2 g2 : Q) (r1 r2 : string)
    (Hheld : Dict.get mint (positions e) = Some p)
    (Hpart : sell_pct < 99 # 100)
    (Hfirst : execute_sell venue1 now1 e mint sell_pct reason1 = (e1, Sold s1 g1 r1))
    (Hsecond : execute_sell venue2 now2 e1 mint 1 reason2 = (e2, Sold s2 g2 r2)) :
  total_pnl_sol e1 = total_pnl_sol e /\
  daily_pnl_sol e1 = daily_pnl_sol e /\
  winning_trades e1 = winning_trades e /\
  closed_positions e1 = closed_positions e /\
  total_pnl_sol e2
    == total_pnl_sol e + entry_amount_sol p * (1 - sell_pct) * unrealized_pnl_pct p /\
  Dict.get mint (positions e2) = None.
Proof.
  unfold execute_sell in Hfirst. rewrite Hheld in Hfirst.
  destruct (Py.int (entry_amount_tokens p * sell_pct) <=? 0)%Z; [discriminate |].
  destruct (execute_swap venue1 mint _); [| discriminate]. cbn [negb] in Hfirst.
  replace (Py.geb sell_pct (99 # 100)) with false in Hfirst
    by (symmetry; apply geb_false; exact Hpart).
  injection Hfirst as <- _ _ _.
  cbn [total_pnl_sol daily_pnl_sol winning_trades closed_positions].
  do 4 (split; [reflexivity |]).
  unfold execute_sell in Hsecond. cbn [positions] in Hsecond.
  rewrite dict_get_set in Hsecond.
  destruct (Py.int (entry_amount_tokens (partial_exit p sell_pct) * 1) <=? 0)%Z;
    [discriminate |].
  destruct (execute_swap venue2 mint _); [| discriminate]. cbn [negb] in Hsecond.
  replace (Py.geb 1 (99 # 100)) with true in Hsecond by reflexivity.
  injection Hsecond as <- _ _ _.
  cbn [total_pnl_sol positions close_position partial_exit entry_amount_sol
       realized_pnl_pct unrealized_pnl_pct].
  split; [reflexivity | apply dict_get_del].
Qed.

(** A fifth of the position is sold at a gain of 250%, then the rest: of
    the 2.5 SOL gained on the entry amount, 2 are booked. *)
Lemma X29_witness :
  total_pnl_sol
    (fst (execute_sell (venue_at (35 # 10)) "t2"
            (fst (execute_sell (venue_at (35 # 10)) "t1"
                    (holding (update_price (meme_position 1) (35 # 10)))
                    "MINT" (20 # 100) "partial"))
            "MINT" 1 "exit"))
  == 0 + 1 * (1 - (20 # 100)) * (25 # 10).
Proof.
  refine (proj1 (proj2 (proj2 (proj2 (proj2
            (X29_partial_sells_not_booked (venue_at (35 # 10)) (venue_at (35 # 10))
               "t1" "t2" (holding (update_price (meme_position 1) (35 # 10)))
               (fst (execute_sell (venue_at (35 # 10)) "t1"
                       (holding (update_price (meme_position 1) (35 # 10)))
                       "MINT" (20 # 100) "partial"))
               (fst (execute_sell (venue_at (35 # 10)) "t2"
                       (fst (execute_sell (venue_at (35 # 10)) "t1"
                               (holding (update_price (meme_position 1) (35 # 10)))
                               "MINT" (20 # 100) "partial"))
                       "MINT" 1 "exit"))
               "MINT" (update_price (meme_position 1) (35 # 10))
               (20 # 100) "partial" "exit" (20 # 100) (25 # 10) 1 (25 # 10)
               "partial" "exit" _ _ _ _)))))).
  - reflexivity.
  - reflexivity.
  - vm_compute. reflexivity.
  - vm_compute. reflexivity.
Defined.

End MemePositions.

Section MemeSizing.

Import AlphaScorer MemecoinPositionSizer.

Lemma recommendation_has_no_multiplier (score : Q) :
  conviction_multipliers __init__ !! _get_recommendation score = None.
Proof.
  unfold _get_recommendation.
  repeat match goal with
         | |- context [if ?c then _ else _] => destruct c
         end; vm_compute; reflexivity.
Qed.

(** X30: the scorer's labels are not the sizer's keys.  The label that
    [_get_recommendation] gives to a score is never a key of the
    conviction multipliers, so a size computed for it uses the multiplier
    1: whatever the score, the portfolio and the exposure, the size is at
    most 6% of the portfolio, and a refused trade has size 0. *)
Theorem X30_scorer_labels_miss_multipliers (portfolio_value_sol score exposure : Q)
    (current_positions : Z) :
  let s := calculate_position_size __init__ portfolio_value_sol score
             (_get_recommendation score) current_positions exposure in
  conviction_multipliers __init__ !! _get_recommendation score = None /\
  (can_trade s = true -> multiplier s = Some 1) /\
  0 <= size_pct s <= 6 # 100 /\
  (can_trade s = false -> size_sol s = 0 /\ size_pct s = 0).
Proof.
  cbv zeta. split; [apply recommendation_has_no_multiplier |].
  unfold calculate_position_size. rewrite recommendation_has_no_multiplier.
  cbn [from_option id].
  destruct (max_positions __init__ <=? current_positions)%Z;
    [cbn; split; [discriminate |]; split; [lra | auto] |].
  cbn [max_portfolio_in_memes base_allocation_pct max_allocation_pct __init__].
  destruct (Py.leb ((80 # 100) - exposure) (2 # 100)) eqn:Hcap;
    [cbn; split; [discriminate |]; split; [lra | auto] |].
  apply leb_false in Hcap.
  set (base := Py.min (Py.min ((5 # 100) * 1) (15 # 100)) ((80 # 100) - exposure)).
  assert (Hbase : 0 < base /\ base <= 5 # 100).
  { subst base.
    pose proof (min_spec ((5 # 100) * 1) (15 # 100)) as [Ha _].
    pose proof (min_spec (Py.min ((5 # 100) * 1) (15 # 100)) ((80 # 100) - exposure))
      as [Hb _].
    split; [| lra].
    destruct (min_cases (Py.min ((5 # 100) * 1) (15 # 100)) ((80 # 100) - exposure))
      as [-> | ->]; [| lra].
    destruct (min_cases ((5 # 100) * 1) (15 # 100)) as [-> | ->]; lra. }
  clearbody base. destruct Hbase as [Hb0 Hb1].
  set (adjusted := if Py.geb score 85 then base * (12 # 10)
                   else if Py.ltb score 65 then base * (7 # 10) else base).
  assert (Hadj : 0 < adjusted /\ adjusted <= 6 # 100).
  { subst adjusted. destruct (Py.geb score 85); [lra |].
    destruct (Py.ltb score 65); lra. }
  clearbody adjusted. destruct Hadj as [Ha0 Ha1].
  assert (Hsize : 0 <= Py.min adjusted (15 # 100) <= 6 # 100).
  { pose proof (min_spec adjusted (15 # 100)) as [Hm _].
    split; [| lra].
    destruct (min_cases adjusted (15 # 100)) as [Hc | Hc]; rewrite Hc; lra. }
  destruct (Py.ltb _ (1 # 100));
    cbn [can_trade multiplier size_pct size_sol refused].
  - split; [discriminate |]. split; [lra | auto].
  - split; [reflexivity |]. split; [exact Hsize | discriminate].
Qed.

End MemeSizing.
